(** * Optiqo paper-trading engine: execution core

    A shallow embedding of the order / fill / position lifecycle of the
    engine (src/engine/portfolio.py, broker.py, risk_manager.py,
    enhanced_strategy_adapter.py, strategy_manager.py) and the properties
    its specification states about it.

    Modelling conventions.
    - A Python [int] is a [Z]; a Python [float] is idealised as an exact
      rational [Q] (rounding error, infinities and NaN are outside the
      model); [==] on [Q] is equality of rationals.
    - A Python [str] is a [string]; [dict]s keyed by strings are [gmap]s.
    - Random draws, clock readings and generated identifiers are explicit
      arguments of the functions that consume them; so is the library
      function [datetime.fromtimestamp], which raises for a timestamp it
      cannot represent.
    - A call that may raise returns a [result]; [try/except Exception] is a
      match on it. Logging has no effect on the modelled state. *)

From Stdlib Require Import ZArith QArith Qround Qfield String Ascii List Lia Bool.
From stdpp Require Import gmap strings.
From Stdlib Require Import Lqa Qabs.

Import ListNotations.
Local Open Scope Z_scope.

(** ** Python values shared by the modules *)

Module Py.

(** Exceptions derived from [Exception], the class every handler of the
    embedded code catches. *)
Inductive exn : Type :=
| NameError (name : string)
| RuntimeError (msg : string)
| PyException (class_name msg : string).

Inductive result (A : Type) : Type :=
| Ret (a : A)
| Raise (e : exn).
Arguments Ret {A} a.
Arguments Raise {A} e.

Definition bind {A B : Type} (c : result A) (k : A -> result B) : result B :=
  match c with
  | Ret a => k a
  | Raise e => Raise e
  end.

(** [str.upper] and [str.lower] on ASCII text. *)
Definition upper_ascii (c : ascii) : ascii :=
  let n := nat_of_ascii c in
  if ((97 <=? n)%nat && (n <=? 122)%nat)%bool then ascii_of_nat (n - 32) else c.

Definition lower_ascii (c : ascii) : ascii :=
  let n := nat_of_ascii c in
  if ((65 <=? n)%nat && (n <=? 90)%nat)%bool then ascii_of_nat (n + 32) else c.

Fixpoint upper (s : string) : string :=
  match s with
  | EmptyString => EmptyString
  | String c s' => String (upper_ascii c) (upper s')
  end.

Fixpoint lower (s : string) : string :=
  match s with
  | EmptyString => EmptyString
  | String c s' => String (lower_ascii c) (lower s')
  end.

(** Comparisons of floats: [a >= b] and [a > b]. *)
Definition Qgeb (a b : Q) : bool := Qle_bool b a.
Definition Qgtb (a b : Q) : bool := negb (Qle_bool a b).

(** [round(x, 2)]: nearest multiple of 1/100, ties to the even one. *)
Definition round_half_even (y : Q) : Z :=
  let fl := Qfloor y in
  let frac := (y - inject_Z fl)%Q in
  match (frac ?= 1 # 2)%Q with
  | Lt => fl
  | Gt => fl + 1
  | Eq => if Z.even fl then fl else fl + 1
  end.

Definition round2 (x : Q) : Q :=
  Qred (inject_Z (round_half_even (x * 100)) / 100)%Q.

End Py.

Notation "'do' x <- c ; k" := (Py.bind c (fun x => k))
  (at level 10, x name, c at level 100, k at level 200).

(** ** src/engine/portfolio.py *)

Module Portfolio.

(** The attributes of [FillEvent] (engine/event_engine.py) that
    [on_fill_event] reads; [exchange_order_id] may be Python's [None]. *)
Record FillEvent : Type := mkFillEvent {
  order_id : string;
  instrument_token : string;
  exchange_order_id : option string;
  transaction_type : string;
  quantity : Z;
  price : Q;
  brokerage : Q;
  fill_timestamp : Q
}.

(** An entry of [self.positions]. *)
Record Position : Type := mkPosition {
  pos_instrument_token : string;
  pos_quantity : Z;
  pos_avg_price : Q;
  pos_last_known_price : Q
}.

(** An entry of [self.portfolio_trades]; [tr_timestamp] is the converted
    [datetime]. *)
Record TradeRecord : Type := mkTradeRecord {
  tr_timestamp : Q;
  tr_instrument_token : string;
  tr_order_id : string;
  tr_exchange_order_id : option string;
  tr_transaction_type : string;
  tr_quantity : Z;
  tr_price : Q;
  tr_brokerage : Q;
  tr_current_cash_after_trade : Q
}.

(** An entry of [self.equity_curve]; [snap_positions] is the dictionary
    [{k: v['quantity']}] that the source serialises with [json.dumps]. *)
Record EquitySnapshot : Type := mkEquitySnapshot {
  snap_timestamp : Q;
  snap_cash : Q;
  snap_positions : gmap string Z;
  snap_total_value : Q
}.

Record PortfolioManager : Type := mkPortfolioManager {
  initial_cash : Q;
  current_cash : Q;
  positions : gmap string Position;
  equity_curve : list EquitySnapshot;
  portfolio_trades : list TradeRecord
}.

(** [__init__] when no positions file exists. *)
Definition init (cash : Q) : PortfolioManager :=
  {| initial_cash := cash;
     current_cash := cash;
     positions := ∅;
     equity_curve := [];
     portfolio_trades := [] |}.

(** Lines 120-128: the cash update. *)
Definition update_cash (cash : Q) (event : FillEvent) : Q :=
  if String.eqb (transaction_type event) "BUY" then
    let cost := (inject_Z (quantity event) * price event + brokerage event)%Q in
    (cash - cost)%Q
  else if String.eqb (transaction_type event) "SELL" then
    let revenue := (inject_Z (quantity event) * price event - brokerage event)%Q in
    (cash + revenue)%Q
  else cash.

(** Lines 131-139: [current_pos], created with quantity 0 when the
    instrument has no entry. *)
Definition new_position (event : FillEvent) : Position :=
  {| pos_instrument_token := instrument_token event;
     pos_quantity := 0;
     pos_avg_price := 0;
     pos_last_known_price := price event |}.

Definition current_position (ps : gmap string Position) (event : FillEvent)
  : Position :=
  match ps !! instrument_token event with
  | Some p => p
  | None => new_position event
  end.

(** Lines 141-149: the BUY branch. *)
Definition apply_buy (current_pos : Position) (event : FillEvent) : Position :=
  let old_total_value :=
    (inject_Z (pos_quantity current_pos) * pos_avg_price current_pos)%Q in
  let new_quantity := pos_quantity current_pos + quantity event in
  let avg :=
    if new_quantity =? 0 then 0%Q
    else ((old_total_value + inject_Z (quantity event) * price event)
          / inject_Z new_quantity)%Q in
  {| pos_instrument_token := pos_instrument_token current_pos;
     pos_quantity := new_quantity;
     pos_avg_price := avg;
     pos_last_known_price := pos_last_known_price current_pos |}.

(** Lines 151-167: the SELL branch. *)
Definition apply_sell (current_pos : Position) (event : FillEvent) : Position :=
  let new_quantity := pos_quantity current_pos - quantity event in
  let avg :=
    if new_quantity =? 0 then 0%Q
    else if ((pos_quantity current_pos >? 0) && (new_quantity <? 0))
            || ((pos_quantity current_pos <? 0) && (new_quantity >? 0))
         then price event
         else pos_avg_price current_pos in
  {| pos_instrument_token := pos_instrument_token current_pos;
     pos_quantity := new_quantity;
     pos_avg_price := avg;
     pos_last_known_price := pos_last_known_price current_pos |}.

Definition update_position (current_pos : Position) (event : FillEvent)
  : Position :=
  if String.eqb (transaction_type event) "BUY" then apply_buy current_pos event
  else if String.eqb (transaction_type event) "SELL" then apply_sell current_pos event
  else current_pos.

(** Lines 130-172. [current_pos] aliases the dictionary entry, so the
    mutated record is what the dictionary holds; it is deleted when its
    quantity is 0. *)
Definition update_positions (ps : gmap string Position) (event : FillEvent)
  : gmap string Position :=
  let current_pos := update_position (current_position ps event) event in
  let ps' := <[instrument_token event := current_pos]> ps in
  if pos_quantity current_pos =? 0 then delete (instrument_token event) ps'
  else ps'.

(** Lines 175-185: the dictionary appended to [self.portfolio_trades];
    [timestamp] is the [datetime] made from [event.fill_timestamp]. *)
Definition trade_record (event : FillEvent) (timestamp : Q) (cash : Q)
  : TradeRecord :=
  {| tr_timestamp := timestamp;
     tr_instrument_token := instrument_token event;
     tr_order_id := order_id event;
     tr_exchange_order_id := exchange_order_id event;
     tr_transaction_type := transaction_type event;
     tr_quantity := quantity event;
     tr_price := price event;
     tr_brokerage := brokerage event;
     tr_current_cash_after_trade := cash |}.

(** [_record_equity_snapshot]: the total value is the cash alone. *)
Definition equity_snapshot (cash : Q) (timestamp : Q)
           (ps : gmap string Position) : EquitySnapshot :=
  let total_value := cash in
  {| snap_timestamp := timestamp;
     snap_cash := cash;
     snap_positions := pos_quantity <$> ps;
     snap_total_value := total_value |}.

Section Clock.

(** [datetime.fromtimestamp(t, tz=ZoneInfo("Asia/Kolkata"))]: the
    [datetime], or the exception ([OverflowError], [OSError] or
    [ValueError]) it raises for a timestamp it cannot represent. *)
Variable fromtimestamp : Q -> Py.result Q.

(** [on_fill_event]: the manager after the call, and how the call ends.
    Cash and positions are updated first (lines 120-172); the conversion
    of the timestamp at line 176 may raise, and then neither the trade
    record nor the equity snapshot is made. [_save_positions] (line 187)
    writes the positions file and catches every exception; it leaves the
    manager untouched. *)
Definition on_fill_event (self : PortfolioManager) (event : FillEvent)
  : PortfolioManager * Py.result unit :=
  let cash := update_cash (current_cash self) event in
  let ps := update_positions (positions self) event in
  match fromtimestamp (fill_timestamp event) with
  | Py.Raise e =>
      ({| initial_cash := initial_cash self;
          current_cash := cash;
          positions := ps;
          equity_curve := equity_curve self;
          portfolio_trades := portfolio_trades self |}, Py.Raise e)
  | Py.Ret timestamp =>
      let trades := portfolio_trades self ++ [trade_record event timestamp cash] in
      match fromtimestamp (fill_timestamp event) with
      | Py.Raise e =>
          ({| initial_cash := initial_cash self;
              current_cash := cash;
              positions := ps;
              equity_curve := equity_curve self;
              portfolio_trades := trades |}, Py.Raise e)
      | Py.Ret current_time_for_snapshot =>
          ({| initial_cash := initial_cash self;
              current_cash := cash;
              positions := ps;
              equity_curve :=
                equity_curve self
                ++ [equity_snapshot cash current_time_for_snapshot ps];
              portfolio_trades := trades |}, Py.Ret tt)
      end
  end.

(** A run of calls, oldest first: the manager after the last one. A call
    that raised has still updated cash and positions. *)
Definition on_fill_events (self : PortfolioManager) (events : list FillEvent)
  : PortfolioManager :=
  fold_left (fun self event => fst (on_fill_event self event)) events self.

(** Whether the timestamp of a fill converts. *)
Definition converts (event : FillEvent) : bool :=
  match fromtimestamp (fill_timestamp event) with
  | Py.Ret _ => true
  | Py.Raise _ => false
  end.

End Clock.

(** The specification's reading of the position quantity: fills count
    signed, BUY positive and SELL negative. *)
Definition signed_quantity (event : FillEvent) : Z :=
  if String.eqb (transaction_type event) "BUY" then quantity event
  else if String.eqb (transaction_type event) "SELL" then - quantity event
  else 0.

Definition signed_sum (events : list FillEvent) : Z :=
  fold_right (fun e acc => signed_quantity e + acc) 0 events.

(** The fills applied since the position last reached zero: [acc] collects
    the fills seen since the running signed total [running] was last 0. *)
Fixpoint fills_since_zero (running : Z) (acc : list FillEvent)
         (events : list FillEvent) : list FillEvent :=
  match events with
  | [] => acc
  | e :: rest =>
      let running' := running + signed_quantity e in
      if running' =? 0 then fills_since_zero 0 [] rest
      else fills_since_zero running' (acc ++ [e]) rest
  end.

Definition since_last_zero (events : list FillEvent) : list FillEvent :=
  fills_since_zero 0 [] events.

(** The quantity held in an instrument; no entry counts as 0. *)
Definition held (ps : gmap string Position) (token : string) : Z :=
  match ps !! token with
  | Some p => pos_quantity p
  | None => 0
  end.

Definition no_zero_entry (ps : gmap string Position) : Prop :=
  forall k p, ps !! k = Some p -> pos_quantity p <> 0.

End Portfolio.

(** ** src/engine/broker.py *)

Module Broker.

(** The dictionary [order_details] built and returned by [place_order]. *)
Record OrderDetails : Type := mkOrderDetails {
  od_order_id : string;
  od_instrument_token : string;
  od_transaction_type : string;
  od_quantity : Z;
  od_product : string;
  od_validity : string;
  od_order_type : string;
  od_price : Q;
  od_trigger_price : Q;
  od_disclosed_quantity : Z;
  od_is_amo : bool;
  od_tag : string;
  od_status : string;
  od_timestamp : Q;
  od_exchange_order_id : option string;
  od_filled_quantity : Z;
  od_filled_price : Q
}.

(** The dictionary [fill_event] appended to [self.trades]. *)
Record Trade : Type := mkTrade {
  t_order_id : string;
  t_instrument_token : string;
  t_exchange_order_id : string;
  t_transaction_type : string;
  t_quantity : Z;
  t_price : Q;
  t_brokerage : Q;
  t_fill_timestamp : Q
}.

Record SimulatedBroker : Type := mkSimulatedBroker {
  slippage_percent : Q;
  fill_chance : Q;
  orders : gmap string OrderDetails;
  trades : list Trade;
  initial_funds : Q;
  current_funds : Q
}.

(** [__init__]. *)
Definition init (slippage fill : Q) : SimulatedBroker :=
  {| slippage_percent := slippage;
     fill_chance := fill;
     orders := ∅;
     trades := [];
     initial_funds := 1000000;
     current_funds := 1000000 |}.

(** The keyword arguments of [place_order]. *)
Record OrderRequest : Type := mkOrderRequest {
  instrument_token : string;
  transaction_type : string;
  quantity : Z;
  product : string;
  validity : string;
  order_type : string;
  price : Q;
  trigger_price : Q;
  disclosed_quantity : Z;
  is_amo : bool;
  tag : string
}.

(** What one call of [place_order] reads from its environment:
    [uuid.uuid4()] twice, [time.time()] twice, [random.random()] and
    [random.uniform(99, 101)]. *)
Record Draws : Type := mkDraws {
  uuid_order : string;
  time_placed : Q;
  random_draw : Q;
  uniform_draw : Q;
  uuid_exchange : string;
  time_filled : Q
}.

(** [calculate_margin] and [calculate_brokerage] (a flat fee). *)
Definition calculate_margin (price : Q) (quantity : Z) : Q :=
  ((price * inject_Z quantity) * (1 # 10))%Q.

Definition calculate_brokerage : Q := 20%Q.

(** Line 186: the price before slippage. *)
Definition base_fill_price (price uniform : Q) : Q :=
  if Py.Qgtb price 0 then price
  else if Py.Qgtb price 0 then (uniform / 100 * price)%Q
       else 100%Q.

(** Lines 186-194: the fill price, with slippage, rounded. *)
Definition fill_price_of (self : SimulatedBroker) (transaction_type : string)
           (price uniform : Q) : Q :=
  let fill_price := base_fill_price price uniform in
  let slippage_amount := (fill_price * (slippage_percent self / 100))%Q in
  let fill_price :=
    if String.eqb (Py.upper transaction_type) "BUY"
    then (fill_price + slippage_amount)%Q
    else (fill_price - slippage_amount)%Q in
  Py.round2 fill_price.

Definition pending_order (req : OrderRequest) (d : Draws) : OrderDetails :=
  {| od_order_id := uuid_order d;
     od_instrument_token := instrument_token req;
     od_transaction_type := transaction_type req;
     od_quantity := quantity req;
     od_product := product req;
     od_validity := validity req;
     od_order_type := order_type req;
     od_price := price req;
     od_trigger_price := trigger_price req;
     od_disclosed_quantity := disclosed_quantity req;
     od_is_amo := is_amo req;
     od_tag := tag req;
     od_status := "PENDING";
     od_timestamp := time_placed d;
     od_exchange_order_id := None;
     od_filled_quantity := 0;
     od_filled_price := 0 |}.

Definition set_status (od : OrderDetails) (status : string) : OrderDetails :=
  {| od_order_id := od_order_id od;
     od_instrument_token := od_instrument_token od;
     od_transaction_type := od_transaction_type od;
     od_quantity := od_quantity od;
     od_product := od_product od;
     od_validity := od_validity od;
     od_order_type := od_order_type od;
     od_price := od_price od;
     od_trigger_price := od_trigger_price od;
     od_disclosed_quantity := od_disclosed_quantity od;
     od_is_amo := od_is_amo od;
     od_tag := od_tag od;
     od_status := status;
     od_timestamp := od_timestamp od;
     od_exchange_order_id := od_exchange_order_id od;
     od_filled_quantity := od_filled_quantity od;
     od_filled_price := od_filled_price od |}.

(** The four assignments of a fill: status, filled quantity, filled
    price and exchange order id. *)
Definition set_filled (od : OrderDetails) (quantity : Z) (fill_price : Q)
           (exchange_id : string) : OrderDetails :=
  {| od_order_id := od_order_id od;
     od_instrument_token := od_instrument_token od;
     od_transaction_type := od_transaction_type od;
     od_quantity := od_quantity od;
     od_product := od_product od;
     od_validity := od_validity od;
     od_order_type := od_order_type od;
     od_price := od_price od;
     od_trigger_price := od_trigger_price od;
     od_disclosed_quantity := od_disclosed_quantity od;
     od_is_amo := od_is_amo od;
     od_tag := od_tag od;
     od_status := "FILLED";
     od_timestamp := od_timestamp od;
     od_exchange_order_id := Some exchange_id;
     od_filled_quantity := quantity;
     od_filled_price := fill_price |}.

Definition fill_record (req : OrderRequest) (d : Draws) (fill_price brokerage : Q)
  : Trade :=
  {| t_order_id := uuid_order d;
     t_instrument_token := instrument_token req;
     t_exchange_order_id := uuid_exchange d;
     t_transaction_type := transaction_type req;
     t_quantity := quantity req;
     t_price := fill_price;
     t_brokerage := brokerage;
     t_fill_timestamp := time_filled d |}.

(** The broker after the call: [self.orders[order_id]] is the very
    dictionary that is returned, so it holds the final [order_details]. *)
Definition store (self : SimulatedBroker) (funds : Q) (new_trades : list Trade)
           (od : OrderDetails) : SimulatedBroker * OrderDetails :=
  ({| slippage_percent := slippage_percent self;
      fill_chance := fill_chance self;
      orders := <[od_order_id od := od]> (orders self);
      trades := trades self ++ new_trades;
      initial_funds := initial_funds self;
      current_funds := funds |}, od).

(** [place_order]. *)
Definition place_order (self : SimulatedBroker) (req : OrderRequest) (d : Draws)
  : SimulatedBroker * OrderDetails :=
  let order_details := pending_order req d in
  if String.eqb (Py.upper (order_type req)) "MARKET"
     && Qle_bool (random_draw d) (fill_chance self)
  then
    let fill_price :=
      fill_price_of self (transaction_type req) (price req) (uniform_draw d) in
    let brokerage := calculate_brokerage in
    let trade_value := (fill_price * inject_Z (quantity req))%Q in
    if String.eqb (Py.upper (transaction_type req)) "BUY" then
      let cost := (trade_value + brokerage)%Q in
      if Py.Qgeb (current_funds self) cost then
        store self (current_funds self - cost)%Q
              [fill_record req d fill_price brokerage]
              (set_filled order_details (quantity req) fill_price (uuid_exchange d))
      else
        store self (current_funds self) [] (set_status order_details "REJECTED")
    else if String.eqb (Py.upper (transaction_type req)) "SELL" then
      let revenue := (trade_value - brokerage)%Q in
      store self (current_funds self + revenue)%Q
            [fill_record req d fill_price brokerage]
            (set_filled order_details (quantity req) fill_price (uuid_exchange d))
    else store self (current_funds self) [] order_details
  else if String.eqb (Py.upper (order_type req)) "LIMIT" then
    store self (current_funds self) [] order_details
  else
    store self (current_funds self) [] (set_status order_details "REJECTED").

(** The price the specification names for a market order: the requested
    price moved by the slippage percentage, rounded to two decimals. *)
Definition slipped_requested_price (self : SimulatedBroker)
           (transaction_type : string) (price : Q) : Q :=
  if String.eqb (Py.upper transaction_type) "BUY"
  then Py.round2 (price + price * (slippage_percent self / 100))%Q
  else Py.round2 (price - price * (slippage_percent self / 100))%Q.

End Broker.

(** ** src/engine/risk_manager.py *)

Module RiskManager.

Record InstrumentDict : Type := mkInstrumentDict {
  exchange_token : string;
  quantity : Z;
  product : string;
  transaction_type : string;
  price : Q
}.

(** The three queries of [BaseBroker] that [validate_order] awaits; each
    returns a float or raises. *)
Record BaseBroker : Type := mkBaseBroker {
  calculate_margin : InstrumentDict -> Py.result Q;
  calculate_brokerage : InstrumentDict -> Py.result Q;
  get_funds_and_margin : Py.result Q
}.

(** The [try] block of [validate_order]. *)
Definition validate_order_body (broker : BaseBroker)
           (instrument_dict : InstrumentDict) (trade_type : string)
  : Py.result (bool * Q * Q) :=
  do margin_required <- calculate_margin broker instrument_dict;
  do brokerage_required <- calculate_brokerage broker instrument_dict;
  do available_margin <- get_funds_and_margin broker;
  if String.eqb (Py.lower trade_type) "entry" then
    let total_cost := (margin_required + brokerage_required)%Q in
    if Py.Qgeb available_margin total_cost
    then Py.Ret (true, margin_required, brokerage_required)
    else Py.Ret (false, margin_required, brokerage_required)
  else if String.eqb (Py.lower trade_type) "exit" then
    if Py.Qgeb available_margin brokerage_required
    then Py.Ret (true, margin_required, brokerage_required)
    else Py.Ret (false, margin_required, brokerage_required)
  else Py.Ret (false, 0%Q, 0%Q).

(** [validate_order]: the [except Exception] clause turns a raise into
    the tuple [(False, 0.0, 0.0)]; the outer result tells whether the call
    itself raises. *)
Definition validate_order (broker : BaseBroker) (exchange_token : string)
           (quantity : Z) (product transaction_type trade_type : string)
           (price : Q) : Py.result (bool * Q * Q) :=
  let instrument_dict :=
    {| exchange_token := exchange_token;
       quantity := quantity;
       product := product;
       transaction_type := transaction_type;
       price := price |} in
  match validate_order_body broker instrument_dict trade_type with
  | Py.Ret r => Py.Ret r
  | Py.Raise e => Py.Ret (false, 0%Q, 0%Q)
  end.

(** The simulated broker seen through the three queries. *)
Definition of_simulated (b : Broker.SimulatedBroker) : BaseBroker :=
  {| calculate_margin := fun d =>
       Py.Ret (Broker.calculate_margin (price d) (quantity d));
     calculate_brokerage := fun _ => Py.Ret Broker.calculate_brokerage;
     get_funds_and_margin := Py.Ret (Broker.current_funds b) |}.

End RiskManager.

(** ** src/engine/enhanced_strategy_adapter.py *)

Module EnhancedStrategyAdapter.

(** The names the module binds at top level: its imports (lines 6-18) and
    its two classes. A name that a function body reads and that is neither
    local nor listed here (nor a builtin) raises [NameError]. *)
Definition module_globals : list string :=
  [ "asyncio"; "logging"; "Dict"; "List"; "Optional"; "Any"; "Union";
    "datetime"; "json"; "EventEngine"; "MarketEvent"; "SignalEvent";
    "OrderEvent"; "FillEvent"; "PortfolioManager"; "TradeExecutor";
    "RiskManager"; "get_logger"; "BaseStrategy"; "EnhancedBaseStrategy";
    "EnhancedStrategyAdapter"; "PerformanceTracker" ]%string.

Definition lookup_global (globals : list string) (name : string)
  : Py.result unit :=
  if existsb (String.eqb name) globals then Py.Ret tt
  else Py.Raise (Py.NameError name).

Section Adapter.

(** [datetime] objects, their rendering with ['%Y-%m-%d %H:%M'] and
    the subtraction of [timedelta(hours=h)] belong to Python's library. *)
Variable datetime : Type.
Variable strftime_minute : datetime -> string.
Variable minus_hours : datetime -> Z -> datetime.

(** The wrapped strategy object and the market events it handles. *)
Variable MarketEvent : Type.
Variable instrument_token : MarketEvent -> string.
Variable Strategy : Type.
Variable handle_market_event :
  Strategy -> MarketEvent -> Strategy * Py.result unit.

(** The module's top-level names; [module_globals] for the source as it
    is. *)
Variable globals : list string.

Record Adapter : Type := mkAdapter {
  strategy : Strategy;
  max_signals_per_minute : Z;
  signal_rate_limiter : gmap string (gmap string Z);
  market_events_count : Z
}.

(** [__init__]. *)
Definition init (s : Strategy) : Adapter :=
  {| strategy := s;
     max_signals_per_minute := 10;
     signal_rate_limiter := ∅;
     market_events_count := 0 |}.

Definition set_rate_limiter (self : Adapter)
           (rl : gmap string (gmap string Z)) : Adapter :=
  {| strategy := strategy self;
     max_signals_per_minute := max_signals_per_minute self;
     signal_rate_limiter := rl;
     market_events_count := market_events_count self |}.

(** [_cleanup_rate_limiter]; [now] is its own reading of the clock. *)
Definition _cleanup_rate_limiter (rl : gmap string (gmap string Z))
           (now : datetime) : Py.result (gmap string (gmap string Z)) :=
  let current_time := now in
  do _ <- lookup_global globals "timedelta";
  let cutoff_time := minus_hours current_time 1 in
  let cutoff_key := strftime_minute cutoff_time in
  Py.Ret (filter (fun kv : string * gmap string Z =>
                    String.ltb (fst kv) cutoff_key = false) rl).

(** [_check_rate_limit]. The dictionary updates made before a raise
    stay in place, so the adapter is returned next to the outcome. *)
Definition _check_rate_limit (self : Adapter) (token : string)
           (now now' : datetime) : Adapter * Py.result bool :=
  let current_time := now in
  let minute_key := strftime_minute current_time in
  let rl := signal_rate_limiter self in
  let rl :=
    match rl !! minute_key with
    | None => <[minute_key := ∅]> rl
    | Some _ => rl
    end in
  let bucket := default ∅ (rl !! minute_key) in
  let bucket :=
    match bucket !! token with
    | None => <[token := 0]> bucket
    | Some _ => bucket
    end in
  let rl := <[minute_key := bucket]> rl in
  let count := default 0 (bucket !! token) in
  if count >=? max_signals_per_minute self then
    (set_rate_limiter self rl, Py.Ret false)
  else
    let rl := <[minute_key := <[token := count + 1]> bucket]> rl in
    match _cleanup_rate_limiter rl now' with
    | Py.Ret rl' => (set_rate_limiter self rl', Py.Ret true)
    | Py.Raise e => (set_rate_limiter self rl, Py.Raise e)
    end.

(** [on_market_event]; the boolean tells whether the strategy's
    handler was invoked. *)
Definition on_market_event (self : Adapter) (event : MarketEvent)
           (now now' : datetime) : Adapter * bool :=
  match _check_rate_limit self (instrument_token event) now now' with
  | (self, Py.Ret false) => (self, false)
  | (self, Py.Ret true) =>
      let (strategy', r) := handle_market_event (strategy self) event in
      let count :=
        match r with
        | Py.Ret _ => market_events_count self + 1
        | Py.Raise _ => market_events_count self
        end in
      ({| strategy := strategy';
          max_signals_per_minute := max_signals_per_minute self;
          signal_rate_limiter := signal_rate_limiter self;
          market_events_count := count |}, true)
  | (self, Py.Raise _) => (self, false)
  end.

(** The counter of an instrument in a minute bucket; 0 when absent. *)
Definition counter (self : Adapter) (minute_key token : string) : Z :=
  default 0 (default ∅ (signal_rate_limiter self !! minute_key) !! token).

(** [n] consecutive calls of [_check_rate_limit] for one instrument,
    all within the minute of [now]; the outcomes, oldest first. *)
Fixpoint check_repeatedly (n : nat) (self : Adapter) (token : string)
         (now : datetime) : Adapter * list (Py.result bool) :=
  match n with
  | O => (self, [])
  | S n' =>
      let (self1, r) := _check_rate_limit self token now now in
      let (self2, rs) := check_repeatedly n' self1 token now in
      (self2, r :: rs)
  end.

End Adapter.

End EnhancedStrategyAdapter.

(** ** src/engine/strategy_manager.py *)

Module StrategyManager.

Inductive StrategyStatus : Type :=
| INITIALIZING | RUNNING | PAUSED | STOPPED | ERROR | COMPLETED.

Definition status_eqb (a b : StrategyStatus) : bool :=
  match a, b with
  | INITIALIZING, INITIALIZING | RUNNING, RUNNING | PAUSED, PAUSED
  | STOPPED, STOPPED | ERROR, ERROR | COMPLETED, COMPLETED => true
  | _, _ => false
  end.

Section Manager.

(** Strategy objects and their [handle_market_event]: a call returns
    or raises, and may change the object itself. A handler does not
    reach into the manager's table, so the deliveries of one broadcast
    are independent of each other and of the order in which the loop
    visits [self.strategies]; the table is a finite map. *)
Variable MarketEvent : Type.
Variable Strategy : Type.
Variable handle_market_event :
  Strategy -> MarketEvent -> Strategy * Py.result unit.

Record StrategyInstance : Type := mkStrategyInstance {
  id : string;
  name : string;
  instance : Strategy;
  status : StrategyStatus;
  error_count : Z;
  max_errors : Z
}.

(** The metadata [add_strategy] builds, once [_initialize_strategy]
    has succeeded: the dataclass defaults and status RUNNING. *)
Definition new_instance (sid nm : string) (s : Strategy) : StrategyInstance :=
  {| id := sid; name := nm; instance := s; status := RUNNING;
     error_count := 0; max_errors := 5 |}.

(** [_send_event_to_strategy], from the instance that
    [self.strategies[strategy_id]] yields; [route_market_event] only
    passes ids of the table. The instance is mutated in place. *)
Definition _send_event_to_strategy (strategy : StrategyInstance)
           (event : MarketEvent) : StrategyInstance :=
  let (instance', r) := handle_market_event (instance strategy) event in
  match r with
  | Py.Ret _ =>
      {| id := id strategy; name := name strategy; instance := instance';
         status := status strategy;
         error_count := error_count strategy;
         max_errors := max_errors strategy |}
  | Py.Raise _ =>
      let count := error_count strategy + 1 in
      {| id := id strategy; name := name strategy; instance := instance';
         status := if count >=? max_errors strategy then ERROR
                   else status strategy;
         error_count := count;
         max_errors := max_errors strategy |}
  end.

(** One iteration of the broadcast loop. *)
Definition route_to (event : MarketEvent) (strategy : StrategyInstance)
  : StrategyInstance :=
  if status_eqb (status strategy) RUNNING
  then _send_event_to_strategy strategy event
  else strategy.

(** [route_market_event]; [None] and the empty string are falsy. *)
Definition route_market_event (strategies : gmap string StrategyInstance)
           (event : MarketEvent) (strategy_id : option string)
  : gmap string StrategyInstance :=
  match strategy_id with
  | Some (String c s) =>
      let sid := String c s in
      match strategies !! sid with
      | Some strategy =>
          if status_eqb (status strategy) RUNNING
          then <[sid := _send_event_to_strategy strategy event]> strategies
          else strategies
      | None => strategies
      end
  | _ => route_to event <$> strategies
  end.

(** A run of calls, oldest first. *)
Definition route_market_events (strategies : gmap string StrategyInstance)
           (calls : list (MarketEvent * option string))
  : gmap string StrategyInstance :=
  fold_left (fun m c => route_market_event m (fst c) (snd c)) calls strategies.

(** What a spy on the handler of instance [sid] records for one call:
    whether the call invokes it, and whether that invocation raises. *)
Definition targets (strategy_id : option string) (sid : string) : bool :=
  match strategy_id with
  | Some (String c s) => String.eqb (String c s) sid
  | _ => true
  end.

Definition delivered (strategies : gmap string StrategyInstance)
           (call : MarketEvent * option string) (sid : string) : bool :=
  match strategies !! sid with
  | Some strategy =>
      targets (snd call) sid && status_eqb (status strategy) RUNNING
  | None => false
  end.

Definition raised (strategies : gmap string StrategyInstance)
           (call : MarketEvent * option string) (sid : string) : bool :=
  match strategies !! sid with
  | Some strategy =>
      delivered strategies call sid
      && match snd (handle_market_event (instance strategy) (fst call)) with
         | Py.Raise _ => true
         | Py.Ret _ => false
         end
  | None => false
  end.

(** Handler invocations, and raising ones, of [sid] over a run. *)
Fixpoint delivery_count (strategies : gmap string StrategyInstance)
         (calls : list (MarketEvent * option string)) (sid : string) : nat :=
  match calls with
  | [] => O
  | c :: rest =>
      ((if delivered strategies c sid then 1 else 0)
       + delivery_count (route_market_event strategies (fst c) (snd c)) rest sid)%nat
  end.

Fixpoint raise_count (strategies : gmap string StrategyInstance)
         (calls : list (MarketEvent * option string)) (sid : string) : nat :=
  match calls with
  | [] => O
  | c :: rest =>
      ((if raised strategies c sid then 1 else 0)
       + raise_count (route_market_event strategies (fst c) (snd c)) rest sid)%nat
  end.

End Manager.

End StrategyManager.

(** ** Concrete inputs

    The end-to-end scenario of the specification and the inputs at which
    the properties below are instantiated. *)

Module Scenario.

Local Open Scope string_scope.

(** BUY 100 @ 100, then SELL 100 @ 110 or BUY 50 @ 130, brokerage 20. *)
Definition buy_100 : Portfolio.FillEvent :=
  Portfolio.mkFillEvent "order-1" "NSE_EQ_INFY" (Some "exch-1") "BUY" 100 100 20 0.

Definition sell_100 : Portfolio.FillEvent :=
  Portfolio.mkFillEvent "order-2" "NSE_EQ_INFY" (Some "exch-2") "SELL" 100 110 20 60.

Definition buy_50 : Portfolio.FillEvent :=
  Portfolio.mkFillEvent "order-3" "NSE_EQ_INFY" (Some "exch-3") "BUY" 50 130 20 120.

(** [datetime.fromtimestamp(t, tz=ZoneInfo("Asia/Kolkata"))] in the
    scenarios: the timestamp is rounded to the microsecond, ties to even,
    and converts when the local time falls in the years 1 to 9999; outside
    them the call raises (the class of the exception depends on the
    platform). The [datetime] is represented by the rounded timestamp. *)
Definition fromtimestamp (t : Q) : Py.result Q :=
  let us := Py.round_half_even (t * 1000000)%Q in
  if (us <? -62135596800000000)%Z then
    Py.Raise (Py.PyException "ValueError" "year is out of range")
  else if (253402280999999999 <? us)%Z then
    Py.Raise (Py.PyException "OverflowError" "date value out of range")
  else Py.Ret (Qred (inject_Z us / 1000000)%Q).

(** A fill whose side the ledger does not know. *)
Definition bonus_10 : Portfolio.FillEvent :=
  Portfolio.mkFillEvent "order-4" "NSE_EQ_TCS" (Some "exch-4") "BONUS" 10 0 0 180.

(** A market order for [quantity] units at [price]. *)
Definition market_order (side : string) (quantity : Z) (price : Q)
  : Broker.OrderRequest :=
  Broker.mkOrderRequest "NSE_EQ_INFY" side quantity "MIS" "DAY" "MARKET"
                        price 0 0 false "".

Definition draws : Broker.Draws :=
  Broker.mkDraws "uuid-1" 0 (1 # 2) 100 "uuid-2" 1.

(** A broker whose queries return fixed values, and one whose margin
    query raises. *)
Definition fixed_broker (m k f : Q) : RiskManager.BaseBroker :=
  RiskManager.mkBaseBroker (fun _ => Py.Ret m) (fun _ => Py.Ret k) (Py.Ret f).

Definition failing_broker : RiskManager.BaseBroker :=
  RiskManager.mkBaseBroker (fun _ => Py.Raise (Py.RuntimeError "margin"))
                           (fun _ => Py.Ret 20%Q) (Py.Ret 1000%Q).

(** Strategy objects that raise on every market event ([true]) or
    handle it ([false]). *)
Definition handler (faulty : bool) (event : unit) : bool * Py.result unit :=
  (faulty, if faulty then Py.Raise (Py.RuntimeError "handler") else Py.Ret tt).

Definition two_strategies : gmap string (StrategyManager.StrategyInstance bool) :=
  <["bad_1" := StrategyManager.new_instance bool "bad_1" "bad" true]>
    (<["good_1" := StrategyManager.new_instance bool "good_1" "good" false]> ∅).

Definition five_broadcasts : list (unit * option string) :=
  [(tt, None); (tt, None); (tt, None); (tt, None); (tt, None)].

End Scenario.

(** ** src/engine/portfolio.py: snapshots, reports and the positions file *)

Module Ledger.

Import Portfolio.

(** [initialize]: the first equity snapshot, taken at clock reading [now]. *)
Definition initialize (self : PortfolioManager) (now : Q) : PortfolioManager :=
  {| initial_cash := initial_cash self;
     current_cash := current_cash self;
     positions := positions self;
     equity_curve :=
       equity_curve self
       ++ [equity_snapshot (current_cash self) now (positions self)];
     portfolio_trades := portfolio_trades self |}.

(** [log_current_state], line 222. *)
Definition realized_pnl (self : PortfolioManager) : Q :=
  (current_cash self - initial_cash self)%Q.

(** [generate_performance_report], lines 259-262: the total return of the
    summary, when the equity curve is not empty. *)
Definition total_return (self : PortfolioManager) : option Q :=
  match equity_curve self with
  | [] => None
  | first :: _ =>
      let initial_value := snap_total_value first in
      let final_value :=
        snap_total_value (List.last (equity_curve self) first) in
      Some (if negb (Qeq_bool initial_value 0)
            then ((final_value - initial_value) / initial_value)%Q
            else 0%Q)
  end.

(** The cash a fill moves, as the ledger books it. *)
Definition cash_flow (event : FillEvent) : Q :=
  if String.eqb (transaction_type event) "BUY"
  then (- (inject_Z (quantity event) * price event + brokerage event))%Q
  else if String.eqb (transaction_type event) "SELL"
       then (inject_Z (quantity event) * price event - brokerage event)%Q
       else 0%Q.

Definition total_cash_flow (events : list FillEvent) : Q :=
  fold_right (fun e acc => (cash_flow e + acc)%Q) 0%Q events.

(** Every entry of the positions map is filed under its own token. *)
Definition keys_match (ps : gmap string Position) : Prop :=
  forall k p, ps !! k = Some p -> pos_instrument_token p = k.

(** The three names a manager is created with. *)
Record Identity : Type := mkIdentity {
  broker_name : string;
  account_name : string;
  strategy_name : string
}.

(** The dictionary stored per strategy in the positions file; each of its
    two keys may be absent. *)
Record StrategyEntry : Type := mkStrategyEntry {
  se_positions : option (list Position);
  se_current_cash : option Q
}.

(** The positions file: absent, not parseable as JSON, or a dictionary
    broker key -> account -> strategy -> entry. *)
Inductive PositionsFile : Type :=
| NoFile
| Malformed
| Json (data : gmap string (gmap string (gmap string StrategyEntry))).

Definition broker_key (who : Identity) : string :=
  (Py.upper (broker_name who) ++ "_ACCOUNTS")%string.

(** What a call of [_save_positions] gets onto the disk. The whole body
    is inside [try/except Exception], so the call itself never raises. *)
Inductive SaveOutcome : Type :=
| Written      (* [json.dump] completes: the file holds the new text *)
| NotOpened    (* [os.makedirs], reading the old file or [open(.., 'w')]
                  raises: the file is as it was *)
| Truncated.   (* [open(.., 'w')] has emptied the file and [json.dump]
                  raises: the file holds a proper prefix of the text *)

(** Lines 86-100: the dictionary that [json.dump] is given. *)
Definition saved_data (self : PortfolioManager) (who : Identity)
           (file : PositionsFile)
  : gmap string (gmap string (gmap string StrategyEntry)) :=
  let data :=
    match file with
    | Json d => d
    | Malformed => ∅
    | NoFile => ∅
    end in
  let accounts := default ∅ (data !! broker_key who) in
  let strategies := default ∅ (accounts !! account_name who) in
  let entry :=
    {| se_positions := Some (snd <$> map_to_list (positions self));
       se_current_cash := Some (current_cash self) |} in
  <[broker_key who :=
      <[account_name who :=
          <[strategy_name who := entry]> strategies]> accounts]> data.

(** [_save_positions]: the positions file after the call. A proper
    prefix of the text of a JSON dictionary is not parseable. *)
Definition _save_positions (self : PortfolioManager) (who : Identity)
           (file : PositionsFile) (outcome : SaveOutcome) : PositionsFile :=
  match outcome with
  | Written => Json (saved_data self who file)
  | NotOpened => file
  | Truncated => Malformed
  end.

(** The dictionary comprehension [{p['instrument_token']: p for p in l}]:
    a later element replaces an earlier one with the same token. *)
Definition positions_of_list (l : list Position) : gmap string Position :=
  fold_left (fun m p => <[pos_instrument_token p := p]> m) l ∅.

(** [_load_positions], as [__init__] calls it with empty positions and
    the initial cash: the positions and the cash the manager starts with. *)
Definition _load_positions (who : Identity) (initial_cash : Q)
           (file : PositionsFile) : gmap string Position * Q :=
  match file with
  | NoFile => (∅, initial_cash)
  | Malformed => (∅, initial_cash)
  | Json data =>
      match data !! broker_key who with
      | None => (∅, initial_cash)
      | Some accounts =>
          match accounts !! account_name who with
          | None => (∅, initial_cash)
          | Some strategies =>
              match strategies !! strategy_name who with
              | None => (∅, initial_cash)
              | Some entry =>
                  match se_positions entry with
                  | None => (∅, initial_cash)
                  | Some loaded_positions_list =>
                      (positions_of_list loaded_positions_list,
                       default initial_cash (se_current_cash entry))
                  end
              end
          end
      end
  end.

(** The entry a manager named [who] finds in the file, if any. *)
Definition stored_entry (who : Identity) (file : PositionsFile)
  : option StrategyEntry :=
  match file with
  | Json data =>
      accounts ← data !! broker_key who;
      strategies ← accounts !! account_name who;
      strategies !! strategy_name who
  | _ => None
  end.

(** [__init__] with a positions file. *)
Definition init_from (who : Identity) (cash : Q) (file : PositionsFile)
  : PortfolioManager :=
  {| initial_cash := cash;
     current_cash := snd (_load_positions who cash file);
     positions := fst (_load_positions who cash file);
     equity_curve := [];
     portfolio_trades := [] |}.

End Ledger.

(** ** src/engine/broker.py: the order book *)

Module OrderBook.

Import Broker.

(** [cancel_order]; the boolean is the "success" of the returned status. *)
Definition cancel_order (self : SimulatedBroker) (order_id : string)
  : SimulatedBroker * bool :=
  match orders self !! order_id with
  | Some order =>
      if String.eqb (od_status order) "PENDING" then
        ({| slippage_percent := slippage_percent self;
            fill_chance := fill_chance self;
            orders := <[order_id := set_status order "CANCELLED"]> (orders self);
            trades := trades self;
            initial_funds := initial_funds self;
            current_funds := current_funds self |}, true)
      else (self, false)
  | None => (self, false)
  end.

(** [get_order_details]: [None] stands for the empty dictionary. *)
Definition get_order_details (self : SimulatedBroker) (order_id : string)
  : option OrderDetails :=
  orders self !! order_id.

(** [get_funds_and_margin]. *)
Definition get_funds_and_margin (self : SimulatedBroker) : Q :=
  current_funds self.

End OrderBook.

(** ** src/engine/enhanced_strategy_adapter.py: the signal path *)

Module Signals.

(** The attributes of [SignalEvent] that the adapter reads. *)
Record SignalEvent : Type := mkSignalEvent {
  instrument_token : string;
  signal_type : string;
  quantity : Z;
  price : Q;
  order_type : string;
  product_type : string;
  validity : string;
  tag : string
}.

(** The keyword arguments the adapter builds an [OrderEvent] from. *)
Record OrderEvent : Type := mkOrderEvent {
  oe_instrument_token : string;
  oe_transaction_type : string;
  oe_quantity : Z;
  oe_product : string;
  oe_validity : string;
  oe_order_type : string;
  oe_price : Q;
  oe_tag : string
}.

(** An entry of [self.signal_history]; [sr_timestamp] is the clock
    reading of [_record_signal]. *)
Record SignalRecord : Type := mkSignalRecord {
  sr_timestamp : Q;
  sr_strategy_id : string;
  sr_instrument_token : string;
  sr_signal_type : string;
  sr_quantity : Z;
  sr_price : Q;
  sr_order_type : string;
  sr_status : string
}.

(** What [_check_portfolio_risk_limits] reads of [get_strategy_state()]:
    quantity and average price of each position (no positions when the
    key is absent) and the max drawdown (0 when absent). *)
Record StrategyState : Type := mkStrategyState {
  st_positions : list (Q * Q);
  st_max_drawdown : Q
}.

Record SignalAdapter : Type := mkSignalAdapter {
  strategy_id : string;
  is_enhanced : bool;
  signal_history : list SignalRecord
}.

(** [_validate_signal]; the empty string is the falsy string. *)
Definition _validate_signal (event : SignalEvent) : bool :=
  if String.eqb (instrument_token event) ""
     || String.eqb (signal_type event) ""
     || (quantity event <=? 0)
  then false
  else if negb (String.eqb (signal_type event) "BUY"
                || String.eqb (signal_type event) "SELL")
  then false
  else if quantity event >? 10000 then false
  else true.

(** The slice [l[-n:]] of Python. *)
Definition slice_last {A : Type} (n : Z) (l : list A) : list A :=
  if n =? 0 then l
  else if 0 <? n then skipn (length l - Z.to_nat n) l
  else skipn (Z.to_nat (- n)) l.

(** [_record_signal] at clock reading [now]. *)
Definition _record_signal (self : SignalAdapter) (event : SignalEvent) (now : Q)
  : SignalAdapter :=
  let signal_record :=
    {| sr_timestamp := now;
       sr_strategy_id := strategy_id self;
       sr_instrument_token := instrument_token event;
       sr_signal_type := signal_type event;
       sr_quantity := quantity event;
       sr_price := price event;
       sr_order_type := order_type event;
       sr_status := "pending" |} in
  let history := signal_history self ++ [signal_record] in
  let max_history := 1000 in
  {| strategy_id := strategy_id self;
     is_enhanced := is_enhanced self;
     signal_history :=
       if (Z.of_nat (length history) >? max_history)
       then slice_last max_history history
       else history |}.

(** [get_signal_history]. *)
Definition get_signal_history (self : SignalAdapter) (limit : Z)
  : list SignalRecord :=
  match signal_history self with
  | [] => []
  | _ => slice_last limit (signal_history self)
  end.

(** [_check_portfolio_risk_limits]. *)
Definition total_exposure (positions : list (Q * Q)) : Q :=
  fold_left (fun acc pos => (acc + Qabs (fst pos * snd pos))%Q) positions 0%Q.

Definition _check_portfolio_risk_limits (event : SignalEvent)
           (strategy_state : StrategyState) : bool :=
  let total_exposure := total_exposure (st_positions strategy_state) in
  let new_exposure := (inject_Z (quantity event) * price event)%Q in
  let max_concentration := (3 # 10)%Q in
  if Py.Qgtb new_exposure (total_exposure * max_concentration) then false
  else
    let current_drawdown := Qabs (st_max_drawdown strategy_state) in
    let max_drawdown_limit := (15 # 100)%Q in
    if Py.Qgtb current_drawdown max_drawdown_limit then false
    else true.

Definition order_of_signal (event : SignalEvent) (tag : string) : OrderEvent :=
  {| oe_instrument_token := instrument_token event;
     oe_transaction_type := signal_type event;
     oe_quantity := quantity event;
     oe_product := product_type event;
     oe_validity := validity event;
     oe_order_type := order_type event;
     oe_price := price event;
     oe_tag := tag |}.

(** The risk validation both signal paths run, as an entry. *)
Definition risk_approves (broker : RiskManager.BaseBroker) (event : SignalEvent)
  : bool :=
  match RiskManager.validate_order broker (instrument_token event)
          (quantity event) (product_type event) (signal_type event)
          "entry" (price event) with
  | Py.Ret (is_valid, _, _) => is_valid
  | Py.Raise _ => false
  end.

(** [_process_original_signal]: the order events put on the engine. *)
Definition _process_original_signal (broker : RiskManager.BaseBroker)
           (event : SignalEvent) : list OrderEvent :=
  if risk_approves broker event then [order_of_signal event (tag event)]
  else [].

(** [_process_enhanced_signal]; [strategy_state] is [None] when the
    strategy has no [get_strategy_state]. *)
Definition _process_enhanced_signal (self : SignalAdapter)
           (broker : RiskManager.BaseBroker)
           (strategy_state : option StrategyState) (event : SignalEvent)
  : list OrderEvent :=
  let blocked :=
    match strategy_state with
    | Some state => negb (_check_portfolio_risk_limits event state)
    | None => false
    end in
  if blocked then []
  else if risk_approves broker event
       then [order_of_signal event (strategy_id self ++ "_" ++ tag event)%string]
       else [].

(** [on_signal_event]: the adapter afterwards and the order events put
    on the engine. *)
Definition on_signal_event (self : SignalAdapter)
           (broker : RiskManager.BaseBroker)
           (strategy_state : option StrategyState) (event : SignalEvent)
           (now : Q) : SignalAdapter * list OrderEvent :=
  if negb (_validate_signal event) then (self, [])
  else
    let self := _record_signal self event now in
    if is_enhanced self
    then (self, _process_enhanced_signal self broker strategy_state event)
    else (self, _process_original_signal broker event).

End Signals.

(** ** src/engine/trade_executor.py *)

Module TradeExecutor.

(** The attributes of [OrderEvent] that [on_order_event] reads, and the
    [brokerage] entry of the event's attribute dictionary when the event
    class has one. *)
Record OrderEvent : Type := mkOrderEvent {
  instrument_token : string;
  order_type : string;
  transaction_type : string;
  quantity : Z;
  price : Q;
  product : string;
  validity : string;
  trigger_price : Q;
  disclosed_quantity : Z;
  is_amo : bool;
  tag : string;
  brokerage_attr : option Q
}.

(** An entry of [self.all_orders]: the event, the broker's response
    merged into it when there is one, and the final status. *)
Record OrderRecord : Type := mkOrderRecord {
  or_event : OrderEvent;
  or_response : option Broker.OrderDetails;
  or_status : string
}.

Definition request_of (event : OrderEvent) : Broker.OrderRequest :=
  {| Broker.instrument_token := instrument_token event;
     Broker.transaction_type := transaction_type event;
     Broker.quantity := quantity event;
     Broker.product := product event;
     Broker.validity := validity event;
     Broker.order_type := order_type event;
     Broker.price := price event;
     Broker.trigger_price := trigger_price event;
     Broker.disclosed_quantity := disclosed_quantity event;
     Broker.is_amo := is_amo event;
     Broker.tag := tag event |}.

(** The [FillEvent] built from the merged record of a FILLED order. The
    response always has the key "exchange_order_id", so [get] returns its
    value, [None] included, and never the default "N/A". *)
Definition fill_of (event : OrderEvent) (response : Broker.OrderDetails)
  : Portfolio.FillEvent :=
  {| Portfolio.order_id := Broker.od_order_id response;
     Portfolio.instrument_token := Broker.od_instrument_token response;
     Portfolio.exchange_order_id := Broker.od_exchange_order_id response;
     Portfolio.transaction_type := Broker.od_transaction_type response;
     Portfolio.quantity := Broker.od_filled_quantity response;
     Portfolio.price := Broker.od_filled_price response;
     Portfolio.brokerage := default 0%Q (brokerage_attr event);
     Portfolio.fill_timestamp := Broker.od_timestamp response |}.

(** [on_order_event], given what awaiting [broker.place_order] yields: a
    response (none when it is falsy) or an exception. It returns the
    audit log and the fill event put on the engine, if any. *)
Definition on_order_event (all_orders : list OrderRecord) (event : OrderEvent)
           (outcome : Py.result (option Broker.OrderDetails))
  : list OrderRecord * option Portfolio.FillEvent :=
  match outcome with
  | Py.Ret (Some response) =>
      let record :=
        {| or_event := event; or_response := Some response;
           or_status := Broker.od_status response |} in
      if String.eqb (Broker.od_status response) "FILLED"
      then (all_orders ++ [record], Some (fill_of event response))
      else (all_orders ++ [record], None)
  | Py.Ret None =>
      (all_orders ++ [{| or_event := event; or_response := None;
                         or_status := "FAILED" |}], None)
  | Py.Raise _ =>
      (all_orders ++ [{| or_event := event; or_response := None;
                         or_status := "ERROR" |}], None)
  end.

(** One order through the simulated broker, the executor and the
    ledger: the states afterwards, whether or not the ledger's
    [on_fill_event] raised. *)
Definition execute (fromtimestamp : Q -> Py.result Q)
           (broker : Broker.SimulatedBroker)
           (all_orders : list OrderRecord) (ledger : Portfolio.PortfolioManager)
           (event : OrderEvent) (d : Broker.Draws)
  : Broker.SimulatedBroker * list OrderRecord * Portfolio.PortfolioManager :=
  let placed := Broker.place_order broker (request_of event) d in
  let handled := on_order_event all_orders event (Py.Ret (Some (snd placed))) in
  (fst placed, fst handled,
   match snd handled with
   | Some fill => fst (Portfolio.on_fill_event fromtimestamp ledger fill)
   | None => ledger
   end).

End TradeExecutor.

(** ** src/engine/strategy_manager.py: the life cycle of an instance *)

Module Lifecycle.

Import StrategyManager.

Section Manager.

Variable Strategy : Type.

Record Manager : Type := mkManager {
  max_concurrent_strategies : nat;
  strategies : gmap string (StrategyInstance Strategy);
  strategy_queues : gset string;
  strategy_events : gset string
}.

(** [__init__]. *)
Definition init (max_concurrent : nat) : Manager :=
  {| max_concurrent_strategies := max_concurrent;
     strategies := ∅; strategy_queues := ∅; strategy_events := ∅ |}.

Definition set_status (s : StrategyInstance Strategy) (st : StrategyStatus)
  : StrategyInstance Strategy :=
  {| id := id Strategy s; name := name Strategy s;
     instance := instance Strategy s; status := st;
     error_count := error_count Strategy s;
     max_errors := max_errors Strategy s |}.

(** [add_strategy]. [suffix] is the eight hex digits of the generated
    uuid, [constructed] the outcome of calling the strategy class, and
    [initialized] the outcome of the instance's [initialize] ([None]
    when it has no such method). The result is the new id or the
    exception that leaves [add_strategy]. *)
Definition add_strategy (self : Manager) (strategy_name suffix : string)
           (constructed : Py.result Strategy)
           (initialized : option (Strategy * Py.result unit))
  : Manager * Py.result string :=
  if (max_concurrent_strategies self <=? size (strategies self))%nat then
    (self, Py.Raise (Py.RuntimeError "Maximum concurrent strategies reached"))
  else
    let strategy_id := (strategy_name ++ "_" ++ suffix)%string in
    match constructed with
    | Py.Raise e =>
        ({| max_concurrent_strategies := max_concurrent_strategies self;
            strategies := strategies self;
            strategy_queues := strategy_queues self ∖ {[strategy_id]};
            strategy_events := strategy_events self |}, Py.Raise e)
    | Py.Ret strategy_instance =>
        let meta (s : Strategy) (st : StrategyStatus) (errors : Z) :=
          {| id := strategy_id; name := strategy_name; instance := s;
             status := st; error_count := errors; max_errors := 5 |} in
        match initialized with
        | Some (strategy_instance', Py.Raise e) =>
            ({| max_concurrent_strategies := max_concurrent_strategies self;
                strategies :=
                  <[strategy_id := meta strategy_instance' ERROR (0 + 1)]>
                    (strategies self);
                strategy_queues := strategy_queues self ∖ {[strategy_id]};
                strategy_events := {[strategy_id]} ∪ strategy_events self |},
             Py.Raise e)
        | Some (strategy_instance', Py.Ret _) =>
            ({| max_concurrent_strategies := max_concurrent_strategies self;
                strategies :=
                  <[strategy_id := meta strategy_instance' RUNNING 0]>
                    (strategies self);
                strategy_queues := {[strategy_id]} ∪ strategy_queues self;
                strategy_events := {[strategy_id]} ∪ strategy_events self |},
             Py.Ret strategy_id)
        | None =>
            ({| max_concurrent_strategies := max_concurrent_strategies self;
                strategies :=
                  <[strategy_id := meta strategy_instance RUNNING 0]>
                    (strategies self);
                strategy_queues := {[strategy_id]} ∪ strategy_queues self;
                strategy_events := {[strategy_id]} ∪ strategy_events self |},
             Py.Ret strategy_id)
        end
    end.

(** [remove_strategy]; what [_stop_strategy] does to the instance is
    dropped with the entry. *)
Definition remove_strategy (self : Manager) (strategy_id : string) : Manager :=
  match strategies self !! strategy_id with
  | None => self
  | Some _ =>
      {| max_concurrent_strategies := max_concurrent_strategies self;
         strategies := delete strategy_id (strategies self);
         strategy_queues := strategy_queues self ∖ {[strategy_id]};
         strategy_events := strategy_events self ∖ {[strategy_id]} |}
  end.

Definition update_status (self : Manager) (strategy_id : string)
           (st : StrategyStatus) : Manager :=
  match strategies self !! strategy_id with
  | Some s =>
      {| max_concurrent_strategies := max_concurrent_strategies self;
         strategies := <[strategy_id := set_status s st]> (strategies self);
         strategy_queues := strategy_queues self;
         strategy_events := strategy_events self |}
  | None => self
  end.

(** [pause_strategy] and [resume_strategy]. *)
Definition pause_strategy (self : Manager) (strategy_id : string) : Manager :=
  update_status self strategy_id PAUSED.

Definition resume_strategy (self : Manager) (strategy_id : string) : Manager :=
  update_status self strategy_id RUNNING.

End Manager.

End Lifecycle.

(** ** Further concrete inputs *)

Module Cases.

Local Open Scope string_scope.

(** A ledger holding 100 units bought at 100, and fills for it. *)
Definition long_100 : Portfolio.PortfolioManager :=
  Portfolio.on_fill_events Scenario.fromtimestamp (Portfolio.init 100000)
                           [Scenario.buy_100].

Definition sell_40 : Portfolio.FillEvent :=
  Portfolio.mkFillEvent "order-5" "NSE_EQ_INFY" (Some "exch-5") "SELL" 40 120 20 240.

Definition tcs_fills : list Portfolio.FillEvent :=
  [Portfolio.mkFillEvent "order-6" "NSE_EQ_TCS" (Some "exch-6") "BUY" 5 3000 20 300;
   Portfolio.mkFillEvent "order-7" "NSE_EQ_TCS" (Some "exch-7") "SELL" 5 3100 20 360].

(** A fill whose side the ledger does not know, stamped long after the
    year 9999, where [datetime.fromtimestamp] raises. *)
Definition bonus_late : Portfolio.FillEvent :=
  Portfolio.mkFillEvent "order-8" "NSE_EQ_TCS" (Some "exch-8") "BONUS" 10 0 0
                        1000000000000000000.

(** Two managers of one broker and account. *)
Definition who_ema : Ledger.Identity :=
  Ledger.mkIdentity "Simulated" "paper" "EmaCross".

Definition who_gap : Ledger.Identity :=
  Ledger.mkIdentity "Simulated" "paper" "GapUpShot".

(** A positions file, written by hand, in which the first manager has an
    entry of quantity 0. *)
Definition flat_entry_file : Ledger.PositionsFile :=
  Ledger.Json
    {[ "SIMULATED_ACCOUNTS" :=
         {[ "paper" :=
              {[ "EmaCross" :=
                   Ledger.mkStrategyEntry
                     (Some [Portfolio.mkPosition "NSE_EQ_TCS" 0 0 3000])
                     (Some 100000%Q) ]} ]} ]}.

(** A valid signal at a price, and an enhanced adapter whose strategy
    reports no positions. *)
Definition buy_signal : Signals.SignalEvent :=
  Signals.mkSignalEvent "NSE_EQ_INFY" "BUY" 10 100 "MARKET" "MIS" "DAY" "entry-1".

Definition enhanced_adapter : Signals.SignalAdapter :=
  Signals.mkSignalAdapter "mbvc_1" true [].

Definition flat_state : Signals.StrategyState :=
  Signals.mkStrategyState [] 0.

(** The manager of the two strategies of the scenario after the five
    broadcasts on which "bad_1" raised. *)
Definition quarantined : Lifecycle.Manager bool :=
  Lifecycle.mkManager bool 10
    (StrategyManager.route_market_events unit bool Scenario.handler
       Scenario.two_strategies Scenario.five_broadcasts)
    {[ "bad_1"; "good_1" ]} {[ "bad_1"; "good_1" ]}.

(** A manager with room for two strategies, one of them running. *)
Definition one_running : Lifecycle.Manager bool :=
  fst (Lifecycle.add_strategy bool (Lifecycle.init bool 2) "ema" "0a1b2c3d"
         (Py.Ret false) None).

End Cases.

(** * Properties *)

(** ** The portfolio ledger *)

Section PortfolioFacts.

Import Portfolio.

(** The conversion of timestamps, as in [Portfolio]. *)
Variable fromtimestamp : Q -> Py.result Q.

Lemma update_cash_buy (cash : Q) (event : FillEvent) :
  transaction_type event = "BUY"%string ->
  update_cash cash event
  = (cash - (inject_Z (quantity event) * price event + brokerage event))%Q.
Proof. intros H. unfold update_cash. now rewrite H. Qed.

Lemma update_cash_sell (cash : Q) (event : FillEvent) :
  transaction_type event = "SELL"%string ->
  update_cash cash event
  = (cash + (inject_Z (quantity event) * price event - brokerage event))%Q.
Proof. intros H. unfold update_cash. now rewrite H. Qed.

Lemma update_cash_other (cash : Q) (event : FillEvent) :
  transaction_type event <> "BUY"%string ->
  transaction_type event <> "SELL"%string ->
  update_cash cash event = cash.
Proof.
  intros Hb Hs. unfold update_cash.
  apply String.eqb_neq in Hb. apply String.eqb_neq in Hs.
  now rewrite Hb, Hs.
Qed.

Lemma update_position_other (p : Position) (event : FillEvent) :
  transaction_type event <> "BUY"%string ->
  transaction_type event <> "SELL"%string ->
  update_position p event = p.
Proof.
  intros Hb Hs. unfold update_position.
  apply String.eqb_neq in Hb. apply String.eqb_neq in Hs.
  now rewrite Hb, Hs.
Qed.

Lemma update_position_quantity (p : Position) (event : FillEvent) :
  pos_quantity (update_position p event) = pos_quantity p + signed_quantity event.
Proof.
  unfold update_position, signed_quantity.
  destruct (String.eqb (transaction_type event) "BUY"); [reflexivity|].
  destruct (String.eqb (transaction_type event) "SELL"); simpl; lia.
Qed.

Lemma current_position_quantity (ps : gmap string Position) (event : FillEvent) :
  pos_quantity (current_position ps event) = held ps (instrument_token event).
Proof.
  unfold current_position, held.
  now destruct (ps !! instrument_token event).
Qed.

Lemma update_positions_lookup (ps : gmap string Position) (event : FillEvent) :
  update_positions ps event !! instrument_token event
  = let p := update_position (current_position ps event) event in
    if pos_quantity p =? 0 then None else Some p.
Proof.
  unfold update_positions. cbv zeta.
  destruct (_ =? 0).
  - apply lookup_delete_eq.
  - apply lookup_insert_eq.
Qed.

Lemma update_positions_frame (ps : gmap string Position) (event : FillEvent)
      (token : string) :
  instrument_token event <> token ->
  update_positions ps event !! token = ps !! token.
Proof.
  intros Hne. unfold update_positions. cbv zeta.
  destruct (_ =? 0).
  - rewrite lookup_delete_ne by assumption. now apply lookup_insert_ne.
  - now apply lookup_insert_ne.
Qed.

Lemma update_positions_held (ps : gmap string Position) (event : FillEvent) :
  held (update_positions ps event) (instrument_token event)
  = held ps (instrument_token event) + signed_quantity event.
Proof.
  unfold held at 1. rewrite update_positions_lookup. cbv zeta.
  destruct (_ =? 0) eqn:E.
  - apply Z.eqb_eq in E.
    rewrite update_position_quantity, current_position_quantity in E. lia.
  - now rewrite update_position_quantity, current_position_quantity.
Qed.

Lemma update_positions_no_zero (ps : gmap string Position) (event : FillEvent) :
  no_zero_entry ps -> no_zero_entry (update_positions ps event).
Proof.
  intros Hps k p.
  destruct (decide (instrument_token event = k)) as [<-|Hne].
  - rewrite update_positions_lookup. cbv zeta.
    destruct (_ =? 0) eqn:E; [discriminate|].
    intros [= <-]. now apply Z.eqb_neq in E.
  - rewrite update_positions_frame by assumption. apply Hps.
Qed.

Lemma update_positions_other (ps : gmap string Position) (event : FillEvent) :
  transaction_type event <> "BUY"%string ->
  transaction_type event <> "SELL"%string ->
  no_zero_entry ps ->
  update_positions ps event = ps.
Proof.
  intros Hb Hs Hps. unfold update_positions. cbv zeta.
  rewrite update_position_other by assumption.
  unfold current_position.
  destruct (ps !! instrument_token event) as [p|] eqn:E.
  - destruct (pos_quantity p =? 0) eqn:Eq.
    + apply Z.eqb_eq in Eq. now destruct (Hps _ _ E).
    + now apply insert_id.
  - simpl. rewrite delete_insert_eq. now apply delete_id.
Qed.

(** What a call does to cash and positions does not depend on how it
    ends. *)
Lemma on_fill_event_cash (self : PortfolioManager) (event : FillEvent) :
  current_cash (fst (on_fill_event fromtimestamp self event))
  = update_cash (current_cash self) event.
Proof.
  unfold on_fill_event.
  now destruct (fromtimestamp (fill_timestamp event)).
Qed.

Lemma on_fill_event_positions (self : PortfolioManager) (event : FillEvent) :
  positions (fst (on_fill_event fromtimestamp self event))
  = update_positions (positions self) event.
Proof.
  unfold on_fill_event.
  now destruct (fromtimestamp (fill_timestamp event)).
Qed.

Lemma on_fill_event_initial_cash (self : PortfolioManager) (event : FillEvent) :
  initial_cash (fst (on_fill_event fromtimestamp self event))
  = initial_cash self.
Proof.
  unfold on_fill_event.
  now destruct (fromtimestamp (fill_timestamp event)).
Qed.

Lemma on_fill_event_returns (self : PortfolioManager) (event : FillEvent)
      (timestamp : Q) :
  fromtimestamp (fill_timestamp event) = Py.Ret timestamp ->
  let cash := update_cash (current_cash self) event in
  let ps := update_positions (positions self) event in
  on_fill_event fromtimestamp self event
  = ({| initial_cash := initial_cash self;
        current_cash := cash;
        positions := ps;
        equity_curve := equity_curve self ++ [equity_snapshot cash timestamp ps];
        portfolio_trades :=
          portfolio_trades self ++ [trade_record event timestamp cash] |},
     Py.Ret tt).
Proof. intros H. unfold on_fill_event. now rewrite H. Qed.

Lemma on_fill_event_raises (self : PortfolioManager) (event : FillEvent)
      (e : Py.exn) :
  fromtimestamp (fill_timestamp event) = Py.Raise e ->
  on_fill_event fromtimestamp self event
  = ({| initial_cash := initial_cash self;
        current_cash := update_cash (current_cash self) event;
        positions := update_positions (positions self) event;
        equity_curve := equity_curve self;
        portfolio_trades := portfolio_trades self |},
     Py.Raise e).
Proof. intros H. unfold on_fill_event. now rewrite H. Qed.

Lemma on_fill_events_no_zero (events : list FillEvent) (self : PortfolioManager) :
  no_zero_entry (positions self) ->
  no_zero_entry (positions (on_fill_events fromtimestamp self events)).
Proof.
  revert self. induction events as [|e es IH]; intros self H; [exact H|].
  apply IH. rewrite on_fill_event_positions.
  now apply update_positions_no_zero.
Qed.

Lemma init_no_zero (cash : Q) : no_zero_entry (positions (init cash)).
Proof. intros k p. simpl. now rewrite lookup_empty. Qed.

Lemma on_fill_events_held (token : string) (events : list FillEvent)
      (self : PortfolioManager) :
  Forall (fun e => instrument_token e = token) events ->
  held (positions (on_fill_events fromtimestamp self events)) token
  = held (positions self) token + signed_sum events.
Proof.
  revert self. induction events as [|e es IH]; intros self H.
  - simpl. lia.
  - inversion H as [|? ? He Hes]; subst.
    change (on_fill_events fromtimestamp self (e :: es))
      with (on_fill_events fromtimestamp
              (fst (on_fill_event fromtimestamp self e)) es).
    rewrite IH by assumption. rewrite on_fill_event_positions.
    rewrite update_positions_held. simpl. lia.
Qed.

Lemma signed_sum_app (xs ys : list FillEvent) :
  signed_sum (xs ++ ys) = signed_sum xs + signed_sum ys.
Proof. induction xs as [|x xs IH]; simpl; [reflexivity|]. rewrite IH. lia. Qed.

Lemma fills_since_zero_sum (events acc : list FillEvent) (running : Z) :
  signed_sum acc = running ->
  signed_sum (fills_since_zero running acc events) = running + signed_sum events.
Proof.
  revert acc running. induction events as [|e es IH]; intros acc running H.
  - simpl. lia.
  - simpl. destruct (_ =? 0) eqn:E.
    + apply Z.eqb_eq in E. rewrite (IH [] 0) by reflexivity. lia.
    + rewrite (IH (acc ++ [e]) (running + signed_quantity e)).
      * lia.
      * rewrite signed_sum_app. simpl. lia.
Qed.

Lemma since_last_zero_sum (events : list FillEvent) :
  signed_sum (since_last_zero events) = signed_sum events.
Proof. unfold since_last_zero. now rewrite (fills_since_zero_sum events [] 0). Qed.

End PortfolioFacts.

Section PortfolioClaims.

Import Portfolio.

Variable fromtimestamp : Q -> Py.result Q.

(** C1. A BUY fill of quantity q at price p with brokerage b takes
    q*p + b from the cash; a SELL fill adds q*p - b to it. This is the
    cash after the call however the call ends. *)
Theorem C1_cash_after_fill (self : PortfolioManager)
        (oid token : string) (xid : option string) (q : Z) (p b ts : Q) :
  current_cash
    (fst (on_fill_event fromtimestamp self
            (mkFillEvent oid token xid "BUY" q p b ts)))
  = (current_cash self - (inject_Z q * p + b))%Q
  /\ current_cash
       (fst (on_fill_event fromtimestamp self
               (mkFillEvent oid token xid "SELL" q p b ts)))
     = (current_cash self + (inject_Z q * p - b))%Q.
Proof. split; now rewrite on_fill_event_cash. Qed.

(** C2. After any run of BUY and SELL fills on one instrument, from an
    empty positions map, the instrument's stored quantity is the signed
    sum of the fills applied since the position was last at zero; when
    that sum is zero the instrument has no entry, and no entry of the map
    has quantity zero. The run is arbitrary, so this holds after each of
    its fills. *)
Theorem C2_quantity_is_signed_sum (cash : Q) (token : string)
        (events : list FillEvent) :
  Forall (fun e => instrument_token e = token
                   /\ (transaction_type e = "BUY"%string
                       \/ transaction_type e = "SELL"%string)) events ->
  let ps := positions (on_fill_events fromtimestamp (init cash) events) in
  let total := signed_sum (since_last_zero events) in
  (total = 0 -> ps !! token = None)
  /\ (total <> 0 ->
      exists p, ps !! token = Some p /\ pos_quantity p = total)
  /\ no_zero_entry ps.
Proof.
  intros Hall ps total.
  assert (Hnz : no_zero_entry ps)
    by (apply on_fill_events_no_zero, init_no_zero).
  assert (Hheld : held ps token = total).
  { unfold ps, total. rewrite since_last_zero_sum, on_fill_events_held.
    - unfold held. simpl. rewrite lookup_empty. lia.
    - eapply Forall_impl; [exact Hall|]. now intros e [He _]. }
  unfold held in Hheld. repeat split.
  - intros Hz. destruct (ps !! token) as [p|] eqn:E; [|reflexivity].
    exfalso. apply (Hnz _ _ E). lia.
  - intros Hz. destruct (ps !! token) as [p|] eqn:E; [|lia].
    now exists p.
  - exact Hnz.
Qed.

(** C10, as the code has it. A fill whose transaction type is neither
    BUY nor SELL leaves the cash unchanged, and leaves the positions map
    unchanged when no entry of the map has quantity zero. When the
    timestamp of
    the fill converts, the call returns and has appended one trade
    record and one equity snapshot; when the conversion raises, the call
    raises and has appended neither. *)
Theorem C10_other_fill_is_frame (self : PortfolioManager) (event : FillEvent) :
  transaction_type event <> "BUY"%string ->
  transaction_type event <> "SELL"%string ->
  no_zero_entry (positions self) ->
  let self' := fst (on_fill_event fromtimestamp self event) in
  let outcome := snd (on_fill_event fromtimestamp self event) in
  current_cash self' = current_cash self
  /\ positions self' = positions self
  /\ (forall timestamp,
         fromtimestamp (fill_timestamp event) = Py.Ret timestamp ->
         outcome = Py.Ret tt
         /\ portfolio_trades self'
            = portfolio_trades self
              ++ [trade_record event timestamp (current_cash self)]
         /\ equity_curve self'
            = equity_curve self
              ++ [equity_snapshot (current_cash self) timestamp
                                  (positions self)])
  /\ (forall e,
         fromtimestamp (fill_timestamp event) = Py.Raise e ->
         outcome = Py.Raise e
         /\ portfolio_trades self' = portfolio_trades self
         /\ equity_curve self' = equity_curve self).
Proof.
  intros Hb Hs Hnz self' outcome.
  assert (Hcash : update_cash (current_cash self) event = current_cash self)
    by (apply update_cash_other; assumption).
  assert (Hpos : update_positions (positions self) event = positions self)
    by (apply update_positions_other; assumption).
  split; [|split; [|split]].
  - unfold self'. now rewrite on_fill_event_cash.
  - unfold self'. now rewrite on_fill_event_positions.
  - intros timestamp Hts. unfold outcome, self'.
    rewrite (on_fill_event_returns fromtimestamp self event timestamp Hts).
    cbn [fst snd portfolio_trades equity_curve].
    rewrite Hcash, Hpos. now repeat split.
  - intros e Hts. unfold outcome, self'.
    rewrite (on_fill_event_raises fromtimestamp self event e Hts).
    now repeat split.
Qed.

Lemma inject_Z_nonzero (z : Z) : z <> 0 -> ~ (inject_Z z == 0)%Q.
Proof.
  intros Hz H. apply Hz. apply (inject_Z_injective z 0). exact H.
Qed.

Lemma on_fill_event_buy_position (self : PortfolioManager) (event : FillEvent) :
  transaction_type event = "BUY"%string ->
  let cur := current_position (positions self) event in
  pos_quantity cur + quantity event <> 0 ->
  positions (fst (on_fill_event fromtimestamp self event))
    !! instrument_token event
  = Some (apply_buy cur event)
  /\ pos_quantity (apply_buy cur event) = pos_quantity cur + quantity event
  /\ pos_avg_price (apply_buy cur event)
     = ((inject_Z (pos_quantity cur) * pos_avg_price cur
         + inject_Z (quantity event) * price event)
        / inject_Z (pos_quantity cur + quantity event))%Q.
Proof.
  intros Hbuy cur Hnz. apply Z.eqb_neq in Hnz.
  rewrite on_fill_event_positions. rewrite update_positions_lookup. cbv zeta.
  unfold update_position. rewrite Hbuy. simpl String.eqb. cbv iota.
  fold cur. unfold apply_buy at 1. simpl pos_quantity. rewrite Hnz.
  repeat split. unfold apply_buy. simpl. now rewrite Hnz.
Qed.

(** C3. Two BUY fills (q1, p1) and (q2, p2), with q1 and q2 positive, on
    an instrument without a position leave a position of q1 + q2 at the
    average price (q1*p1 + q2*p2) / (q1 + q2), an equality of rationals.
    In general a BUY fill that leaves a non-zero quantity stores the
    average (oldQty*oldAvg + qty*price) / (oldQty + qty), where oldQty
    and oldAvg are 0 for an instrument without an entry. *)
Theorem C3_buy_average_price :
  (forall (self : PortfolioManager) (token oid1 oid2 : string)
          (xid1 xid2 : option string)
          (q1 q2 : Z) (p1 p2 b1 b2 ts1 ts2 : Q),
      positions self !! token = None ->
      0 < q1 -> 0 < q2 ->
      exists pos,
        positions
          (on_fill_events fromtimestamp self
             [mkFillEvent oid1 token xid1 "BUY" q1 p1 b1 ts1;
              mkFillEvent oid2 token xid2 "BUY" q2 p2 b2 ts2]) !! token
        = Some pos
        /\ pos_quantity pos = q1 + q2
        /\ (pos_avg_price pos
            == (inject_Z q1 * p1 + inject_Z q2 * p2) / inject_Z (q1 + q2))%Q)
  /\ (forall (self : PortfolioManager) (event : FillEvent),
         transaction_type event = "BUY"%string ->
         let cur := current_position (positions self) event in
         pos_quantity cur + quantity event <> 0 ->
         exists pos,
           positions (fst (on_fill_event fromtimestamp self event))
             !! instrument_token event
           = Some pos
           /\ pos_quantity pos = pos_quantity cur + quantity event
           /\ pos_avg_price pos
              = ((inject_Z (pos_quantity cur) * pos_avg_price cur
                  + inject_Z (quantity event) * price event)
                 / inject_Z (pos_quantity cur + quantity event))%Q).
Proof.
  split.
  - intros self token oid1 oid2 xid1 xid2 q1 q2 p1 p2 b1 b2 ts1 ts2 Hnone H1 H2.
    set (e1 := mkFillEvent oid1 token xid1 "BUY" q1 p1 b1 ts1).
    set (e2 := mkFillEvent oid2 token xid2 "BUY" q2 p2 b2 ts2).
    set (self1 := fst (on_fill_event fromtimestamp self e1)).
    change (on_fill_events fromtimestamp self [e1; e2])
      with (fst (on_fill_event fromtimestamp self1 e2)).
    assert (Hcur1 : current_position (positions self) e1 = new_position e1).
    { unfold current_position. simpl instrument_token. now rewrite Hnone. }
    destruct (on_fill_event_buy_position self e1 eq_refl) as (L1 & Q1 & A1).
    { rewrite Hcur1. simpl. lia. }
    rewrite Hcur1 in L1, Q1, A1.
    remember (apply_buy (new_position e1) e1) as pos1 eqn:Hpos1.
    simpl in Q1, A1.
    assert (Hcur2 : current_position (positions self1) e2 = pos1).
    { unfold current_position, self1. simpl instrument_token in *.
      now rewrite L1. }
    destruct (on_fill_event_buy_position self1 e2 eq_refl)
      as (L2 & Q2 & A2).
    { rewrite Hcur2, Q1. simpl. lia. }
    rewrite Hcur2 in L2, Q2, A2. simpl quantity in Q2, A2. simpl price in A2.
    exists (apply_buy pos1 e2). split; [exact L2|]. split.
    + rewrite Q2, Q1. reflexivity.
    + rewrite A2, A1, Q1. rewrite !inject_Z_plus.
      change (inject_Z 0) with 0%Q. field.
      rewrite <- !inject_Z_plus.
      split; apply inject_Z_nonzero; lia.
  - intros self event Hbuy cur Hnz.
    destruct (on_fill_event_buy_position self event Hbuy Hnz) as (L & Qn & A).
    now exists (apply_buy cur event).
Qed.

End PortfolioClaims.

(** ** The simulated broker *)

Section BrokerClaims.

Import Broker.

Lemma Qgeb_true_iff (a b : Q) : Py.Qgeb a b = true <-> (b <= a)%Q.
Proof. unfold Py.Qgeb. apply Qle_bool_iff. Qed.

Lemma Qgeb_false_iff (a b : Q) : Py.Qgeb a b = false <-> ~ (b <= a)%Q.
Proof.
  rewrite <- Qgeb_true_iff. destruct (Py.Qgeb a b); split; intros H;
    try reflexivity; try discriminate; try (intros H'; discriminate).
  now destruct H.
Qed.

(** The shape of [place_order] on a market BUY order that passes the
    draw. *)
Lemma place_order_market_buy (self : SimulatedBroker) (req : OrderRequest)
      (d : Draws) :
  Py.upper (order_type req) = "MARKET"%string ->
  Py.upper (transaction_type req) = "BUY"%string ->
  Qle_bool (random_draw d) (fill_chance self) = true ->
  let fill_price :=
    fill_price_of self (transaction_type req) (price req) (uniform_draw d) in
  let cost := (fill_price * inject_Z (quantity req) + calculate_brokerage)%Q in
  place_order self req d
  = if Py.Qgeb (current_funds self) cost
    then store self (current_funds self - cost)%Q
               [fill_record req d fill_price calculate_brokerage]
               (set_filled (pending_order req d) (quantity req) fill_price
                           (uuid_exchange d))
    else store self (current_funds self) []
               (set_status (pending_order req d) "REJECTED").
Proof.
  intros Hm Hb Hd. unfold place_order. now rewrite Hm, Hb, Hd.
Qed.

(** C5. A market BUY order that passes the fill draw is FILLED exactly
    when the funds cover quantity * fill price + brokerage; it is then
    filled in full. Otherwise it is REJECTED, its filled quantity stays
    0, and the broker's funds and trades are unchanged. *)
Theorem C5_buy_requires_funds (self : SimulatedBroker) (req : OrderRequest)
        (d : Draws) :
  Py.upper (order_type req) = "MARKET"%string ->
  Py.upper (transaction_type req) = "BUY"%string ->
  Qle_bool (random_draw d) (fill_chance self) = true ->
  let fill_price :=
    fill_price_of self (transaction_type req) (price req) (uniform_draw d) in
  let cost := (inject_Z (quantity req) * fill_price + calculate_brokerage)%Q in
  let self' := fst (place_order self req d) in
  let order := snd (place_order self req d) in
  (od_status order = "FILLED"%string <-> (cost <= current_funds self)%Q)
  /\ ((cost <= current_funds self)%Q ->
      od_filled_quantity order = quantity req
      /\ od_filled_price order = fill_price)
  /\ (~ (cost <= current_funds self)%Q ->
      od_status order = "REJECTED"%string
      /\ od_filled_quantity order = 0
      /\ current_funds self' = current_funds self
      /\ trades self' = trades self
      /\ orders self' !! od_order_id order = Some order).
Proof.
  intros Hm Hb Hd fill_price cost self' order.
  unfold self', order.
  rewrite (place_order_market_buy self req d Hm Hb Hd). cbv zeta.
  fold fill_price.
  assert (Hcost : (fill_price * inject_Z (quantity req) + calculate_brokerage
                   == cost)%Q) by (unfold cost; ring).
  destruct (Py.Qgeb _ _) eqn:E.
  - apply Qgeb_true_iff in E. rewrite Hcost in E.
    simpl. repeat split; try tauto.
  - apply Qgeb_false_iff in E. rewrite Hcost in E.
    simpl. repeat split; try tauto; try discriminate.
    + apply app_nil_r.
    + apply lookup_insert_eq.
Qed.

Lemma base_fill_price_eq (price uniform : Q) :
  base_fill_price price uniform = if Py.Qgtb price 0 then price else 100%Q.
Proof. unfold base_fill_price. now destruct (Py.Qgtb price 0). Qed.

Lemma fill_price_of_eq (self : SimulatedBroker) (transaction_type : string)
      (price uniform : Q) :
  fill_price_of self transaction_type price uniform
  = slipped_requested_price self transaction_type
      (if Py.Qgtb price 0 then price else 100%Q).
Proof.
  unfold fill_price_of, slipped_requested_price.
  rewrite base_fill_price_eq.
  now destruct (String.eqb (Py.upper transaction_type) "BUY").
Qed.

Lemma Qgtb_true_iff (a b : Q) : Py.Qgtb a b = true <-> (b < a)%Q.
Proof.
  unfold Py.Qgtb. rewrite negb_true_iff. split.
  - intros H. apply Qnot_le_lt. intros Hle.
    apply Qle_bool_iff in Hle. congruence.
  - intros H. destruct (Qle_bool a b) eqn:E; [|reflexivity].
    apply Qle_bool_iff in E. exfalso. apply (Qlt_not_le _ _ H E).
Qed.

(** C8, as the code has it. For a market order that passes the fill
    draw the fill price is the base price plus base * (slippage_percent /
    100) for BUY, minus it for any other side, rounded to 2 decimals; the
    base is the requested price when that is positive and 100 when it is
    zero or negative. A filled order carries this price. *)
Theorem C8_fill_price_with_slippage (self : SimulatedBroker)
        (req : OrderRequest) (d : Draws) :
  Py.upper (order_type req) = "MARKET"%string ->
  Qle_bool (random_draw d) (fill_chance self) = true ->
  let fill_price :=
    fill_price_of self (transaction_type req) (price req) (uniform_draw d) in
  let order := snd (place_order self req d) in
  ((0 < price req)%Q ->
   fill_price
   = slipped_requested_price self (transaction_type req) (price req))
  /\ (~ (0 < price req)%Q ->
      fill_price = slipped_requested_price self (transaction_type req) 100)
  /\ (od_status order = "FILLED"%string -> od_filled_price order = fill_price).
Proof.
  intros Hm Hd fill_price order. repeat split.
  - intros Hp. unfold fill_price. rewrite fill_price_of_eq.
    apply Qgtb_true_iff in Hp. now rewrite Hp.
  - intros Hp. unfold fill_price. rewrite fill_price_of_eq.
    destruct (Py.Qgtb (price req) 0) eqn:E; [|reflexivity].
    apply Qgtb_true_iff in E. now destruct Hp.
  - unfold order, place_order. rewrite Hm, Hd. cbv zeta. simpl andb. cbv iota.
    fold fill_price.
    destruct (String.eqb (Py.upper (transaction_type req)) "BUY").
    + destruct (Py.Qgeb _ _); simpl; [reflexivity | discriminate].
    + destruct (String.eqb (Py.upper (transaction_type req)) "SELL");
        simpl; [reflexivity | discriminate].
Qed.

End BrokerClaims.

(** ** The risk manager *)

Section RiskClaims.

Import RiskManager.

Lemma validate_order_entry (broker : BaseBroker) (d : InstrumentDict)
      (trade_type : string) (m k f : Q) :
  calculate_margin broker d = Py.Ret m ->
  calculate_brokerage broker d = Py.Ret k ->
  get_funds_and_margin broker = Py.Ret f ->
  Py.lower trade_type = "entry"%string ->
  validate_order_body broker d trade_type = Py.Ret (Py.Qgeb f (m + k), m, k).
Proof.
  intros Hm Hk Hf Ht. unfold validate_order_body.
  rewrite Hm, Hk, Hf, Ht. simpl. now destruct (Py.Qgeb f (m + k)).
Qed.

Lemma validate_order_exit (broker : BaseBroker) (d : InstrumentDict)
      (trade_type : string) (m k f : Q) :
  calculate_margin broker d = Py.Ret m ->
  calculate_brokerage broker d = Py.Ret k ->
  get_funds_and_margin broker = Py.Ret f ->
  Py.lower trade_type = "exit"%string ->
  validate_order_body broker d trade_type = Py.Ret (Py.Qgeb f k, m, k).
Proof.
  intros Hm Hk Hf Ht. unfold validate_order_body.
  rewrite Hm, Hk, Hf, Ht. simpl. now destruct (Py.Qgeb f k).
Qed.

(** C4. When the three broker queries return margin m, brokerage k and
    funds f, an entry order is valid exactly when f >= m + k and an exit
    order exactly when f >= k; the trade type is compared in lower case.
    The margin and the brokerage are returned with the flag. *)
Theorem C4_validate_order_funds (broker : BaseBroker) (token : string)
        (qty : Z) (product side trade_type : string) (price m k f : Q) :
  let d := mkInstrumentDict token qty product side price in
  calculate_margin broker d = Py.Ret m ->
  calculate_brokerage broker d = Py.Ret k ->
  get_funds_and_margin broker = Py.Ret f ->
  (Py.lower trade_type = "entry"%string ->
   exists valid,
     validate_order broker token qty product side trade_type price
     = Py.Ret (valid, m, k)
     /\ (valid = true <-> (m + k <= f)%Q))
  /\ (Py.lower trade_type = "exit"%string ->
      exists valid,
        validate_order broker token qty product side trade_type price
        = Py.Ret (valid, m, k)
        /\ (valid = true <-> (k <= f)%Q)).
Proof.
  intros d Hm Hk Hf. split; intros Ht.
  - exists (Py.Qgeb f (m + k)). split; [|apply Qgeb_true_iff].
    unfold validate_order. fold d.
    now rewrite (validate_order_entry broker d trade_type m k f).
  - exists (Py.Qgeb f k). split; [|apply Qgeb_true_iff].
    unfold validate_order. fold d.
    now rewrite (validate_order_exit broker d trade_type m k f).
Qed.

(** C9. When the margin, the brokerage or the funds query raises,
    [validate_order] raises nothing and returns (False, 0.0, 0.0). *)
Theorem C9_query_failure_is_invalid (broker : BaseBroker) (token : string)
        (qty : Z) (product side trade_type : string) (price : Q) :
  let d := mkInstrumentDict token qty product side price in
  (exists e, calculate_margin broker d = Py.Raise e)
  \/ (exists e, calculate_brokerage broker d = Py.Raise e)
  \/ (exists e, get_funds_and_margin broker = Py.Raise e) ->
  validate_order broker token qty product side trade_type price
  = Py.Ret (false, 0%Q, 0%Q).
Proof.
  intros d H. unfold validate_order, validate_order_body. fold d.
  destruct (calculate_margin broker d) as [m|e1] eqn:Em; simpl.
  2: reflexivity.
  destruct (calculate_brokerage broker d) as [k|e2] eqn:Ek; simpl.
  2: reflexivity.
  destruct (get_funds_and_margin broker) as [f|e3] eqn:Ef; simpl.
  2: reflexivity.
  destruct H as [[e H]|[[e H]|[e H]]]; discriminate.
Qed.

End RiskClaims.

(** ** The market-event rate limiter of the strategy adapter *)

Section RateLimiterClaims.

Import EnhancedStrategyAdapter.

Variable datetime : Type.
Variable strftime_minute : datetime -> string.
Variable minus_hours : datetime -> Z -> datetime.
Variable Strategy : Type.

Abbreviation cleanup :=
  (_cleanup_rate_limiter datetime strftime_minute minus_hours module_globals).
Abbreviation check :=
  (_check_rate_limit datetime strftime_minute minus_hours Strategy module_globals).
Abbreviation check_n :=
  (check_repeatedly datetime strftime_minute minus_hours Strategy module_globals).
Abbreviation counter := (EnhancedStrategyAdapter.counter Strategy).

Lemma timedelta_unbound :
  lookup_global module_globals "timedelta" = Py.Raise (Py.NameError "timedelta").
Proof. reflexivity. Qed.

Lemma cleanup_raises (rl : gmap string (gmap string Z)) (now : datetime) :
  cleanup rl now = Py.Raise (Py.NameError "timedelta").
Proof. reflexivity. Qed.

Lemma check_rate_limit_step (self : Adapter Strategy) (token : string)
      (now now' : datetime) :
  let c := counter self (strftime_minute now) token in
  let limit := max_signals_per_minute Strategy self in
  let self' := fst (check self token now now') in
  snd (check self token now now')
  = (if c >=? limit then Py.Ret false
     else Py.Raise (Py.NameError "timedelta"))
  /\ counter self' (strftime_minute now) token
     = (if c >=? limit then c else c + 1)
  /\ max_signals_per_minute Strategy self' = limit.
Proof.
  intros c limit self'. unfold self', c, limit, counter, _check_rate_limit.
  cbv zeta. rewrite cleanup_raises.
  set (mk := strftime_minute now).
  set (rl := signal_rate_limiter Strategy self).
  unfold default.
  destruct (rl !! mk) as [b|] eqn:Eb; cbn [from_option id].
  - rewrite Eb. cbn [from_option id].
    destruct (b !! token) as [n|] eqn:En; cbn [from_option id];
      rewrite ?En, ?lookup_insert_eq; cbn [from_option id];
      destruct (_ >=? _); cbn [fst snd set_rate_limiter signal_rate_limiter
                                max_signals_per_minute];
      rewrite ?lookup_insert_eq; cbn [from_option id];
      rewrite ?En, ?lookup_insert_eq; auto.
  - rewrite !lookup_insert_eq. cbn [from_option id].
    rewrite lookup_empty, !lookup_insert_eq. cbn [from_option id].
    destruct (_ >=? _); cbn [fst snd set_rate_limiter signal_rate_limiter
                              max_signals_per_minute];
      rewrite ?lookup_insert_eq; cbn [from_option id];
      rewrite ?lookup_insert_eq; auto.
Qed.

Lemma check_rate_limit_never_true (self : Adapter Strategy) (token : string)
      (now now' : datetime) :
  snd (check self token now now') <> Py.Ret true.
Proof.
  destruct (check_rate_limit_step self token now now') as (H & _).
  rewrite H. now destruct (_ >=? _).
Qed.

Lemma check_repeatedly_below_limit (n : nat) (self : Adapter Strategy)
      (token : string) (now : datetime) :
  counter self (strftime_minute now) token + Z.of_nat n
  <= max_signals_per_minute Strategy self ->
  let self' := fst (check_n n self token now) in
  snd (check_n n self token now)
  = repeat (Py.Raise (Py.NameError "timedelta")) n
  /\ counter self' (strftime_minute now) token
     = counter self (strftime_minute now) token + Z.of_nat n
  /\ max_signals_per_minute Strategy self'
     = max_signals_per_minute Strategy self.
Proof.
  revert self. induction n as [|n IH]; intros self Hle; cbv zeta.
  - simpl. repeat split. lia.
  - cbn [check_repeatedly].
    destruct (check_rate_limit_step self token now now) as (Hr & Hc & Hm).
    destruct (check self token now now) as [self1 r] eqn:E1. simpl in Hr, Hc, Hm.
    assert (Hlt : (counter self (strftime_minute now) token
                   >=? max_signals_per_minute Strategy self) = false)
      by (rewrite Z.geb_leb; apply Z.leb_gt; lia).
    rewrite Hlt in Hr, Hc.
    destruct (IH self1) as (Hr' & Hc' & Hm'); [rewrite Hc, Hm; lia|].
    destruct (check_n n self1 token now) as [self2 rs] eqn:E2.
    simpl in Hr', Hc', Hm' |- *. repeat split.
    + now rewrite Hr, Hr'.
    + rewrite Hc', Hc. lia.
    + now rewrite Hm', Hm.
Qed.

Lemma counter_init (s : Strategy) (minute_key token : string) :
  counter (init Strategy s) minute_key token = 0.
Proof.
  unfold counter. cbn [init signal_rate_limiter].
  rewrite lookup_empty. cbn [default from_option]. now rewrite lookup_empty.
Qed.

Lemma check_repeatedly_app (n k : nat) (self : Adapter Strategy)
      (token : string) (now : datetime) :
  check_n (n + k) self token now
  = let (self1, rs1) := check_n n self token now in
    let (self2, rs2) := check_n k self1 token now in
    (self2, rs1 ++ rs2).
Proof.
  revert self. induction n as [|n IH]; intros self.
  - simpl. now destruct (check_n k self token now).
  - cbn [Nat.add check_repeatedly].
    destruct (check self token now now) as [self1 r].
    rewrite IH.
    destruct (check_n n self1 token now) as [self2 rs].
    now destruct (check_n k self2 token now).
Qed.

Lemma on_market_event_skips (MarketEvent : Type)
      (instrument_token : MarketEvent -> string)
      (handle_market_event : Strategy -> MarketEvent -> Strategy * Py.result unit)
      (self : Adapter Strategy) (event : MarketEvent) (now now' : datetime) :
  snd (on_market_event datetime strftime_minute minus_hours MarketEvent
         instrument_token Strategy handle_market_event module_globals
         self event now now') = false.
Proof.
  unfold on_market_event.
  pose proof (check_rate_limit_never_true self (instrument_token event) now now') as H.
  destruct (check self (instrument_token event) now now') as [self1 [[|]|e]];
    simpl in *; congruence.
Qed.

(** C6, on the code as it is. [_cleanup_rate_limiter] reads the name
    [timedelta], which the module never imports, so every call of
    [_check_rate_limit] below the limit raises NameError after it has
    counted the event, and none returns True: from a new adapter the
    first ten calls for an instrument within a minute raise, the eleventh
    returns False, and [on_market_event] never reaches the strategy. *)
Theorem C6_rate_limit_check_raises (s : Strategy) (token : string)
        (now : datetime) :
  snd (check_n 11 (init Strategy s) token now)
  = repeat (Py.Raise (Py.NameError "timedelta")) 10 ++ [Py.Ret false]
  /\ (forall (self : Adapter Strategy) (tok : string) (t t' : datetime),
         snd (check self tok t t') <> Py.Ret true)
  /\ (forall (MarketEvent : Type) (instrument_token : MarketEvent -> string)
             (handle : Strategy -> MarketEvent -> Strategy * Py.result unit)
             (self : Adapter Strategy) (event : MarketEvent) (t t' : datetime),
         snd (on_market_event datetime strftime_minute minus_hours MarketEvent
                instrument_token Strategy handle module_globals
                self event t t') = false).
Proof.
  split; [|split].
  - change 11%nat with (10 + 1)%nat. rewrite check_repeatedly_app.
    destruct (check_repeatedly_below_limit 10 (init Strategy s) token now)
      as (Hr & Hc & Hm).
    { rewrite counter_init. simpl. lia. }
    destruct (check_n 10 (init Strategy s) token now) as [self1 rs1].
    simpl in Hr, Hc, Hm. cbn [check_repeatedly].
    destruct (check_rate_limit_step self1 token now now) as (Hr1 & _).
    destruct (check self1 token now now) as [self2 r]. simpl in Hr1.
    rewrite Hc, Hm, counter_init in Hr1. simpl in Hr1.
    simpl. now rewrite Hr, Hr1.
  - apply check_rate_limit_never_true.
  - intros. apply on_market_event_skips.
Qed.

End RateLimiterClaims.

(** ** Quarantine in the strategy manager *)

Section ManagerClaims.

Import StrategyManager.

Variable MarketEvent : Type.
Variable Strategy : Type.
Variable handle_market_event :
  Strategy -> MarketEvent -> Strategy * Py.result unit.

Abbreviation Instance := (StrategyInstance Strategy).
Abbreviation send := (_send_event_to_strategy MarketEvent Strategy handle_market_event).
Abbreviation route := (route_market_event MarketEvent Strategy handle_market_event).
Abbreviation run := (route_market_events MarketEvent Strategy handle_market_event).
Abbreviation delivered_to := (delivered MarketEvent Strategy).
Abbreviation raised_in := (raised MarketEvent Strategy handle_market_event).
Abbreviation deliveries := (delivery_count MarketEvent Strategy handle_market_event).
Abbreviation raises := (raise_count MarketEvent Strategy handle_market_event).

Lemma send_max_errors (s : Instance) (event : MarketEvent) :
  max_errors Strategy (send s event) = max_errors Strategy s.
Proof.
  unfold _send_event_to_strategy.
  destruct (handle_market_event _ _) as [i' [u|e]]; reflexivity.
Qed.

Lemma send_error_count (s : Instance) (event : MarketEvent) :
  error_count Strategy (send s event)
  = error_count Strategy s
    + match snd (handle_market_event (instance Strategy s) event) with
      | Py.Raise _ => 1
      | Py.Ret _ => 0
      end.
Proof.
  unfold _send_event_to_strategy.
  destruct (handle_market_event _ _) as [i' [u|e]]; simpl; lia.
Qed.

Lemma send_status_raise (s : Instance) (event : MarketEvent) (e : Py.exn) :
  snd (handle_market_event (instance Strategy s) event) = Py.Raise e ->
  max_errors Strategy s <= error_count Strategy (send s event) ->
  status Strategy (send s event) = ERROR.
Proof.
  unfold _send_event_to_strategy.
  destruct (handle_market_event _ _) as [i' [u|e']]; simpl; [discriminate|].
  intros _ H. destruct (_ >=? _) eqn:E; [reflexivity|].
  rewrite Z.geb_leb in E. apply Z.leb_gt in E. lia.
Qed.

(** A call changes the entry of [sid] by a delivery or not at all. *)
Lemma route_lookup (m : gmap string Instance)
      (call : MarketEvent * option string) (sid : string) :
  route m (fst call) (snd call) !! sid
  = (fun s => if delivered_to m call sid then send s (fst call) else s)
      <$> m !! sid.
Proof.
  destruct call as [event target]. unfold route_market_event, delivered.
  cbn [fst snd].
  destruct target as [[|c t]|].
  - rewrite lookup_fmap. unfold route_to.
    destruct (m !! sid) as [s|]; reflexivity.
  - change (targets (Some (String c t)) sid) with (String.eqb (String c t) sid).
    remember (String c t) as tid eqn:Htid. clear Htid.
    destruct (String.eqb tid sid) eqn:E.
    + apply String.eqb_eq in E. subst sid.
      destruct (m !! tid) as [s|] eqn:Et; [|now rewrite Et].
      cbn [fmap option_fmap option_map andb].
      destruct (status_eqb (status Strategy s) RUNNING).
      * apply lookup_insert_eq.
      * exact Et.
    + apply String.eqb_neq in E.
      assert (Hid : (fun s : Instance =>
                       if match m !! sid with
                          | Some strategy =>
                              false && status_eqb (status Strategy strategy) RUNNING
                          | None => false
                          end
                       then send s event else s) <$> m !! sid = m !! sid).
      { destruct (m !! sid); reflexivity. }
      rewrite Hid.
      destruct (m !! tid) as [s|]; [|reflexivity].
      destruct (status_eqb (status Strategy s) RUNNING); [|reflexivity].
      now apply lookup_insert_ne.
  - rewrite lookup_fmap. unfold route_to.
    destruct (m !! sid) as [s|]; reflexivity.
Qed.

Lemma delivered_running (m : gmap string Instance)
      (call : MarketEvent * option string) (sid : string) (s : Instance) :
  m !! sid = Some s ->
  delivered_to m call sid = true ->
  status Strategy s = RUNNING.
Proof.
  unfold delivered. intros ->. rewrite andb_true_iff. intros [_ H].
  now destruct (status Strategy s).
Qed.

Lemma raised_delivered (m : gmap string Instance)
      (call : MarketEvent * option string) (sid : string) :
  raised_in m call sid = true -> delivered_to m call sid = true.
Proof.
  unfold raised. destruct (m !! sid) eqn:E; [|discriminate].
  rewrite andb_true_iff. now intros [H _].
Qed.

(** The entry of [sid] along a run: it stays in the table with its
    threshold, its error count grows by the raising deliveries, ERROR is
    final and ends the deliveries, and a raise that leaves the count at
    the threshold or above has set ERROR. *)
Lemma run_instance (calls : list (MarketEvent * option string))
      (m : gmap string Instance) (sid : string) (s : Instance) :
  m !! sid = Some s ->
  exists s',
    run m calls !! sid = Some s'
    /\ max_errors Strategy s' = max_errors Strategy s
    /\ error_count Strategy s'
       = error_count Strategy s + Z.of_nat (raises m calls sid)
    /\ (status Strategy s = ERROR ->
        status Strategy s' = ERROR /\ deliveries m calls sid = O)
    /\ ((0 < raises m calls sid)%nat ->
        max_errors Strategy s' <= error_count Strategy s' ->
        status Strategy s' = ERROR).
Proof.
  revert m s. induction calls as [|c rest IH]; intros m s Hs.
  - exists s. simpl. repeat split; auto; try lia.
  - pose proof (route_lookup m c sid) as Hstep. rewrite Hs in Hstep.
    simpl in Hstep.
    set (m1 := route m (fst c) (snd c)) in *.
    set (s1 := if delivered_to m c sid then send s (fst c) else s) in *.
    destruct (IH m1 s1 Hstep) as (s' & Hl & Hmax & Hcount & Herr & Hq).
    assert (Hmax1 : max_errors Strategy s1 = max_errors Strategy s).
    { unfold s1. destruct (delivered_to m c sid); [apply send_max_errors|reflexivity]. }
    assert (Hraised : raised_in m c sid
                      = delivered_to m c sid
                        && match snd (handle_market_event (instance Strategy s) (fst c)) with
                           | Py.Raise _ => true
                           | Py.Ret _ => false
                           end).
    { unfold raised. now rewrite Hs. }
    assert (Hcount1 : error_count Strategy s1
                      = error_count Strategy s
                        + (if raised_in m c sid then 1 else 0)).
    { rewrite Hraised. unfold s1. destruct (delivered_to m c sid); simpl; [|lia].
      rewrite send_error_count.
      now destruct (snd (handle_market_event (instance Strategy s) (fst c))). }
    exists s'.
    change (run m (c :: rest)) with (run m1 rest).
    cbn [raise_count delivery_count]. fold m1.
    split; [exact Hl|]. split; [congruence|]. split; [|split].
    + rewrite Hcount, Hcount1. destruct (raised_in m c sid); lia.
    + intros He.
      assert (Hnd : delivered_to m c sid = false).
      { destruct (delivered_to m c sid) eqn:E; [|reflexivity].
        pose proof (delivered_running m c sid s Hs E). congruence. }
      assert (Hs1 : s1 = s) by (unfold s1; now rewrite Hnd).
      rewrite Hs1 in Herr. destruct (Herr He) as [H1 H2].
      split; [exact H1|]. rewrite Hnd, H2. reflexivity.
    + intros Hpos Hge.
      destruct (Nat.eq_dec (raises m1 rest sid) 0%nat) as [Hz|Hnz].
      * rewrite Hz in Hpos, Hcount.
        destruct (raised_in m c sid) eqn:Er; [|simpl in Hpos; lia].
        symmetry in Hraised. apply andb_true_iff in Hraised as [Hd Hh].
        destruct (snd (handle_market_event (instance Strategy s) (fst c)))
          as [u|e] eqn:Eh; [discriminate|].
        assert (Hs1 : s1 = send s (fst c)) by (unfold s1; now rewrite Hd).
        apply Herr. rewrite Hs1. apply (send_status_raise s (fst c) e Eh).
        rewrite <- Hs1, <- Hmax1, <- Hmax. simpl in Hcount. lia.
      * apply Hq; [lia|exact Hge].
Qed.


End ManagerClaims.

(** ** The properties at concrete inputs *)

Section Instances.

Import Scenario.
Local Open Scope string_scope.

(** The end-to-end scenario: 100,000 of cash, BUY 100 @ 100 and SELL
    100 @ 110, each with brokerage 20. *)
Example scenario_after_buy :
  let self :=
    Portfolio.on_fill_events fromtimestamp (Portfolio.init 100000) [buy_100] in
  Portfolio.current_cash self = 89980%Q
  /\ Portfolio.pos_quantity <$> Portfolio.positions self !! "NSE_EQ_INFY"
     = Some 100.
Proof. split; vm_compute; reflexivity. Qed.

Example scenario_after_sell :
  let self :=
    Portfolio.on_fill_events fromtimestamp (Portfolio.init 100000)
                             [buy_100; sell_100] in
  (Portfolio.current_cash self == 100960)%Q
  /\ Portfolio.positions self !! "NSE_EQ_INFY" = None.
Proof. split; vm_compute; reflexivity. Qed.

Lemma C2_quantity_witness :
  Forall (fun e => Portfolio.instrument_token e = "NSE_EQ_INFY"
                   /\ (Portfolio.transaction_type e = "BUY"
                       \/ Portfolio.transaction_type e = "SELL"))
         [buy_100; buy_50; sell_100]
  /\ exists p,
      Portfolio.positions
        (Portfolio.on_fill_events fromtimestamp (Portfolio.init 100000)
                                  [buy_100; buy_50; sell_100])
      !! "NSE_EQ_INFY" = Some p
      /\ Portfolio.pos_quantity p = 50.
Proof.
  assert (H : Forall (fun e => Portfolio.instrument_token e = "NSE_EQ_INFY"
                               /\ (Portfolio.transaction_type e = "BUY"
                                   \/ Portfolio.transaction_type e = "SELL"))
                     [buy_100; buy_50; sell_100]).
  { repeat (constructor;
            [split; [reflexivity
                    |first [left; reflexivity | right; reflexivity]]|]).
    constructor. }
  split; [exact H|].
  destruct (C2_quantity_is_signed_sum fromtimestamp 100000 "NSE_EQ_INFY"
              [buy_100; buy_50; sell_100] H) as (_ & Hsome & _).
  apply Hsome. vm_compute. discriminate.
Defined.

Lemma C3_average_witness :
  (Portfolio.positions (Portfolio.init 100000) !! "NSE_EQ_INFY" = None
   /\ 0 < 100 /\ 0 < 50)
  /\ exists pos,
      Portfolio.positions
        (Portfolio.on_fill_events fromtimestamp (Portfolio.init 100000)
           [Portfolio.mkFillEvent "order-1" "NSE_EQ_INFY" (Some "exch-1") "BUY"
                                  100 100 20 0;
            Portfolio.mkFillEvent "order-3" "NSE_EQ_INFY" (Some "exch-3") "BUY"
                                  50 130 20 120])
      !! "NSE_EQ_INFY" = Some pos
      /\ Portfolio.pos_quantity pos = 100 + 50
      /\ (Portfolio.pos_avg_price pos
          == (inject_Z 100 * 100 + inject_Z 50 * 130) / inject_Z (100 + 50))%Q.
Proof.
  assert (H : Portfolio.positions (Portfolio.init 100000) !! "NSE_EQ_INFY" = None)
    by reflexivity.
  split; [split; [exact H | split; lia]|].
  apply (proj1 (C3_buy_average_price fromtimestamp)); [exact H | lia | lia].
Defined.

Lemma C4_boundary_witness :
  exists valid,
    RiskManager.validate_order (fixed_broker 1000 20 1020)
                               "NSE_EQ_INFY" 100 "MIS" "BUY" "entry" 100
    = Py.Ret (valid, 1000%Q, 20%Q)
    /\ (valid = true <-> (1000 + 20 <= 1020)%Q).
Proof.
  apply (proj1 (C4_validate_order_funds (fixed_broker 1000 20 1020)
                  "NSE_EQ_INFY" 100 "MIS" "BUY" "entry" 100 1000 20 1020
                  eq_refl eq_refl eq_refl)).
  reflexivity.
Defined.

(** The boundary of the entry check: funds equal to margin plus
    brokerage pass, one hundredth less fails. *)
Example entry_check_boundary :
  RiskManager.validate_order (fixed_broker 1000 20 1020)
                             "NSE_EQ_INFY" 100 "MIS" "BUY" "entry" 100
  = Py.Ret (true, 1000%Q, 20%Q)
  /\ RiskManager.validate_order (fixed_broker 1000 20 (101999 # 100))
                                "NSE_EQ_INFY" 100 "MIS" "BUY" "entry" 100
     = Py.Ret (false, 1000%Q, 20%Q).
Proof. split; reflexivity. Qed.

Lemma C5_rejected_witness :
  (Py.upper (Broker.order_type (market_order "BUY" 20000 100)) = "MARKET"
   /\ Py.upper (Broker.transaction_type (market_order "BUY" 20000 100)) = "BUY"
   /\ Qle_bool (Broker.random_draw draws)
               (Broker.fill_chance (Broker.init 0 1)) = true)
  /\ let result :=
       Broker.place_order (Broker.init 0 1) (market_order "BUY" 20000 100) draws in
     Broker.od_status (snd result) = "REJECTED"
     /\ Broker.od_filled_quantity (snd result) = 0
     /\ Broker.current_funds (fst result) = 1000000%Q.
Proof.
  split; [repeat split|].
  destruct (C5_buy_requires_funds (Broker.init 0 1)
              (market_order "BUY" 20000 100) draws eq_refl eq_refl eq_refl)
    as (_ & _ & H).
  destruct H as (H1 & H2 & H3 & _).
  - intros Hle. vm_compute in Hle. apply Hle. reflexivity.
  - repeat split; assumption.
Defined.

(** C8, as stated, fails: a market BUY order of one unit at price 0,
    without slippage, is FILLED at 100, not at 0 + 0 * (0 / 100). *)
Lemma C8_price_zero_counterexample :
  let self := Broker.init 0 1 in
  let req := market_order "BUY" 1 0 in
  let order := snd (Broker.place_order self req draws) in
  Py.upper (Broker.order_type req) = "MARKET"
  /\ Qle_bool (Broker.random_draw draws) (Broker.fill_chance self) = true
  /\ Broker.od_status order = "FILLED"
  /\ Broker.od_filled_price order = 100%Q
  /\ Broker.slipped_requested_price self "BUY" (Broker.price req) = 0%Q
  /\ ~ (Broker.od_filled_price order
        == Broker.slipped_requested_price self "BUY" (Broker.price req))%Q.
Proof.
  repeat split; try (vm_compute; reflexivity).
  intros H. vm_compute in H. discriminate.
Qed.

Lemma C8_fill_price_witness :
  (Py.upper (Broker.order_type (market_order "SELL" 10 (401 # 4))) = "MARKET"
   /\ Qle_bool (Broker.random_draw draws)
               (Broker.fill_chance (Broker.init 1 1)) = true
   /\ (0 < 401 # 4)%Q)
  /\ Broker.fill_price_of (Broker.init 1 1) "SELL" (401 # 4) 100
     = Broker.slipped_requested_price (Broker.init 1 1) "SELL" (401 # 4).
Proof.
  split; [repeat split|].
  apply (proj1 (C8_fill_price_with_slippage (Broker.init 1 1)
                  (market_order "SELL" 10 (401 # 4)) draws eq_refl eq_refl)).
  reflexivity.
Defined.

Lemma C9_failure_witness :
  (exists e,
      RiskManager.calculate_margin failing_broker
        (RiskManager.mkInstrumentDict "NSE_EQ_INFY" 100 "MIS" "BUY" 100)
      = Py.Raise e)
  /\ RiskManager.validate_order failing_broker
                                "NSE_EQ_INFY" 100 "MIS" "BUY" "entry" 100
     = Py.Ret (false, 0%Q, 0%Q).
Proof.
  assert (H : exists e,
             RiskManager.calculate_margin failing_broker
               (RiskManager.mkInstrumentDict "NSE_EQ_INFY" 100 "MIS" "BUY" 100)
             = Py.Raise e)
    by (eexists; reflexivity).
  split; [exact H|].
  apply C9_query_failure_is_invalid. left. exact H.
Defined.

(** C10, as stated, fails twice. A fill of an unknown side whose
    timestamp [datetime.fromtimestamp] refuses makes the call raise with
    no trade record and no equity snapshot appended; and a ledger loaded
    from a file with an entry of quantity zero loses that entry. *)
Lemma C10_frame_counterexample :
  (let self := Portfolio.init 100000 in
   let call := Portfolio.on_fill_event fromtimestamp self Cases.bonus_late in
   Portfolio.transaction_type Cases.bonus_late <> "BUY"
   /\ Portfolio.transaction_type Cases.bonus_late <> "SELL"
   /\ (exists e, snd call = Py.Raise e)
   /\ Portfolio.portfolio_trades (fst call) = Portfolio.portfolio_trades self
   /\ Portfolio.equity_curve (fst call) = Portfolio.equity_curve self)
  /\ (let self := Ledger.init_from Cases.who_ema 100000 Cases.flat_entry_file in
      let call := Portfolio.on_fill_event fromtimestamp self bonus_10 in
      Portfolio.positions self !! "NSE_EQ_TCS"
      = Some (Portfolio.mkPosition "NSE_EQ_TCS" 0 0 3000)
      /\ snd call = Py.Ret tt
      /\ Portfolio.positions (fst call) !! "NSE_EQ_TCS" = None).
Proof.
  split.
  - split; [discriminate|]. split; [discriminate|].
    split; [eexists; vm_compute; reflexivity|].
    split; vm_compute; reflexivity.
  - repeat split; vm_compute; reflexivity.
Qed.

Lemma C10_frame_witness :
  (Portfolio.transaction_type bonus_10 <> "BUY"
   /\ Portfolio.transaction_type bonus_10 <> "SELL"
   /\ Portfolio.no_zero_entry
        (Portfolio.positions
           (Portfolio.on_fill_events fromtimestamp (Portfolio.init 100000)
                                     [buy_100])))
  /\ let self :=
       Portfolio.on_fill_events fromtimestamp (Portfolio.init 100000)
                                [buy_100] in
     let self' := fst (Portfolio.on_fill_event fromtimestamp self bonus_10) in
     Portfolio.current_cash self' = Portfolio.current_cash self
     /\ Portfolio.positions self' = Portfolio.positions self
     /\ Portfolio.portfolio_trades self'
        = (Portfolio.portfolio_trades self
           ++ [Portfolio.trade_record bonus_10 180
                                      (Portfolio.current_cash self)])%list.
Proof.
  assert (Hb : Portfolio.transaction_type bonus_10 <> "BUY") by discriminate.
  assert (Hs : Portfolio.transaction_type bonus_10 <> "SELL") by discriminate.
  assert (Hz : Portfolio.no_zero_entry
                 (Portfolio.positions
                    (Portfolio.on_fill_events fromtimestamp
                       (Portfolio.init 100000) [buy_100])))
    by apply on_fill_events_no_zero, init_no_zero.
  split; [split; [|split]; assumption|].
  destruct (C10_other_fill_is_frame fromtimestamp _ bonus_10 Hb Hs Hz)
    as (H1 & H2 & H3 & _).
  split; [exact H1|]. split; [exact H2|].
  apply (H3 180%Q). reflexivity.
Defined.



(** The healthy strategy of the table is served by the sixth broadcast
    while the faulty one is not. *)
Example sixth_broadcast_spy_counts :
  let table :=
    StrategyManager.route_market_events unit bool handler
      two_strategies five_broadcasts in
  StrategyManager.delivered unit bool table (tt, None) "good_1" = true
  /\ StrategyManager.delivered unit bool table (tt, None) "bad_1" = false
  /\ StrategyManager.delivery_count unit bool handler
       two_strategies five_broadcasts "bad_1" = 5%nat.
Proof. repeat split; vm_compute; reflexivity. Qed.

End Instances.

(** * Further properties of the code *)

(** ** The ledger: positions, reports and the positions file *)

Section LedgerFacts.

Import Portfolio Ledger.

Variable fromtimestamp : Q -> Py.result Q.

Lemma on_fill_events_cons (self : PortfolioManager) (e : FillEvent)
      (es : list FillEvent) :
  on_fill_events fromtimestamp self (e :: es)
  = on_fill_events fromtimestamp (fst (on_fill_event fromtimestamp self e)) es.
Proof. reflexivity. Qed.

Lemma on_fill_events_snoc (self : PortfolioManager) (es : list FillEvent)
      (e : FillEvent) :
  on_fill_events fromtimestamp self (es ++ [e])
  = fst (on_fill_event fromtimestamp (on_fill_events fromtimestamp self es) e).
Proof. unfold on_fill_events. now rewrite fold_left_app. Qed.

Lemma on_fill_events_initial_cash (events : list FillEvent)
      (self : PortfolioManager) :
  initial_cash (on_fill_events fromtimestamp self events) = initial_cash self.
Proof.
  revert self. induction events as [|e es IH]; intros self; [reflexivity|].
  now rewrite on_fill_events_cons, IH, on_fill_event_initial_cash.
Qed.

Lemma update_cash_flow (cash : Q) (event : FillEvent) :
  (update_cash cash event == cash + cash_flow event)%Q.
Proof.
  unfold update_cash, cash_flow.
  destruct (String.eqb (transaction_type event) "BUY"); [ring|].
  destruct (String.eqb (transaction_type event) "SELL"); ring.
Qed.

Lemma on_fill_events_cash (events : list FillEvent) (self : PortfolioManager) :
  (current_cash (on_fill_events fromtimestamp self events)
   == current_cash self + total_cash_flow events)%Q.
Proof.
  revert self. induction events as [|e es IH]; intros self.
  - simpl. ring.
  - rewrite on_fill_events_cons, IH, on_fill_event_cash. simpl.
    rewrite update_cash_flow. ring.
Qed.

(** A BUY and a SELL of the same quantity on an instrument without a
    position put the positions map back as it was, whatever the two
    prices; the cash moves by q * (p2 - p1) less the two brokerages. *)
Theorem buy_then_sell_restores_positions (self : PortfolioManager)
        (token oid1 oid2 : string) (xid1 xid2 : option string)
        (q : Z) (p1 p2 b1 b2 ts1 ts2 : Q) :
  positions self !! token = None ->
  let self' :=
    on_fill_events fromtimestamp self
      [mkFillEvent oid1 token xid1 "BUY" q p1 b1 ts1;
       mkFillEvent oid2 token xid2 "SELL" q p2 b2 ts2] in
  positions self' = positions self
  /\ (current_cash self'
      == current_cash self + (inject_Z q * (p2 - p1) - b1 - b2))%Q.
Proof.
  intros Hnone self'.
  set (e1 := mkFillEvent oid1 token xid1 "BUY" q p1 b1 ts1).
  set (e2 := mkFillEvent oid2 token xid2 "SELL" q p2 b2 ts2).
  split.
  - apply map_eq. intros k.
    assert (Hps : positions self'
                  = update_positions (update_positions (positions self) e1) e2).
    { unfold self', on_fill_events. cbn [fold_left].
      now rewrite !on_fill_event_positions. }
    rewrite Hps. clear Hps.
    destruct (decide (token = k)) as [<-|Hne].
    + rewrite (update_positions_lookup _ e2). cbv zeta.
      rewrite update_position_quantity, current_position_quantity.
      change (instrument_token e2) with (instrument_token e1).
      rewrite update_positions_held. unfold held. simpl instrument_token.
      rewrite Hnone.
      replace (0 + signed_quantity e1 + signed_quantity e2) with 0
        by (unfold signed_quantity; simpl; lia).
      reflexivity.
    + rewrite (update_positions_frame _ e2) by exact Hne.
      now rewrite (update_positions_frame _ e1).
  - unfold self'. rewrite on_fill_events_cash.
    change (total_cash_flow _)
      with (- (inject_Z q * p1 + b1) + ((inject_Z q * p2 - b2) + 0))%Q.
    ring.
Qed.

(** The average price after a SELL that leaves a position: a SELL inside
    a long position keeps the average; a SELL larger than the long
    position stores the fill price; a SELL on an instrument without a
    position opens a short whose average price is 0. *)
Theorem sell_average_price (self : PortfolioManager) (event : FillEvent) :
  transaction_type event = "SELL"%string ->
  let cur := current_position (positions self) event in
  let q := quantity event in
  let after :=
    positions (fst (on_fill_event fromtimestamp self event))
    !! instrument_token event in
  (0 < q < pos_quantity cur ->
   exists pos, after = Some pos
               /\ pos_quantity pos = pos_quantity cur - q
               /\ pos_avg_price pos = pos_avg_price cur)
  /\ (0 < pos_quantity cur < q ->
      exists pos, after = Some pos
                  /\ pos_quantity pos = pos_quantity cur - q
                  /\ pos_avg_price pos = price event)
  /\ (positions self !! instrument_token event = None -> q <> 0 ->
      exists pos, after = Some pos
                  /\ pos_quantity pos = - q
                  /\ pos_avg_price pos = 0%Q).
Proof.
  intros Hsell cur q after.
  assert (Hafter : after
                   = if pos_quantity (apply_sell cur event) =? 0 then None
                     else Some (apply_sell cur event)).
  { unfold after. rewrite on_fill_event_positions.
    rewrite update_positions_lookup. cbv zeta.
    unfold update_position. rewrite Hsell. reflexivity. }
  assert (Hq : pos_quantity (apply_sell cur event) = pos_quantity cur - q)
    by reflexivity.
  split; [|split].
  - intros [H1 H2]. exists (apply_sell cur event).
    rewrite Hafter, Hq.
    destruct (pos_quantity cur - q =? 0) eqn:E; [apply Z.eqb_eq in E; lia|].
    repeat split. unfold apply_sell. simpl. fold q. rewrite E.
    replace (pos_quantity cur - q <? 0) with false
      by (symmetry; apply Z.ltb_ge; lia).
    replace (pos_quantity cur <? 0) with false
      by (symmetry; apply Z.ltb_ge; lia).
    now rewrite andb_false_r.
  - intros [H1 H2]. exists (apply_sell cur event).
    rewrite Hafter, Hq.
    destruct (pos_quantity cur - q =? 0) eqn:E; [apply Z.eqb_eq in E; lia|].
    repeat split. unfold apply_sell. simpl. fold q. rewrite E.
    replace (pos_quantity cur >? 0) with true
      by (symmetry; apply Z.gtb_lt; lia).
    replace (pos_quantity cur - q <? 0) with true
      by (symmetry; apply Z.ltb_lt; lia).
    reflexivity.
  - intros Hnone Hne.
    assert (Hcur : cur = new_position event)
      by (unfold cur, current_position; now rewrite Hnone).
    exists (apply_sell cur event). rewrite Hafter, Hq, Hcur. simpl pos_quantity.
    destruct (0 - q =? 0) eqn:E; [apply Z.eqb_eq in E; lia|].
    split; [reflexivity|]. split; [lia|].
    unfold apply_sell. simpl. fold q. now rewrite E.
Qed.

(** Fills on other instruments leave the entry of an instrument alone. *)
Theorem fills_leave_other_instruments (token : string)
        (events : list FillEvent) (self : PortfolioManager) :
  Forall (fun e => instrument_token e <> token) events ->
  positions (on_fill_events fromtimestamp self events) !! token
  = positions self !! token.
Proof.
  revert self. induction events as [|e es IH]; intros self H; [reflexivity|].
  inversion H as [|? ? He Hes]; subst.
  rewrite on_fill_events_cons, IH by assumption.
  rewrite on_fill_event_positions. now apply update_positions_frame.
Qed.

(** The realized PnL that [log_current_state] reports after a run of
    fills is the sum of the SELL proceeds less the BUY costs, open
    positions included at their full cost; fills of another type add
    nothing. *)
Theorem realized_pnl_is_total_cash_flow (cash : Q) (events : list FillEvent) :
  (realized_pnl (on_fill_events fromtimestamp (init cash) events)
   == total_cash_flow events)%Q.
Proof.
  unfold realized_pnl.
  rewrite on_fill_events_initial_cash, on_fill_events_cash. simpl. ring.
Qed.

Lemma last_cons_default {A : Type} (l : list A) (x d d' : A) :
  List.last (x :: l) d = List.last (x :: l) d'.
Proof.
  revert x. induction l as [|y l IH]; intros x; [reflexivity|].
  change (List.last (x :: y :: l) d) with (List.last (y :: l) d).
  change (List.last (x :: y :: l) d') with (List.last (y :: l) d').
  apply IH.
Qed.

Lemma forallb_filter_id {A : Type} (f : A -> bool) (l : list A) :
  forallb f l = true -> List.filter f l = l.
Proof.
  induction l as [|x l IH]; [reflexivity|]. simpl.
  destruct (f x); [|discriminate]. simpl. intros H. now rewrite IH.
Qed.

(** What a run appends to the equity curve and to the trade log: one
    entry each per fill whose timestamp converts. *)
Lemma curves_grow (events : list FillEvent) (self : PortfolioManager) :
  exists more trades,
    equity_curve (on_fill_events fromtimestamp self events)
    = equity_curve self ++ more
    /\ portfolio_trades (on_fill_events fromtimestamp self events)
       = portfolio_trades self ++ trades
    /\ length more = length (List.filter (converts fromtimestamp) events)
    /\ length trades = length (List.filter (converts fromtimestamp) events)
    /\ Forall (fun s => snap_total_value s = snap_cash s) more.
Proof.
  induction events as [|e es IH] using rev_ind.
  - exists [], []. simpl. rewrite !app_nil_r. repeat split. constructor.
  - destruct IH as (more & trades & Heq & Htr & Hlen & Hlen' & Hall).
    rewrite on_fill_events_snoc, List.filter_app, !length_app.
    set (st := on_fill_events fromtimestamp self es) in *.
    cbn [List.filter]. unfold converts at 2 4.
    destruct (fromtimestamp (fill_timestamp e)) as [ts|err] eqn:E.
    + rewrite (on_fill_event_returns fromtimestamp st e ts E).
      cbn [fst equity_curve portfolio_trades length].
      eexists (more ++ [_]), (trades ++ [_]).
      rewrite Heq, Htr, <- !app_assoc.
      split; [reflexivity|]. split; [reflexivity|].
      rewrite !length_app, Hlen, Hlen'. cbn [length].
      split; [reflexivity|]. split; [reflexivity|].
      apply Forall_app. split; [exact Hall|]. repeat constructor.
    + rewrite (on_fill_event_raises fromtimestamp st e err E).
      cbn [fst equity_curve portfolio_trades length].
      exists more, trades. rewrite Hlen, Hlen'.
      repeat split; try assumption; lia.
Qed.

(** After a fill whose timestamp converts, the last snapshot shows the
    ledger as it is. *)
Lemma last_snapshot_current (events : list FillEvent) (e : FillEvent)
      (self : PortfolioManager) (d : EquitySnapshot) :
  converts fromtimestamp e = true ->
  let self' := on_fill_events fromtimestamp self (events ++ [e]) in
  exists ts,
    List.last (equity_curve self') d
    = equity_snapshot (current_cash self') ts (positions self').
Proof.
  unfold converts. intros H.
  destruct (fromtimestamp (fill_timestamp e)) as [ts|err] eqn:E; [|discriminate].
  cbv zeta. rewrite on_fill_events_snoc.
  rewrite (on_fill_event_returns fromtimestamp _ e ts E).
  cbn [fst equity_curve current_cash positions].
  exists ts. apply last_last.
Qed.

Lemma equity_curve_facts (cash t0 : Q) (events : list FillEvent) :
  let self := on_fill_events fromtimestamp (initialize (init cash) t0) events in
  let recorded := List.filter (converts fromtimestamp) events in
  length (equity_curve self) = S (length recorded)
  /\ length (portfolio_trades self) = length recorded
  /\ Forall (fun s => snap_total_value s = snap_cash s) (equity_curve self)
  /\ (forallb (converts fromtimestamp) events = true ->
      length recorded = length events
      /\ exists ts,
          List.last (equity_curve self) (equity_snapshot cash t0 ∅)
          = equity_snapshot (current_cash self) ts (positions self)).
Proof.
  intros self recorded.
  destruct (curves_grow events (initialize (init cash) t0))
    as (more & trades & Heq & Htr & Hlen & Hlen' & Hall).
  fold self in Heq, Htr. fold recorded in Hlen, Hlen'.
  split; [|split; [|split]].
  - rewrite Heq, length_app, Hlen. reflexivity.
  - rewrite Htr. simpl. exact Hlen'.
  - rewrite Heq. apply Forall_app. split; [|exact Hall]. repeat constructor.
  - intros Hconv. split.
    + unfold recorded. now rewrite forallb_filter_id.
    + destruct events as [|e es] using rev_ind.
      * exists t0. reflexivity.
      * rewrite forallb_app in Hconv. apply andb_true_iff in Hconv as [_ He].
        simpl in He. rewrite andb_true_r in He.
        apply last_snapshot_current. exact He.
Qed.

(** The equity curve and the trade log of a ledger that was initialized
    and then received fills. A fill whose timestamp
    [datetime.fromtimestamp] converts adds one snapshot and one trade
    record; a fill whose timestamp it refuses adds neither, although cash
    and positions have moved. Every snapshot is valued at its cash alone.
    When every timestamp converts there is one snapshot per fill after
    the first one, and the last snapshot shows the current cash and
    quantities. *)
Theorem equity_curve_after_fills (cash t0 : Q) (events : list FillEvent) :
  let self := on_fill_events fromtimestamp (initialize (init cash) t0) events in
  let recorded := List.filter (converts fromtimestamp) events in
  length (equity_curve self) = S (length recorded)
  /\ length (portfolio_trades self) = length recorded
  /\ Forall (fun s => snap_total_value s = snap_cash s) (equity_curve self)
  /\ (forallb (converts fromtimestamp) events = true ->
      length recorded = length events
      /\ exists ts,
          List.last (equity_curve self) (equity_snapshot cash t0 ∅)
          = equity_snapshot (current_cash self) ts (positions self)).
Proof. apply equity_curve_facts. Qed.

(** The total return of the performance summary, for a ledger that
    started with non-zero cash, was initialized and then received fills
    whose timestamps all convert: the net cash flow of the fills over the
    initial cash. A position that is still open counts with its full
    cost. *)
Theorem total_return_is_cash_flow_ratio (cash t0 : Q) (events : list FillEvent) :
  ~ (cash == 0)%Q ->
  forallb (converts fromtimestamp) events = true ->
  exists r,
    total_return
      (on_fill_events fromtimestamp (initialize (init cash) t0) events)
    = Some r
    /\ (r == total_cash_flow events / cash)%Q.
Proof.
  intros Hcash Hconv.
  destruct (equity_curve_facts cash t0 events) as (_ & _ & _ & Hlast).
  destruct (Hlast Hconv) as (_ & ts & Hts).
  destruct (curves_grow events (initialize (init cash) t0))
    as (more & _ & Heq & _).
  set (self := on_fill_events fromtimestamp (initialize (init cash) t0) events)
    in *.
  assert (Hc : equity_curve self = equity_snapshot cash t0 ∅ :: more)
    by exact Heq.
  unfold total_return. rewrite Hc. rewrite Hc in Hts.
  rewrite Hts. simpl snap_total_value.
  assert (Hb : Qeq_bool cash 0 = false).
  { destruct (Qeq_bool cash 0) eqn:E; [|reflexivity].
    apply Qeq_bool_iff in E. contradiction. }
  rewrite Hb. simpl negb. eexists. split; [reflexivity|].
  unfold self. rewrite on_fill_events_cash. simpl current_cash.
  field. exact Hcash.
Qed.

Lemma positions_of_list_miss (l : list Position) (acc : gmap string Position)
      (k : string) :
  Forall (fun p => pos_instrument_token p <> k) l ->
  fold_left (fun m p => <[pos_instrument_token p := p]> m) l acc !! k = acc !! k.
Proof.
  revert acc. induction l as [|x l IH]; intros acc H; [reflexivity|].
  inversion H as [|? ? Hx Hl]; subst. simpl.
  rewrite IH by assumption. now apply lookup_insert_ne.
Qed.

Lemma positions_of_list_hit (l : list Position) (acc : gmap string Position)
      (p : Position) :
  p ∈ l ->
  NoDup (pos_instrument_token <$> l) ->
  fold_left (fun m p => <[pos_instrument_token p := p]> m) l acc
  !! pos_instrument_token p = Some p.
Proof.
  revert acc. induction l as [|x l IH]; intros acc Hin Hnd.
  - inversion Hin.
  - simpl in Hnd. apply NoDup_cons in Hnd as [Hx Hnd]. simpl.
    apply elem_of_cons in Hin as [->|Hin].
    + rewrite positions_of_list_miss; [apply lookup_insert_eq|].
      apply Forall_forall. intros y Hy Heq. apply Hx.
      rewrite <- Heq. now apply list_elem_of_fmap_2.
    + now apply IH.
Qed.

Lemma positions_of_list_values (ps : gmap string Position) :
  keys_match ps ->
  positions_of_list (snd <$> map_to_list ps) = ps.
Proof.
  intros Hkeys. apply map_eq. intros k. unfold positions_of_list.
  assert (Htok : pos_instrument_token <$> (snd <$> map_to_list ps)
                 = fst <$> map_to_list ps).
  { rewrite <- list_fmap_compose. apply list_fmap_ext.
    intros i [k' p] Hi. simpl. apply Hkeys.
    apply elem_of_map_to_list. eapply list_elem_of_lookup_2. exact Hi. }
  destruct (ps !! k) as [p|] eqn:E.
  - rewrite <- (Hkeys k p E). apply positions_of_list_hit.
    + apply elem_of_map_to_list in E.
      now apply (list_elem_of_fmap_2 snd) in E.
    + rewrite Htok. apply NoDup_fst_map_to_list.
  - rewrite positions_of_list_miss; [apply lookup_empty|].
    apply Forall_forall. intros p Hp Heq.
    apply list_elem_of_fmap in Hp as ([k' p'] & -> & Hin).
    apply elem_of_map_to_list in Hin. simpl in Heq.
    rewrite (Hkeys k' p' Hin) in Heq. congruence.
Qed.

Lemma positions_of_list_keys_match (l : list Position) :
  keys_match (positions_of_list l).
Proof.
  unfold positions_of_list.
  assert (H : forall acc, keys_match acc ->
                          keys_match (fold_left
                                        (fun m p => <[pos_instrument_token p := p]> m)
                                        l acc)).
  { induction l as [|x l IH]; intros acc Hacc; [exact Hacc|].
    simpl. apply IH. intros k p.
    destruct (decide (pos_instrument_token x = k)) as [<-|Hne].
    - rewrite lookup_insert_eq. now intros [= <-].
    - rewrite lookup_insert_ne by assumption. apply Hacc. }
  apply H. intros k p. now rewrite lookup_empty.
Qed.

Lemma update_position_token (p : Position) (event : FillEvent) :
  pos_instrument_token (update_position p event) = pos_instrument_token p.
Proof.
  unfold update_position.
  destruct (String.eqb (transaction_type event) "BUY"); [reflexivity|].
  now destruct (String.eqb (transaction_type event) "SELL").
Qed.

Lemma update_positions_keys_match (ps : gmap string Position) (event : FillEvent) :
  keys_match ps -> keys_match (update_positions ps event).
Proof.
  intros Hps k p.
  destruct (decide (instrument_token event = k)) as [<-|Hne].
  - rewrite update_positions_lookup. cbv zeta.
    destruct (_ =? 0); [discriminate|]. intros [= <-].
    rewrite update_position_token. unfold current_position.
    destruct (ps !! instrument_token event) as [p|] eqn:E; [|reflexivity].
    now apply Hps.
  - rewrite update_positions_frame by assumption. apply Hps.
Qed.

Lemma on_fill_events_keys_match (events : list FillEvent)
      (self : PortfolioManager) :
  keys_match (positions self) ->
  keys_match (positions (on_fill_events fromtimestamp self events)).
Proof.
  revert self. induction events as [|e es IH]; intros self H; [exact H|].
  rewrite on_fill_events_cons. apply IH. rewrite on_fill_event_positions.
  now apply update_positions_keys_match.
Qed.

Lemma init_from_keys_match (who : Identity) (cash : Q) (file : PositionsFile) :
  keys_match (positions (init_from who cash file)).
Proof.
  assert (He : keys_match (∅ : gmap string Position))
    by (intros k p; now rewrite lookup_empty).
  unfold init_from, _load_positions. simpl positions.
  destruct file as [| |data]; try exact He.
  destruct (data !! broker_key who) as [accounts|]; [|exact He].
  destruct (accounts !! account_name who) as [strategies|]; [|exact He].
  destruct (strategies !! strategy_name who) as [entry|]; [|exact He].
  destruct (se_positions entry) as [l|]; [|exact He].
  apply positions_of_list_keys_match.
Qed.

Lemma load_stored_entry (who : Identity) (cash : Q) (file : PositionsFile) :
  _load_positions who cash file
  = match stored_entry who file with
    | Some entry =>
        match se_positions entry with
        | Some l => (positions_of_list l, default cash (se_current_cash entry))
        | None => (∅, cash)
        end
    | None => (∅, cash)
    end.
Proof.
  unfold _load_positions, stored_entry.
  destruct file as [| |data]; try reflexivity.
  destruct (data !! broker_key who) as [accounts|]; [|reflexivity]. simpl.
  destruct (accounts !! account_name who) as [strategies|]; [|reflexivity].
  simpl. now destruct (strategies !! strategy_name who).
Qed.

Lemma stored_entry_saved (self : PortfolioManager) (who : Identity)
      (file : PositionsFile) :
  stored_entry who (_save_positions self who file Written)
  = Some {| se_positions := Some (snd <$> map_to_list (positions self));
            se_current_cash := Some (current_cash self) |}.
Proof.
  unfold stored_entry, _save_positions, saved_data.
  rewrite lookup_insert_eq. simpl. rewrite lookup_insert_eq. simpl.
  apply lookup_insert_eq.
Qed.

(** The positions file round trip: a ledger that started from a
    positions file (or none) and received fills, once saved under its
    names, is found again by a manager created with the same names, with
    the same positions and the same cash, whatever that manager's initial
    cash and whatever else the file held. *)
Theorem positions_file_round_trip (who0 who : Identity) (cash0 cash : Q)
        (file0 file : PositionsFile) (events : list FillEvent) :
  let self := on_fill_events fromtimestamp (init_from who0 cash0 file0) events in
  let restarted := init_from who cash (_save_positions self who file Written) in
  positions restarted = positions self
  /\ current_cash restarted = current_cash self.
Proof.
  intros self restarted. unfold restarted, init_from.
  cbn [positions current_cash].
  rewrite load_stored_entry, stored_entry_saved.
  cbn [se_positions se_current_cash default from_option id fst snd].
  split; [|reflexivity].
  apply positions_of_list_values.
  apply on_fill_events_keys_match, init_from_keys_match.
Qed.

(** A save that writes the whole text leaves every entry but its own:
    what a manager with another broker key, account or strategy name
    finds in the file is what it found before. *)
Lemma stored_entry_other (self : PortfolioManager) (who other : Identity)
      (file : PositionsFile) :
  broker_key other <> broker_key who
  \/ account_name other <> account_name who
  \/ strategy_name other <> strategy_name who ->
  stored_entry other (_save_positions self who file Written)
  = stored_entry other file.
Proof.
  intros Hdiff.
  unfold stored_entry, _save_positions, saved_data.
  set (data := match file with Json d => d | _ => ∅ end).
  assert (Hfile : match file with
                  | Json d =>
                      accounts ← d !! broker_key other;
                      strategies ← accounts !! account_name other;
                      strategies !! strategy_name other
                  | _ => None
                  end
                  = accounts ← data !! broker_key other;
                    strategies ← accounts !! account_name other;
                    strategies !! strategy_name other).
  { unfold data. destruct file; try reflexivity; now rewrite lookup_empty. }
  rewrite Hfile. clear Hfile.
  destruct (decide (broker_key who = broker_key other)) as [Hb|Hb].
  - rewrite <- Hb, lookup_insert_eq. simpl.
    destruct (data !! broker_key who) as [accounts|] eqn:Ea; simpl.
    + destruct (decide (account_name who = account_name other)) as [Hc|Hc].
      * rewrite <- Hc, lookup_insert_eq. simpl.
        destruct (accounts !! account_name who) as [strategies|] eqn:Es; simpl.
        -- apply lookup_insert_ne. destruct Hdiff as [H|[H|H]]; congruence.
        -- rewrite lookup_insert_ne; [apply lookup_empty|].
           destruct Hdiff as [H|[H|H]]; congruence.
      * now rewrite lookup_insert_ne.
    + destruct (decide (account_name who = account_name other)) as [Hc|Hc].
      * rewrite <- Hc, lookup_insert_eq. simpl. rewrite lookup_empty. simpl.
        rewrite lookup_insert_ne; [apply lookup_empty|].
        destruct Hdiff as [H|[H|H]]; congruence.
      * rewrite lookup_insert_ne by assumption. now rewrite lookup_empty.
  - now rewrite lookup_insert_ne.
Qed.

(** Saving one manager's ledger leaves what a manager with another
    broker key, account or strategy name loads from the file unchanged,
    when the whole text reaches the file or the file is never opened for
    writing. A write that fails after the file was opened leaves an
    unparseable file, from which every manager, the saving one included,
    starts with no positions and its initial cash. *)
Theorem save_leaves_other_entries (self : PortfolioManager)
        (who other : Identity) (cash : Q) (file : PositionsFile) :
  broker_key other <> broker_key who
  \/ account_name other <> account_name who
  \/ strategy_name other <> strategy_name who ->
  (forall outcome : SaveOutcome,
      outcome <> Truncated ->
      _load_positions other cash (_save_positions self who file outcome)
      = _load_positions other cash file)
  /\ (forall (anyone : Identity) (c : Q),
         _load_positions anyone c (_save_positions self who file Truncated)
         = (∅, c)).
Proof.
  intros Hdiff. split.
  - intros [| |] Hout; [|reflexivity|congruence].
    rewrite !load_stored_entry.
    now rewrite (stored_entry_other self who other file Hdiff).
  - reflexivity.
Qed.

End LedgerFacts.

(** ** The simulated broker: funds, order book and rounding *)

Section BrokerFacts.

Import Broker OrderBook.

Lemma store_fst (self : SimulatedBroker) (funds : Q) (ts : list Trade)
      (od : OrderDetails) :
  current_funds (fst (store self funds ts od)) = funds
  /\ trades (fst (store self funds ts od)) = trades self ++ ts
  /\ orders (fst (store self funds ts od)) = <[od_order_id od := od]> (orders self)
  /\ snd (store self funds ts od) = od.
Proof. repeat split. Qed.

(** The branches of [place_order]: the final order, the funds and the
    trades it leaves. *)
Lemma place_order_cases (self : SimulatedBroker) (req : OrderRequest) (d : Draws) :
  let fp := fill_price_of self (transaction_type req) (price req) (uniform_draw d) in
  let filled := set_filled (pending_order req d) (quantity req) fp (uuid_exchange d) in
  let record := fill_record req d fp calculate_brokerage in
  let cost := (fp * inject_Z (quantity req) + calculate_brokerage)%Q in
  let revenue := (fp * inject_Z (quantity req) - calculate_brokerage)%Q in
  (place_order self req d
   = store self (current_funds self - cost)%Q [record] filled
   /\ Py.upper (transaction_type req) = "BUY"%string
   /\ (cost <= current_funds self)%Q)
  \/ (place_order self req d
      = store self (current_funds self + revenue)%Q [record] filled
      /\ Py.upper (transaction_type req) = "SELL"%string)
  \/ (exists status,
         place_order self req d
         = store self (current_funds self) []
                 (set_status (pending_order req d) status)
         /\ (status = "REJECTED"%string \/ status = "PENDING"%string)).
Proof.
  intros fp filled record cost revenue. unfold place_order.
  fold fp. fold filled. fold record. fold cost. fold revenue.
  destruct (String.eqb (Py.upper (order_type req)) "MARKET"
            && Qle_bool (random_draw d) (fill_chance self)).
  - destruct (String.eqb (Py.upper (transaction_type req)) "BUY") eqn:Eb.
    + destruct (Py.Qgeb (current_funds self) cost) eqn:Ef.
      * left. apply String.eqb_eq in Eb. apply Qgeb_true_iff in Ef. auto.
      * right. right. exists "REJECTED"%string. auto.
    + destruct (String.eqb (Py.upper (transaction_type req)) "SELL") eqn:Es.
      * right. left. apply String.eqb_eq in Es. auto.
      * right. right. exists "PENDING"%string. auto.
  - destruct (String.eqb (Py.upper (order_type req)) "LIMIT").
    + right. right. exists "PENDING"%string. auto.
    + right. right. exists "REJECTED"%string. auto.
Qed.

(** Whatever the order, [place_order] ends in PENDING, FILLED or
    REJECTED. An order that is not FILLED leaves the funds and the
    trades untouched and has filled quantity 0; a FILLED order is filled
    in full at its recorded price, adds exactly one trade with that price
    and quantity, and moves the funds by the trade value and the
    brokerage of 20. *)
Theorem funds_move_only_on_fill (self : SimulatedBroker) (req : OrderRequest)
        (d : Draws) :
  let self' := fst (place_order self req d) in
  let order := snd (place_order self req d) in
  (od_status order = "PENDING"%string \/ od_status order = "FILLED"%string
   \/ od_status order = "REJECTED"%string)
  /\ (od_status order <> "FILLED"%string ->
      current_funds self' = current_funds self
      /\ trades self' = trades self
      /\ od_filled_quantity order = 0)
  /\ (od_status order = "FILLED"%string ->
      od_filled_quantity order = quantity req
      /\ (exists t, trades self' = trades self ++ [t]
                    /\ t_price t = od_filled_price order
                    /\ t_quantity t = quantity req
                    /\ t_brokerage t = 20%Q)
      /\ (current_funds self'
          = if String.eqb (Py.upper (transaction_type req)) "BUY"
            then (current_funds self
                  - (od_filled_price order * inject_Z (quantity req) + 20))%Q
            else (current_funds self
                  + (od_filled_price order * inject_Z (quantity req) - 20))%Q)).
Proof.
  intros self' order. unfold self', order.
  destruct (place_order_cases self req d) as [(-> & Hb & _)|[(-> & Hs)|(st & -> & Hst)]].
  - rewrite Hb. cbn. split; [auto|]. split.
    + intros Hne. now destruct Hne.
    + intros _. split; [reflexivity|]. split; [|reflexivity].
      eexists. repeat split.
  - assert (Hnb : String.eqb (Py.upper (transaction_type req)) "BUY" = false)
      by (rewrite Hs; reflexivity).
    rewrite Hnb. cbn. split; [auto|]. split.
    + intros Hne. now destruct Hne.
    + intros _. split; [reflexivity|]. split; [|reflexivity].
      eexists. repeat split.
  - cbn. split; [destruct Hst as [->| ->]; auto|].
    split.
    + intros _. split; [reflexivity|]. split; [apply app_nil_r|reflexivity].
    + intros Hf. destruct Hst as [->| ->]; discriminate.
Qed.

(** A BUY is filled only when the funds cover it, so a filled BUY never
    leaves the funds below zero, whatever they were before. *)
Theorem filled_buy_keeps_funds_nonnegative (self : SimulatedBroker)
        (req : OrderRequest) (d : Draws) :
  Py.upper (transaction_type req) = "BUY"%string ->
  od_status (snd (place_order self req d)) = "FILLED"%string ->
  (0 <= current_funds (fst (place_order self req d)))%Q.
Proof.
  intros Hb Hf.
  destruct (place_order_cases self req d) as [(Hp & _ & Hc)|[(Hp & Hs)|(st & Hp & Hst)]].
  - rewrite Hp. simpl. apply (Qplus_le_r _ _ (fill_price_of self (transaction_type req)
                                                 (price req) (uniform_draw d)
                                               * inject_Z (quantity req)
                                               + calculate_brokerage)).
    ring_simplify. ring_simplify in Hc. exact Hc.
  - rewrite Hb in Hs. discriminate.
  - rewrite Hp in Hf. simpl in Hf. destruct Hst as [->| ->]; discriminate.
Qed.

Lemma place_order_recorded (self : SimulatedBroker) (req : OrderRequest)
        (d : Draws) :
  let self' := fst (place_order self req d) in
  let order := snd (place_order self req d) in
  od_order_id order = uuid_order d
  /\ get_order_details self' (uuid_order d) = Some order
  /\ (forall other, other <> uuid_order d ->
                    get_order_details self' other = get_order_details self other).
Proof.
  intros self' order. unfold self', order, get_order_details.
  destruct (place_order_cases self req d) as [(-> & _)|[(-> & _)|(st & -> & _)]];
    simpl; (split; [reflexivity|]); (split; [apply lookup_insert_eq|]);
    intros other Hne; now apply lookup_insert_ne.
Qed.

(** The order book after [place_order]: the returned order is filed
    under its id, which is the generated one, and can be read back; every
    other id reads as before. *)
Theorem placed_order_is_recorded (self : SimulatedBroker) (req : OrderRequest)
        (d : Draws) :
  let self' := fst (place_order self req d) in
  let order := snd (place_order self req d) in
  od_order_id order = uuid_order d
  /\ get_order_details self' (uuid_order d) = Some order
  /\ (forall other, other <> uuid_order d ->
                    get_order_details self' other = get_order_details self other).
Proof. apply place_order_recorded. Qed.

Lemma cancel_order_spec (self : SimulatedBroker) (order_id : string) :
  let self' := fst (cancel_order self order_id) in
  (snd (cancel_order self order_id) = true
   <-> exists order, orders self !! order_id = Some order
                     /\ od_status order = "PENDING"%string)
  /\ (snd (cancel_order self order_id) = true ->
      (od_status <$> orders self' !! order_id) = Some "CANCELLED"%string
      /\ (forall other, other <> order_id ->
                        orders self' !! other = orders self !! other)
      /\ current_funds self' = current_funds self
      /\ trades self' = trades self)
  /\ (snd (cancel_order self order_id) = false -> self' = self)
  /\ snd (cancel_order self' order_id) = false.
Proof.
  intros self'. unfold self', cancel_order.
  destruct (orders self !! order_id) as [order|] eqn:E.
  - destruct (String.eqb (od_status order) "PENDING") eqn:Es.
    + apply String.eqb_eq in Es. simpl. rewrite lookup_insert_eq. simpl.
      repeat split; auto.
      * intros _. now exists order.
      * intros other Hne. now apply lookup_insert_ne.
      * discriminate.
    + simpl. rewrite E, Es. repeat split; try discriminate.
      intros (o & [= <-] & Ho). apply String.eqb_neq in Es. contradiction.
  - simpl. rewrite E. repeat split; try discriminate.
    intros (o & Ho & _). discriminate.
Qed.

(** [cancel_order] succeeds exactly on an order of the book that is
    PENDING. It then marks that order CANCELLED and touches nothing else;
    when it fails the broker is unchanged. In both cases a second
    cancellation of the same id fails. *)
Theorem cancel_only_pending (self : SimulatedBroker) (order_id : string) :
  let self' := fst (cancel_order self order_id) in
  (snd (cancel_order self order_id) = true
   <-> exists order, orders self !! order_id = Some order
                     /\ od_status order = "PENDING"%string)
  /\ (snd (cancel_order self order_id) = true ->
      (od_status <$> orders self' !! order_id) = Some "CANCELLED"%string
      /\ (forall other, other <> order_id ->
                        orders self' !! other = orders self !! other)
      /\ current_funds self' = current_funds self
      /\ trades self' = trades self)
  /\ (snd (cancel_order self order_id) = false -> self' = self)
  /\ snd (cancel_order self' order_id) = false.
Proof. apply cancel_order_spec. Qed.

(** Placing and cancelling compose: a LIMIT order stays PENDING, costs
    nothing and can be cancelled; an order that [place_order] left FILLED
    or REJECTED cannot be cancelled any more. *)
Theorem cancel_after_place (self : SimulatedBroker) (req : OrderRequest)
        (d : Draws) :
  let placed := fst (place_order self req d) in
  let order := snd (place_order self req d) in
  (Py.upper (order_type req) = "LIMIT"%string ->
   od_status order = "PENDING"%string
   /\ current_funds placed = current_funds self
   /\ snd (cancel_order placed (od_order_id order)) = true)
  /\ (od_status order <> "PENDING"%string ->
      snd (cancel_order placed (od_order_id order)) = false
      /\ fst (cancel_order placed (od_order_id order)) = placed).
Proof.
  intros placed order.
  assert (Hrec : orders placed !! od_order_id order = Some order).
  { destruct (place_order_recorded self req d) as (Hid & Hget & _).
    fold order in Hid. rewrite Hid. exact Hget. }
  split.
  - intros Hl.
    assert (Hst : od_status order = "PENDING"%string
                  /\ current_funds placed = current_funds self).
    { unfold order, placed, place_order. rewrite Hl. simpl. split; reflexivity. }
    destruct Hst as [Hst Hf]. repeat split; try assumption.
    apply (proj1 (cancel_order_spec placed (od_order_id order))).
    now exists order.
  - intros Hnp.
    assert (Hc : snd (cancel_order placed (od_order_id order)) = false).
    { destruct (snd (cancel_order placed (od_order_id order))) eqn:E; [|reflexivity].
      apply (proj1 (cancel_order_spec placed (od_order_id order))) in E.
      destruct E as (o & Ho & Hs). rewrite Hrec in Ho. injection Ho as <-.
      contradiction. }
    split; [exact Hc|].
    now apply (cancel_order_spec placed (od_order_id order)).
Qed.

Lemma round_half_even_near (y : Q) :
  (y - (1 # 2) <= inject_Z (Py.round_half_even y)
   /\ inject_Z (Py.round_half_even y) <= y + (1 # 2))%Q.
Proof.
  unfold Py.round_half_even.
  pose proof (Qfloor_le y) as Hlo. pose proof (Qlt_floor y) as Hhi.
  rewrite inject_Z_plus in Hhi. change (inject_Z 1) with 1%Q in Hhi.
  set (fl := Qfloor y) in *.
  destruct (y - inject_Z fl ?= 1 # 2)%Q eqn:E.
  - apply Qeq_alt in E.
    destruct (Z.even fl); rewrite ?inject_Z_plus;
      change (inject_Z 1) with 1%Q; lra.
  - apply Qlt_alt in E. lra.
  - apply Qgt_alt in E. rewrite inject_Z_plus.
    change (inject_Z 1) with 1%Q. lra.
Qed.

Lemma round2_value (x : Q) :
  (Py.round2 x == inject_Z (Py.round_half_even (x * 100)) / 100)%Q.
Proof. unfold Py.round2. apply Qred_correct. Qed.

Lemma round2_near (x : Q) :
  (x - (1 # 200) <= Py.round2 x /\ Py.round2 x <= x + (1 # 200))%Q.
Proof.
  rewrite round2_value.
  destruct (round_half_even_near (x * 100)) as [Hlo Hhi].
  set (n := inject_Z (Py.round_half_even (x * 100))) in *.
  assert (Hn : (n / 100 == n * (1 # 100))%Q) by (field).
  rewrite Hn. lra.
Qed.

Lemma round_half_even_comp (x y : Q) :
  (x == y)%Q -> Py.round_half_even x = Py.round_half_even y.
Proof.
  intros H. unfold Py.round_half_even.
  rewrite (Qfloor_comp _ _ H).
  assert (Hc : (x - inject_Z (Qfloor y) ?= 1 # 2)%Q
               = (y - inject_Z (Qfloor y) ?= 1 # 2)%Q)
    by (now rewrite H).
  now rewrite Hc.
Qed.

Lemma round2_comp (x y : Q) : (x == y)%Q -> (Py.round2 x == Py.round2 y)%Q.
Proof.
  intros H. rewrite !round2_value.
  assert (Hxy : (x * 100 == y * 100)%Q) by (now rewrite H).
  now rewrite (round_half_even_comp _ _ Hxy).
Qed.

Lemma round2_of_cents (n : Z) :
  (Py.round2 (inject_Z n / 100) == inject_Z n / 100)%Q.
Proof.
  rewrite round2_value.
  assert (Hy : (inject_Z n / 100 * 100 == inject_Z n)%Q) by field.
  assert (Hr : Py.round_half_even (inject_Z n / 100 * 100) = n).
  { unfold Py.round_half_even.
    rewrite (Qfloor_comp _ _ Hy), Qfloor_Z.
    assert (Hc : (inject_Z n / 100 * 100 - inject_Z n ?= 1 # 2)%Q = Lt).
    { apply (proj1 (Qlt_alt _ _)). rewrite Hy. lra. }
    now rewrite Hc. }
  now rewrite Hr.
Qed.

(** The fill price of a market order is within half a hundredth of the
    base price moved by the slippage, the base being the requested price
    when positive and 100 otherwise; without slippage an order at a
    positive price in whole hundredths fills at exactly that price. *)
Theorem fill_price_within_half_cent (self : SimulatedBroker) (side : string)
        (price uniform : Q) :
  let base := if Py.Qgtb price 0 then price else 100%Q in
  let moved :=
    if String.eqb (Py.upper side) "BUY"
    then (base + base * (slippage_percent self / 100))%Q
    else (base - base * (slippage_percent self / 100))%Q in
  (moved - (1 # 200) <= fill_price_of self side price uniform
   /\ fill_price_of self side price uniform <= moved + (1 # 200))%Q
  /\ (forall cents : Z,
         (slippage_percent self == 0)%Q ->
         0 < cents ->
         (price == inject_Z cents / 100)%Q ->
         (fill_price_of self side price uniform == price)%Q).
Proof.
  intros base moved. split.
  - unfold fill_price_of. rewrite base_fill_price_eq.
    unfold moved, base.
    destruct (String.eqb (Py.upper side) "BUY"); apply round2_near.
  - intros cents Hs Hc Hp.
    assert (Hpos : Py.Qgtb price 0 = true).
    { apply Qgtb_true_iff. rewrite Hp.
      assert (H : (0 < inject_Z cents)%Q)
        by (change 0%Q with (inject_Z 0); now rewrite <- Zlt_Qlt).
      apply Qlt_shift_div_l; lra. }
    unfold fill_price_of. rewrite base_fill_price_eq, Hpos.
    assert (Hv : forall v, (v == price)%Q -> (Py.round2 v == price)%Q).
    { intros v Hv. rewrite Hp in Hv.
      rewrite (round2_comp _ _ Hv), round2_of_cents. now rewrite Hp. }
    destruct (String.eqb (Py.upper side) "BUY"); apply Hv; rewrite Hs; field.
Qed.

End BrokerFacts.

(** ** The risk manager: what an approval means *)

Section RiskFacts.

Import RiskManager.

(** An approval is sound: [validate_order] never raises, and when its
    flag is true the three queries have returned, the trade type is
    entry or exit (in any letter case), the funds cover margin plus
    brokerage (entry) or the brokerage (exit), and the margin and the
    brokerage returned are the broker's. *)
Theorem approval_is_sound (broker : BaseBroker) (token : string) (qty : Z)
        (product side trade_type : string) (price : Q) :
  let d := mkInstrumentDict token qty product side price in
  exists valid margin brokerage,
    validate_order broker token qty product side trade_type price
    = Py.Ret (valid, margin, brokerage)
    /\ (valid = true ->
        exists f,
          calculate_margin broker d = Py.Ret margin
          /\ calculate_brokerage broker d = Py.Ret brokerage
          /\ get_funds_and_margin broker = Py.Ret f
          /\ ((Py.lower trade_type = "entry"%string
               /\ (margin + brokerage <= f)%Q)
              \/ (Py.lower trade_type = "exit"%string
                  /\ (brokerage <= f)%Q))).
Proof.
  intros d. unfold validate_order, validate_order_body. fold d.
  destruct (calculate_margin broker d) as [m|e1]; simpl.
  2: { exists false, 0%Q, 0%Q. split; [reflexivity|discriminate]. }
  destruct (calculate_brokerage broker d) as [k|e2]; simpl.
  2: { exists false, 0%Q, 0%Q. split; [reflexivity|discriminate]. }
  destruct (get_funds_and_margin broker) as [f|e3]; simpl.
  2: { exists false, 0%Q, 0%Q. split; [reflexivity|discriminate]. }
  destruct (String.eqb (Py.lower trade_type) "entry") eqn:Ee.
  - apply String.eqb_eq in Ee.
    destruct (Py.Qgeb f (m + k)) eqn:Ef.
    + exists true, m, k. split; [reflexivity|]. intros _. exists f.
      apply Qgeb_true_iff in Ef. auto 10.
    + exists false, m, k. split; [reflexivity|discriminate].
  - destruct (String.eqb (Py.lower trade_type) "exit") eqn:Ex.
    + apply String.eqb_eq in Ex.
      destruct (Py.Qgeb f k) eqn:Ef.
      * exists true, m, k. split; [reflexivity|]. intros _. exists f.
        apply Qgeb_true_iff in Ef. auto 10.
      * exists false, m, k. split; [reflexivity|discriminate].
    + exists false, 0%Q, 0%Q. split; [reflexivity|discriminate].
Qed.

(** A trade type other than entry or exit is refused with margin and
    brokerage reported as 0, however large the funds are. *)
Theorem unknown_trade_type_is_refused (broker : BaseBroker) (token : string)
        (qty : Z) (product side trade_type : string) (price : Q) :
  Py.lower trade_type <> "entry"%string ->
  Py.lower trade_type <> "exit"%string ->
  validate_order broker token qty product side trade_type price
  = Py.Ret (false, 0%Q, 0%Q).
Proof.
  intros He Hx. apply String.eqb_neq in He. apply String.eqb_neq in Hx.
  unfold validate_order, validate_order_body.
  destruct (calculate_margin broker _) as [m|e1]; simpl; [|reflexivity].
  destruct (calculate_brokerage broker _) as [k|e2]; simpl; [|reflexivity].
  destruct (get_funds_and_margin broker) as [f|e3]; simpl; [|reflexivity].
  now rewrite He, Hx.
Qed.

(** Against the simulated broker an entry is checked against a tenth of
    the order value plus the flat brokerage of 20. Any BUY of a
    non-negative quantity at a price of at least a hundredth that the
    broker has the funds to fill, with non-negative slippage, passes that
    check. *)
Theorem fillable_buy_passes_entry_check (b : Broker.SimulatedBroker)
        (token product : string) (qty : Z) (price uniform : Q) :
  let fp := Broker.fill_price_of b "BUY" price uniform in
  (validate_order (of_simulated b) token qty product "BUY" "entry" price
   = Py.Ret (Py.Qgeb (Broker.current_funds b)
                     (price * inject_Z qty * (1 # 10) + 20),
             (price * inject_Z qty * (1 # 10))%Q, 20%Q))
  /\ (0 <= qty ->
      (1 # 100 <= price)%Q ->
      (0 <= Broker.slippage_percent b)%Q ->
      (fp * inject_Z qty + 20 <= Broker.current_funds b)%Q ->
      validate_order (of_simulated b) token qty product "BUY" "entry" price
      = Py.Ret (true, (price * inject_Z qty * (1 # 10))%Q, 20%Q)).
Proof.
  intros fp.
  assert (Hv : validate_order (of_simulated b) token qty product "BUY" "entry" price
               = Py.Ret (Py.Qgeb (Broker.current_funds b)
                                 (price * inject_Z qty * (1 # 10) + 20),
                         (price * inject_Z qty * (1 # 10))%Q, 20%Q)).
  { unfold validate_order, validate_order_body, of_simulated. simpl.
    unfold Broker.calculate_margin, Broker.calculate_brokerage.
    now destruct (Py.Qgeb _ _). }
  split; [exact Hv|].
  intros Hq Hp Hs Hfunds. rewrite Hv.
  assert (Hok : Py.Qgeb (Broker.current_funds b)
                        (price * inject_Z qty * (1 # 10) + 20) = true);
    [|now rewrite Hok].
  apply Qgeb_true_iff.
  assert (Hpos : Py.Qgtb price 0 = true) by (apply Qgtb_true_iff; lra).
  assert (Hfp : (price - (1 # 200) <= fp)%Q).
  { unfold fp, Broker.fill_price_of. rewrite base_fill_price_eq, Hpos.
    simpl String.eqb. cbv iota.
    destruct (round2_near (price + price * (Broker.slippage_percent b / 100)))
      as [Hlo _].
    assert (Hsl : (0 <= price * (Broker.slippage_percent b / 100))%Q).
    { apply Qmult_le_0_compat; [lra|].
      apply Qle_shift_div_l; lra. }
    lra. }
  assert (Hz : (0 <= inject_Z qty)%Q)
    by (change 0%Q with (inject_Z 0); now rewrite <- Zle_Qle).
  assert (Hmul : (price * (1 # 10) * inject_Z qty <= fp * inject_Z qty)%Q).
  { apply Qmult_le_compat_r; [lra|exact Hz]. }
  lra.
Qed.

End RiskFacts.

(** ** The signal path of the strategy adapter *)

Section SignalFacts.

Import Signals.

Lemma validate_signal_spec (event : SignalEvent) :
  _validate_signal event = true
  <-> instrument_token event <> ""%string
      /\ (signal_type event = "BUY"%string \/ signal_type event = "SELL"%string)
      /\ 0 < quantity event <= 10000.
Proof.
  unfold _validate_signal.
  destruct (String.eqb (instrument_token event) "") eqn:Et.
  { apply String.eqb_eq in Et. simpl. split; [discriminate|]. tauto. }
  apply String.eqb_neq in Et.
  destruct (String.eqb (signal_type event) "") eqn:Ee.
  { apply String.eqb_eq in Ee. simpl. split; [discriminate|].
    intros (_ & [H|H] & _); rewrite Ee in H; discriminate. }
  destruct (quantity event <=? 0) eqn:Eq.
  { apply Z.leb_le in Eq. simpl. split; [discriminate|]. lia. }
  apply Z.leb_gt in Eq. simpl.
  destruct (String.eqb (signal_type event) "BUY") eqn:Eb.
  - apply String.eqb_eq in Eb. simpl.
    destruct (quantity event >? 10000) eqn:Eg.
    + apply Z.gtb_lt in Eg. split; [discriminate|]. lia.
    + rewrite Z.gtb_ltb in Eg. apply Z.ltb_ge in Eg. split; [|reflexivity].
      intros _. auto with zarith.
  - apply String.eqb_neq in Eb.
    destruct (String.eqb (signal_type event) "SELL") eqn:Es.
    + apply String.eqb_eq in Es. simpl.
      destruct (quantity event >? 10000) eqn:Eg.
      * apply Z.gtb_lt in Eg. split; [discriminate|]. lia.
      * rewrite Z.gtb_ltb in Eg. apply Z.ltb_ge in Eg. split; [|reflexivity].
        intros _. auto with zarith.
    + apply String.eqb_neq in Es. simpl. split; [discriminate|]. tauto.
Qed.

(** [_validate_signal] accepts exactly the signals with a non-empty
    instrument, side BUY or SELL in upper case, and a quantity from 1 to
    10000. *)
Theorem validate_signal_iff (event : SignalEvent) :
  _validate_signal event = true
  <-> instrument_token event <> ""%string
      /\ (signal_type event = "BUY"%string \/ signal_type event = "SELL"%string)
      /\ 0 < quantity event <= 10000.
Proof. apply validate_signal_spec. Qed.

Lemma slice_last_positive {A : Type} (n : Z) (l : list A) :
  0 < n ->
  slice_last n l = skipn (length l - Z.to_nat n) l.
Proof.
  intros Hn. unfold slice_last.
  destruct (n =? 0) eqn:E; [apply Z.eqb_eq in E; lia|].
  destruct (0 <? n) eqn:E'; [reflexivity|]. apply Z.ltb_ge in E'. lia.
Qed.

(** [_record_signal] keeps the history within 1000 entries: the new
    record, marked pending, is the last entry, the entries before it are
    the former history without its oldest entries, and nothing is dropped
    while there is room. *)
Theorem record_signal_bounds_history (self : SignalAdapter)
        (event : SignalEvent) (now : Q) :
  (length (signal_history self) <= 1000)%nat ->
  let self' := _record_signal self event now in
  (length (signal_history self') <= 1000)%nat
  /\ (exists record dropped,
         signal_history self ++ [record] = dropped ++ signal_history self'
         /\ sr_status record = "pending"%string
         /\ sr_instrument_token record = instrument_token event
         /\ sr_quantity record = quantity event
         /\ length dropped
            = (if (length (signal_history self) <? 1000)%nat then 0 else 1)%nat).
Proof.
  intros Hlen self'. unfold self', _record_signal. cbn [signal_history].
  set (record := {| sr_timestamp := now |}).
  set (history := signal_history self ++ [record]).
  assert (Hl : length history = S (length (signal_history self)))
    by (unfold history; rewrite length_app; simpl; lia).
  destruct (Z.of_nat (length history) >? 1000) eqn:E.
  - apply Z.gtb_lt in E.
    assert (Hfull : length (signal_history self) = 1000%nat) by lia.
    rewrite slice_last_positive by lia.
    change (Z.to_nat 1000) with 1000%nat.
    split.
    + rewrite length_skipn. lia.
    + exists record, (firstn (length history - 1000) history).
      split; [symmetry; apply firstn_skipn|]. repeat split.
      rewrite length_firstn, Hl, Hfull. reflexivity.
  - rewrite Z.gtb_ltb in E. apply Z.ltb_ge in E.
    split; [lia|].
    exists record, []. repeat split.
    assert (Hlt : (length (signal_history self) <? 1000)%nat = true)
      by (apply Nat.ltb_lt; lia).
    now rewrite Hlt.
Qed.

(** [get_signal_history]: a positive limit gives the most recent
    entries, at most that many; the limit 0 gives the whole history, not
    an empty list. *)
Theorem signal_history_limit (self : SignalAdapter) (limit : Z) :
  get_signal_history self 0 = signal_history self
  /\ (0 < limit ->
      get_signal_history self limit
      = skipn (length (signal_history self) - Z.to_nat limit)
              (signal_history self)
      /\ length (get_signal_history self limit)
         = Nat.min (Z.to_nat limit) (length (signal_history self))).
Proof.
  unfold get_signal_history. split.
  - now destruct (signal_history self).
  - intros Hl.
    assert (H : match signal_history self with
                | [] => []
                | _ :: _ => slice_last limit (signal_history self)
                end
                = skipn (length (signal_history self) - Z.to_nat limit)
                        (signal_history self)).
    { rewrite slice_last_positive by assumption.
      destruct (signal_history self); [|reflexivity].
      now rewrite skipn_nil. }
    rewrite H. split; [reflexivity|]. rewrite length_skipn. lia.
Qed.

Lemma total_exposure_nonneg (positions : list (Q * Q)) :
  (0 <= total_exposure positions)%Q.
Proof.
  unfold total_exposure.
  assert (H : forall acc, (0 <= acc)%Q ->
                          (0 <= fold_left
                                  (fun acc pos => acc + Qabs (fst pos * snd pos))
                                  positions acc)%Q).
  { induction positions as [|p ps IH]; intros acc Hacc; [exact Hacc|].
    cbn [fold_left]. apply IH.
    pose proof (Qabs_nonneg (fst p * snd p)) as Hp.
    set (a := Qabs (fst p * snd p)) in *. lra. }
  apply H. lra.
Qed.

Lemma Qgtb_false_iff (a b : Q) : Py.Qgtb a b = false <-> (a <= b)%Q.
Proof.
  unfold Py.Qgtb. rewrite negb_false_iff. apply Qle_bool_iff.
Qed.

Lemma gate_without_positions (event : SignalEvent) (state : StrategyState) :
  st_positions state = [] ->
  (0 < inject_Z (quantity event) * price event)%Q ->
  _check_portfolio_risk_limits event state = false.
Proof.
  intros Hp Hv. unfold _check_portfolio_risk_limits. rewrite Hp.
  assert (H : Py.Qgtb (inject_Z (quantity event) * price event)
                      (total_exposure [] * (3 # 10)) = true).
  { apply Qgtb_true_iff. unfold total_exposure. cbn [fold_left]. lra. }
  now rewrite H.
Qed.

Lemma record_signal_last (self : SignalAdapter) (event : SignalEvent) (now : Q) :
  exists older record,
    signal_history (_record_signal self event now) = older ++ [record]
    /\ sr_status record = "pending"%string
    /\ sr_instrument_token record = instrument_token event
    /\ sr_quantity record = quantity event
    /\ sr_price record = price event.
Proof.
  unfold _record_signal. cbn [signal_history].
  set (record := {| sr_timestamp := now |}).
  destruct (Z.of_nat (length (signal_history self ++ [record])) >? 1000) eqn:E.
  - apply Z.gtb_lt in E. rewrite length_app in E. simpl in E.
    rewrite slice_last_positive by lia.
    change (Z.to_nat 1000) with 1000%nat.
    rewrite skipn_app, length_app. simpl length.
    replace (length (signal_history self) + 1 - 1000
             - length (signal_history self))%nat with 0%nat by lia.
    exists (skipn (length (signal_history self) + 1 - 1000) (signal_history self)),
           record.
    repeat split.
  - exists (signal_history self), record. repeat split.
Qed.

(** The portfolio gate of enhanced strategies. With no open positions a
    signal of positive value is refused, so a first position cannot be
    opened at a price; a drawdown above 0.15 refuses every signal; a
    signal at price 0 passes whenever the drawdown is within 0.15. *)
Theorem portfolio_gate (event : SignalEvent) (state : StrategyState) :
  (st_positions state = [] ->
   (0 < inject_Z (quantity event) * price event)%Q ->
   _check_portfolio_risk_limits event state = false)
  /\ ((15 # 100 < Qabs (st_max_drawdown state))%Q ->
      _check_portfolio_risk_limits event state = false)
  /\ ((price event == 0)%Q ->
      (Qabs (st_max_drawdown state) <= 15 # 100)%Q ->
      _check_portfolio_risk_limits event state = true).
Proof.
  split; [apply gate_without_positions|].
  unfold _check_portfolio_risk_limits. split.
  - intros Hd.
    destruct (Py.Qgtb (inject_Z (quantity event) * price event) _); [reflexivity|].
    assert (H : Py.Qgtb (Qabs (st_max_drawdown state)) (15 # 100) = true)
      by (now apply Qgtb_true_iff).
    now rewrite H.
  - intros Hp Hd.
    assert (H1 : Py.Qgtb (inject_Z (quantity event) * price event)
                         (total_exposure (st_positions state) * (3 # 10)) = false).
    { apply Qgtb_false_iff. rewrite Hp.
      pose proof (total_exposure_nonneg (st_positions state)). lra. }
    assert (H2 : Py.Qgtb (Qabs (st_max_drawdown state)) (15 # 100) = false)
      by (now apply Qgtb_false_iff).
    now rewrite H1, H2.
Qed.

(** [on_signal_event] puts at most one order on the engine, and only
    for a signal that passed [_validate_signal] and that the risk manager
    approved as an entry; the order copies the signal. A signal that
    fails validation leaves the adapter untouched. *)
Theorem orders_only_for_approved_signals (self : SignalAdapter)
        (broker : RiskManager.BaseBroker) (state : option StrategyState)
        (event : SignalEvent) (now : Q) :
  let result := on_signal_event self broker state event now in
  (_validate_signal event = false -> result = (self, []))
  /\ (forall order, In order (snd result) ->
        snd result = [order]
        /\ _validate_signal event = true
        /\ risk_approves broker event = true
        /\ oe_instrument_token order = instrument_token event
        /\ oe_transaction_type order = signal_type event
        /\ oe_quantity order = quantity event
        /\ oe_price order = price event
        /\ oe_order_type order = order_type event).
Proof.
  intros result. unfold result, on_signal_event. split.
  - intros ->. reflexivity.
  - intros order. destruct (_validate_signal event); simpl; [|tauto].
    destruct (is_enhanced self); simpl.
    + unfold _process_enhanced_signal.
      destruct (match state with
                | Some st => negb (_check_portfolio_risk_limits event st)
                | None => false
                end); simpl; [tauto|].
      destruct (risk_approves broker event); simpl; [|tauto].
      intros [<-|[]]. repeat split.
    + unfold _process_original_signal.
      destruct (risk_approves broker event); simpl; [|tauto].
      intros [<-|[]]. repeat split.
Qed.

(** An enhanced strategy whose reported state has no positions gets no
    order for a valid signal at a positive price: the portfolio gate
    refuses it before the risk manager is asked, whatever the funds. The
    signal is still recorded as pending. *)
Theorem enhanced_first_entry_is_blocked (self : SignalAdapter)
        (broker : RiskManager.BaseBroker) (state : StrategyState)
        (event : SignalEvent) (now : Q) :
  is_enhanced self = true ->
  st_positions state = [] ->
  _validate_signal event = true ->
  (0 < price event)%Q ->
  let result := on_signal_event self broker (Some state) event now in
  snd result = []
  /\ exists older record,
      signal_history (fst result) = older ++ [record]
      /\ sr_status record = "pending"%string
      /\ sr_instrument_token record = instrument_token event
      /\ sr_quantity record = quantity event
      /\ sr_price record = price event.
Proof.
  intros He Hp Hv Hprice result.
  assert (Hq : 0 < quantity event) by (apply validate_signal_spec in Hv; lia).
  assert (Hgate : _check_portfolio_risk_limits event state = false).
  { apply gate_without_positions; [exact Hp|].
    assert (H : (0 < inject_Z (quantity event))%Q)
      by (change 0%Q with (inject_Z 0); now rewrite <- Zlt_Qlt).
    apply Qmult_lt_0_compat; assumption. }
  assert (Hres : result = (_record_signal self event now, [])).
  { unfold result, on_signal_event. rewrite Hv. cbn [negb].
    change (is_enhanced (_record_signal self event now)) with (is_enhanced self).
    rewrite He. unfold _process_enhanced_signal. now rewrite Hgate. }
  rewrite Hres. split; [reflexivity|]. apply record_signal_last.
Qed.

End SignalFacts.

(** ** The trade executor between broker and ledger *)

Section ExecutorFacts.

Import TradeExecutor.

(** Every order that [on_order_event] handles adds exactly one record
    for it to the audit log, with status ERROR when placing raised and
    FAILED when the broker answered nothing; a fill event is put on the
    engine exactly when the broker's answer has status FILLED, and it
    carries the answer's filled quantity and price. *)
Theorem audit_log_records_every_order (all_orders : list OrderRecord)
        (event : OrderEvent) (outcome : Py.result (option Broker.OrderDetails)) :
  let log := fst (on_order_event all_orders event outcome) in
  let fill := snd (on_order_event all_orders event outcome) in
  (exists record, log = all_orders ++ [record]
                  /\ or_event record = event
                  /\ or_status record
                     = match outcome with
                       | Py.Ret (Some response) => Broker.od_status response
                       | Py.Ret None => "FAILED"%string
                       | Py.Raise _ => "ERROR"%string
                       end)
  /\ (forall f, fill = Some f <->
                exists response,
                  outcome = Py.Ret (Some response)
                  /\ Broker.od_status response = "FILLED"%string
                  /\ f = fill_of event response)
  /\ (forall f, fill = Some f ->
                exists response,
                  outcome = Py.Ret (Some response)
                  /\ Portfolio.quantity f = Broker.od_filled_quantity response
                  /\ Portfolio.price f = Broker.od_filled_price response
                  /\ Portfolio.order_id f = Broker.od_order_id response).
Proof.
  intros log fill. unfold log, fill, on_order_event.
  destruct outcome as [[response|]|e].
  - destruct (String.eqb (Broker.od_status response) "FILLED") eqn:E.
    + apply String.eqb_eq in E. cbn [fst snd]. split; [|split].
      * eexists. repeat split.
      * intros f. split.
        -- intros [= <-]. now exists response.
        -- intros (r & [= <-] & _ & ->). reflexivity.
      * intros f [= <-]. exists response. repeat split.
    + apply String.eqb_neq in E. cbn [fst snd]. split; [|split].
      * eexists. repeat split.
      * intros f. split; [discriminate|].
        intros (r & [= <-] & Hs & _). contradiction.
      * discriminate.
  - cbn [fst snd]. split; [|split].
    + eexists. repeat split.
    + intros f. split; [discriminate|]. intros (r & Hr & _). discriminate.
    + discriminate.
  - cbn [fst snd]. split; [|split].
    + eexists. repeat split.
    + intros f. split; [discriminate|]. intros (r & Hr & _). discriminate.
    + discriminate.
Qed.

(** One order through the simulated broker, the executor and the
    ledger. An order that is not FILLED moves neither the broker's funds
    nor the ledger. For a FILLED order whose side is BUY or SELL in upper
    case, the ledger's cash moves as the broker's funds do, except that
    the ledger books the brokerage entry of the order event (0 when the
    event has none) where the broker charged 20. For a FILLED order whose
    side is spelled otherwise (the broker compares in upper case, the
    ledger does not) the ledger's cash does not move at all. This holds
    however the ledger's call ends. *)
Theorem ledger_and_broker_drift (fromtimestamp : Q -> Py.result Q)
        (broker : Broker.SimulatedBroker)
        (all_orders : list OrderRecord) (ledger : Portfolio.PortfolioManager)
        (event : OrderEvent) (d : Broker.Draws) :
  let order := snd (Broker.place_order broker (request_of event) d) in
  let broker' :=
    fst (fst (execute fromtimestamp broker all_orders ledger event d)) in
  let ledger' := snd (execute fromtimestamp broker all_orders ledger event d) in
  let fee := default 0%Q (brokerage_attr event) in
  (Broker.od_status order <> "FILLED"%string ->
   ledger' = ledger
   /\ Broker.current_funds broker' = Broker.current_funds broker)
  /\ (Broker.od_status order = "FILLED"%string ->
      transaction_type event = "BUY"%string
      \/ transaction_type event = "SELL"%string ->
      (Portfolio.current_cash ledger' - Portfolio.current_cash ledger
       == Broker.current_funds broker' - Broker.current_funds broker
          + (20 - fee))%Q)
  /\ (Broker.od_status order = "FILLED"%string ->
      transaction_type event <> "BUY"%string ->
      transaction_type event <> "SELL"%string ->
      Portfolio.current_cash ledger' = Portfolio.current_cash ledger
      /\ Portfolio.positions ledger'
         = Portfolio.update_positions (Portfolio.positions ledger)
                                      (fill_of event order)).
Proof.
  intros order broker' ledger' fee.
  assert (Hb : broker' = fst (Broker.place_order broker (request_of event) d))
    by reflexivity.
  assert (Hl : ledger'
               = if String.eqb (Broker.od_status order) "FILLED"
                 then fst (Portfolio.on_fill_event fromtimestamp ledger
                                                   (fill_of event order))
                 else ledger).
  { unfold ledger', execute, on_order_event. cbn [fst snd]. fold order.
    now destruct (String.eqb (Broker.od_status order) "FILLED"). }
  split; [|split].
  - intros Hs. apply String.eqb_neq in Hs. rewrite Hl, Hs. split; [reflexivity|].
    rewrite Hb. unfold order in Hs.
    destruct (place_order_cases broker (request_of event) d)
      as [(Hp & _)|[(Hp & _)|(st & Hp & _)]];
      rewrite Hp in Hs |- *; cbn in Hs |- *; try discriminate. reflexivity.
  - intros Hs Hside. rewrite Hl, Hs. cbn [String.eqb Ascii.eqb Bool.eqb].
    rewrite Hb. unfold order in *.
    destruct (place_order_cases broker (request_of event) d)
      as [(Hp & Hu & _)|[(Hp & Hu)|(st & Hp & Hst)]].
    + rewrite Hp. cbn [fst snd Broker.store Broker.current_funds].
      assert (Ht : transaction_type event = "BUY"%string).
      { destruct Hside as [H|H]; [exact H|].
        cbn [request_of Broker.transaction_type] in Hu. rewrite H in Hu.
        discriminate. }
      rewrite on_fill_event_cash.
      rewrite update_cash_buy
        by (cbn [fill_of Portfolio.transaction_type Broker.set_filled
                 Broker.od_transaction_type Broker.pending_order request_of
                 Broker.transaction_type]; exact Ht).
      cbn [fill_of Portfolio.quantity Portfolio.price Portfolio.brokerage
           Broker.set_filled Broker.od_filled_quantity Broker.od_filled_price
           request_of Broker.quantity Broker.transaction_type Broker.price].
      unfold Broker.calculate_brokerage. fold fee. ring.
    + rewrite Hp. cbn [fst snd Broker.store Broker.current_funds].
      assert (Ht : transaction_type event = "SELL"%string).
      { destruct Hside as [H|H]; [|exact H].
        cbn [request_of Broker.transaction_type] in Hu. rewrite H in Hu.
        discriminate. }
      rewrite on_fill_event_cash.
      rewrite update_cash_sell
        by (cbn [fill_of Portfolio.transaction_type Broker.set_filled
                 Broker.od_transaction_type Broker.pending_order request_of
                 Broker.transaction_type]; exact Ht).
      cbn [fill_of Portfolio.quantity Portfolio.price Portfolio.brokerage
           Broker.set_filled Broker.od_filled_quantity Broker.od_filled_price
           request_of Broker.quantity Broker.transaction_type Broker.price].
      unfold Broker.calculate_brokerage. fold fee. ring.
    + rewrite Hp in Hs. cbn in Hs. destruct Hst as [->| ->]; discriminate.
  - intros Hs Hnb Hns. rewrite Hl, Hs. cbn [String.eqb Ascii.eqb Bool.eqb].
    assert (Ht : Portfolio.transaction_type (fill_of event order)
                 = transaction_type event).
    { unfold order.
      destruct (place_order_cases broker (request_of event) d)
        as [(Hp & _)|[(Hp & _)|(st & Hp & _)]]; rewrite Hp; reflexivity. }
    split; [|apply on_fill_event_positions].
    rewrite on_fill_event_cash.
    apply update_cash_other; rewrite Ht; assumption.
Qed.

End ExecutorFacts.

(** ** The life cycle of a strategy instance *)

Section LifecycleFacts.

Import StrategyManager Lifecycle.

Variable MarketEvent : Type.
Variable Strategy : Type.
Variable handle_market_event :
  Strategy -> MarketEvent -> Strategy * Py.result unit.

(** [add_strategy] at capacity raises RuntimeError and changes nothing.
    Below capacity, with a constructor that returns and an [initialize]
    that returns or is absent, it files a RUNNING instance with no
    errors and threshold 5 under the id name_suffix, returns that id,
    and leaves every other entry alone. *)
Theorem add_strategy_capacity (self : Manager Strategy)
        (strategy_name suffix : string) (constructed : Py.result Strategy)
        (initialized : option (Strategy * Py.result unit)) :
  let sid := (strategy_name ++ "_" ++ suffix)%string in
  let result := add_strategy Strategy self strategy_name suffix
                             constructed initialized in
  ((max_concurrent_strategies Strategy self
    <= size (strategies Strategy self))%nat ->
   fst result = self /\ exists e, snd result = Py.Raise e)
  /\ ((size (strategies Strategy self)
       < max_concurrent_strategies Strategy self)%nat ->
      (exists s, constructed = Py.Ret s) ->
      (forall s' e, initialized <> Some (s', Py.Raise e)) ->
      snd result = Py.Ret sid
      /\ (exists inst,
             strategies Strategy (fst result) !! sid = Some inst
             /\ status Strategy inst = RUNNING
             /\ error_count Strategy inst = 0
             /\ max_errors Strategy inst = 5
             /\ id Strategy inst = sid)
      /\ sid ∈ strategy_queues Strategy (fst result)
      /\ (forall other, other <> sid ->
                        strategies Strategy (fst result) !! other
                        = strategies Strategy self !! other)).
Proof.
  intros sid result. unfold result, add_strategy. fold sid. split.
  - intros Hfull. apply Nat.leb_le in Hfull. rewrite Hfull. cbn [fst snd].
    split; [reflexivity|]. eexists. reflexivity.
  - intros Hroom [s ->] Hinit.
    assert (Hc : (max_concurrent_strategies Strategy self
                  <=? size (strategies Strategy self))%nat = false)
      by (apply Nat.leb_gt; exact Hroom).
    rewrite Hc.
    destruct initialized as [[s' [u|e]]|].
    + cbn [fst snd strategies strategy_queues]. split; [reflexivity|].
      split; [|split].
      * eexists. split; [apply lookup_insert_eq|]. repeat split.
      * apply elem_of_union_l. now apply elem_of_singleton.
      * intros other Hne. now apply lookup_insert_ne.
    + exfalso. now apply (Hinit s' e).
    + cbn [fst snd strategies strategy_queues]. split; [reflexivity|].
      split; [|split].
      * eexists. split; [apply lookup_insert_eq|]. repeat split.
      * apply elem_of_union_l. now apply elem_of_singleton.
      * intros other Hne. now apply lookup_insert_ne.
Qed.

(** When [initialize] raises, [add_strategy] raises the same exception,
    yet the instance stays in the table, in status ERROR with one error
    and without a queue; under a fresh id it takes one of the
    [max_concurrent_strategies] places, and no market event is routed to
    it. *)
Theorem failed_initialize_keeps_entry (self : Manager Strategy)
        (strategy_name suffix : string) (s s' : Strategy) (e : Py.exn) :
  (size (strategies Strategy self)
   < max_concurrent_strategies Strategy self)%nat ->
  let sid := (strategy_name ++ "_" ++ suffix)%string in
  let result := add_strategy Strategy self strategy_name suffix
                             (Py.Ret s) (Some (s', Py.Raise e)) in
  snd result = Py.Raise e
  /\ (exists inst,
         strategies Strategy (fst result) !! sid = Some inst
         /\ status Strategy inst = ERROR
         /\ error_count Strategy inst = 1)
  /\ (sid ∉ strategy_queues Strategy (fst result))
  /\ (strategies Strategy self !! sid = None ->
      size (strategies Strategy (fst result))
      = S (size (strategies Strategy self)))
  /\ (forall call : MarketEvent * option string,
         delivered MarketEvent Strategy
                   (strategies Strategy (fst result)) call sid = false).
Proof.
  intros Hroom sid result. unfold result, add_strategy. fold sid.
  assert (Hc : (max_concurrent_strategies Strategy self
                <=? size (strategies Strategy self))%nat = false)
    by (apply Nat.leb_gt; exact Hroom).
  rewrite Hc. cbn [fst snd strategies strategy_queues].
  split; [reflexivity|]. split; [|split; [|split]].
  - eexists. split; [apply lookup_insert_eq|]. split; reflexivity.
  - intros Hin. apply elem_of_difference in Hin as [_ Hn].
    apply Hn. now apply elem_of_singleton.
  - intros Hfresh. now apply map_size_insert_None.
  - intros call. unfold delivered. rewrite lookup_insert_eq. cbn [status].
    now rewrite andb_false_r.
Qed.

Lemma update_status_lookup (self : Manager Strategy) (sid other : string)
      (st : StrategyStatus) :
  strategies Strategy (update_status Strategy self sid st) !! other
  = if decide (sid = other)
    then (fun s => set_status Strategy s st) <$> strategies Strategy self !! sid
    else strategies Strategy self !! other.
Proof.
  unfold update_status.
  destruct (strategies Strategy self !! sid) as [s|] eqn:E.
  - cbn [strategies]. destruct (decide (sid = other)) as [<-|Hne].
    + now rewrite lookup_insert_eq.
    + now rewrite lookup_insert_ne.
  - destruct (decide (sid = other)) as [<-|Hne]; [now rewrite E|reflexivity].
Qed.

(** [pause_strategy] takes an instance out of routing: no call delivers
    to it and routing leaves its entry as it is. Pausing and resuming a
    RUNNING instance gives back the table as it was. *)
Theorem pause_stops_delivery (self : Manager Strategy) (sid : string)
        (s : StrategyInstance Strategy) (call : MarketEvent * option string) :
  strategies Strategy self !! sid = Some s ->
  let paused := pause_strategy Strategy self sid in
  delivered MarketEvent Strategy (strategies Strategy paused) call sid = false
  /\ route_market_event MarketEvent Strategy handle_market_event
       (strategies Strategy paused) (fst call) (snd call) !! sid
     = Some (set_status Strategy s PAUSED)
  /\ (status Strategy s = RUNNING ->
      strategies Strategy (resume_strategy Strategy paused sid)
      = strategies Strategy self).
Proof.
  intros Hs paused.
  assert (Hp : strategies Strategy paused !! sid
               = Some (set_status Strategy s PAUSED)).
  { unfold paused, pause_strategy. rewrite update_status_lookup.
    rewrite decide_True by reflexivity. now rewrite Hs. }
  assert (Hd : delivered MarketEvent Strategy (strategies Strategy paused) call sid
               = false).
  { unfold delivered. rewrite Hp. cbn [status set_status].
    now rewrite andb_false_r. }
  split; [exact Hd|]. split.
  - rewrite route_lookup, Hp, Hd. reflexivity.
  - intros Hrun. apply map_eq. intros k.
    unfold resume_strategy. rewrite update_status_lookup.
    destruct (decide (sid = k)) as [<-|Hne].
    + rewrite Hp, Hs. cbn. f_equal. destruct s; cbn in *. now subst.
    + unfold paused, pause_strategy. rewrite update_status_lookup.
      now rewrite decide_False.
Qed.


(** [remove_strategy] of a known id takes it out of the table, of the
    queues and of the event records, frees one of the places, and leaves
    the other entries; an unknown id changes nothing. *)
Theorem remove_strategy_frees_place (self : Manager Strategy) (sid : string) :
  let removed := remove_strategy Strategy self sid in
  strategies Strategy removed !! sid = None
  /\ (forall other, other <> sid ->
                    strategies Strategy removed !! other
                    = strategies Strategy self !! other)
  /\ (strategies Strategy self !! sid = None -> removed = self)
  /\ (is_Some (strategies Strategy self !! sid) ->
      size (strategies Strategy self) = S (size (strategies Strategy removed))
      /\ (sid ∉ strategy_queues Strategy removed)
      /\ (sid ∉ strategy_events Strategy removed)).
Proof.
  intros removed. unfold removed, remove_strategy.
  destruct (strategies Strategy self !! sid) as [s|] eqn:E.
  - cbn [strategies strategy_queues strategy_events].
    split; [apply lookup_delete_eq|]. split; [|split].
    + intros other Hne. now apply lookup_delete_ne.
    + discriminate.
    + intros _. split; [|split];
        [|intros Hin; apply elem_of_difference in Hin as [_ Hn];
          apply Hn; now apply elem_of_singleton..].
      rewrite <- (insert_delete_id (strategies Strategy self) sid s E) at 1.
      apply map_size_insert_None, lookup_delete_eq.
  - split; [exact E|]. split; [reflexivity|]. split; [reflexivity|].
    intros [x Hx]. discriminate.
Qed.

End LifecycleFacts.

(** ** The further properties at concrete inputs *)

Section FurtherInstances.

Import Cases.
Local Open Scope string_scope.

Lemma buy_then_sell_witness :
  Portfolio.positions Cases.long_100 !! "NSE_EQ_TCS" = None
  /\ Portfolio.positions
       (Portfolio.on_fill_events Scenario.fromtimestamp Cases.long_100
          [Portfolio.mkFillEvent "order-6" "NSE_EQ_TCS" (Some "exch-6") "BUY" 5 3000 20 300;
           Portfolio.mkFillEvent "order-7" "NSE_EQ_TCS" (Some "exch-7") "SELL" 5 3100 20 360])
     = Portfolio.positions Cases.long_100.
Proof.
  assert (H : Portfolio.positions Cases.long_100 !! "NSE_EQ_TCS" = None)
    by (vm_compute; reflexivity).
  split; [exact H|].
  apply (buy_then_sell_restores_positions Scenario.fromtimestamp
           Cases.long_100 "NSE_EQ_TCS" "order-6" "order-7"
           (Some "exch-6") (Some "exch-7") 5 3000 3100 20 20 300 360 H).
Defined.

Lemma sell_average_witness :
  Portfolio.transaction_type sell_40 = "SELL"
  /\ exists pos,
      Portfolio.positions
        (fst (Portfolio.on_fill_event Scenario.fromtimestamp long_100 sell_40))
      !! Portfolio.instrument_token sell_40 = Some pos
      /\ Portfolio.pos_quantity pos
         = Portfolio.pos_quantity
             (Portfolio.current_position (Portfolio.positions long_100) sell_40)
           - Portfolio.quantity sell_40
      /\ Portfolio.pos_avg_price pos
         = Portfolio.pos_avg_price
             (Portfolio.current_position (Portfolio.positions long_100) sell_40).
Proof.
  split; [reflexivity|].
  apply (proj1 (sell_average_price Scenario.fromtimestamp long_100 sell_40
                  eq_refl)).
  vm_compute. split; reflexivity.
Defined.

Lemma other_instruments_witness :
  Forall (fun e => Portfolio.instrument_token e <> "NSE_EQ_INFY") tcs_fills
  /\ Portfolio.positions
       (Portfolio.on_fill_events Scenario.fromtimestamp long_100 tcs_fills)
     !! "NSE_EQ_INFY"
     = Portfolio.positions long_100 !! "NSE_EQ_INFY".
Proof.
  assert (H : Forall (fun e => Portfolio.instrument_token e <> "NSE_EQ_INFY")
                     tcs_fills)
    by (repeat constructor; discriminate).
  split; [exact H|].
  apply (fills_leave_other_instruments Scenario.fromtimestamp "NSE_EQ_INFY"
           tcs_fills long_100 H).
Defined.

Lemma equity_curve_witness :
  forallb (Portfolio.converts Scenario.fromtimestamp)
          [Scenario.buy_100; Scenario.sell_100] = true
  /\ let self :=
       Portfolio.on_fill_events Scenario.fromtimestamp
         (Ledger.initialize (Portfolio.init 100000) 0)
         [Scenario.buy_100; Scenario.sell_100] in
     length (Portfolio.equity_curve self) = 3%nat
     /\ length (Portfolio.portfolio_trades self) = 2%nat
     /\ exists ts,
         List.last (Portfolio.equity_curve self)
                   (Portfolio.equity_snapshot 100000 0 ∅)
         = Portfolio.equity_snapshot (Portfolio.current_cash self) ts
                                     (Portfolio.positions self).
Proof.
  assert (H : forallb (Portfolio.converts Scenario.fromtimestamp)
                      [Scenario.buy_100; Scenario.sell_100] = true)
    by (vm_compute; reflexivity).
  split; [exact H|].
  destruct (equity_curve_after_fills Scenario.fromtimestamp 100000 0
              [Scenario.buy_100; Scenario.sell_100]) as (H1 & H2 & _ & H4).
  split; [exact H1|]. split; [exact H2|]. apply (H4 H).
Defined.

(** A fill whose timestamp does not convert moves the cash and leaves
    the trade log and the equity curve as they were: the last snapshot no
    longer shows the ledger's cash. *)
Example refused_timestamp_leaves_stale_snapshot :
  let late :=
    Portfolio.mkFillEvent "order-9" "NSE_EQ_INFY" (Some "exch-9") "BUY"
                          10 100 20 1000000000000000000 in
  let before := Ledger.initialize (Portfolio.init 100000) 0 in
  let call := Portfolio.on_fill_event Scenario.fromtimestamp before late in
  (exists e, snd call = Py.Raise e)
  /\ Portfolio.current_cash (fst call) = 98980%Q
  /\ Portfolio.equity_curve (fst call) = Portfolio.equity_curve before
  /\ Portfolio.portfolio_trades (fst call) = [].
Proof.
  split; [eexists; vm_compute; reflexivity|].
  repeat split; vm_compute; reflexivity.
Qed.

Lemma total_return_witness :
  (~ (100000 == 0)%Q
   /\ forallb (Portfolio.converts Scenario.fromtimestamp) [Scenario.buy_100]
      = true)
  /\ exists r,
      Ledger.total_return
        (Portfolio.on_fill_events Scenario.fromtimestamp
           (Ledger.initialize (Portfolio.init 100000) 0) [Scenario.buy_100])
      = Some r
      /\ (r == Ledger.total_cash_flow [Scenario.buy_100] / 100000)%Q.
Proof.
  assert (H : ~ (100000 == 0)%Q) by (intros H; vm_compute in H; discriminate).
  assert (Hc : forallb (Portfolio.converts Scenario.fromtimestamp)
                       [Scenario.buy_100] = true)
    by (vm_compute; reflexivity).
  split; [split; assumption|].
  apply (total_return_is_cash_flow_ratio Scenario.fromtimestamp 100000 0
           [Scenario.buy_100] H Hc).
Defined.

Lemma other_entries_witness :
  (Ledger.broker_key who_gap <> Ledger.broker_key who_ema
   \/ Ledger.account_name who_gap <> Ledger.account_name who_ema
   \/ Ledger.strategy_name who_gap <> Ledger.strategy_name who_ema)
  /\ Ledger.Written <> Ledger.Truncated
  /\ Ledger._load_positions who_gap 50000
       (Ledger._save_positions long_100 who_ema
          (Ledger._save_positions long_100 who_gap Ledger.NoFile Ledger.Written)
          Ledger.Written)
     = Ledger._load_positions who_gap 50000
         (Ledger._save_positions long_100 who_gap Ledger.NoFile Ledger.Written).
Proof.
  assert (H : Ledger.broker_key who_gap <> Ledger.broker_key who_ema
              \/ Ledger.account_name who_gap <> Ledger.account_name who_ema
              \/ Ledger.strategy_name who_gap <> Ledger.strategy_name who_ema)
    by (right; right; discriminate).
  assert (Hw : Ledger.Written <> Ledger.Truncated) by discriminate.
  split; [exact H|]. split; [exact Hw|].
  apply (proj1 (save_leaves_other_entries long_100 who_ema who_gap 50000 _ H)
               Ledger.Written Hw).
Defined.

(** A save that fails while writing costs the other manager its entry. *)
Example truncated_save_loses_other_entry :
  let file := Ledger._save_positions long_100 who_gap Ledger.NoFile Ledger.Written in
  fst (Ledger._load_positions who_gap 50000 file) !! "NSE_EQ_INFY"
  = Portfolio.positions long_100 !! "NSE_EQ_INFY"
  /\ Ledger._load_positions who_gap 50000
       (Ledger._save_positions long_100 who_ema file Ledger.Truncated)
     = (∅, 50000%Q).
Proof. split; vm_compute; reflexivity. Qed.

Lemma filled_buy_witness :
  (Py.upper (Broker.transaction_type (Scenario.market_order "BUY" 10 100)) = "BUY"
   /\ Broker.od_status
        (snd (Broker.place_order (Broker.init 0 1)
                (Scenario.market_order "BUY" 10 100) Scenario.draws))
      = "FILLED")
  /\ (0 <= Broker.current_funds
             (fst (Broker.place_order (Broker.init 0 1)
                     (Scenario.market_order "BUY" 10 100) Scenario.draws)))%Q.
Proof.
  split; [split; vm_compute; reflexivity|].
  apply (filled_buy_keeps_funds_nonnegative (Broker.init 0 1)
           (Scenario.market_order "BUY" 10 100) Scenario.draws);
    vm_compute; reflexivity.
Defined.

Lemma unknown_trade_type_witness :
  (Py.lower "hedge" <> "entry" /\ Py.lower "hedge" <> "exit")
  /\ RiskManager.validate_order (Scenario.fixed_broker 1000 20 1000000)
       "NSE_EQ_INFY" 100 "MIS" "BUY" "hedge" 100
     = Py.Ret (false, 0%Q, 0%Q).
Proof.
  split; [split; discriminate|].
  apply unknown_trade_type_is_refused; discriminate.
Defined.

Lemma record_signal_witness :
  (length (Signals.signal_history enhanced_adapter) <= 1000)%nat
  /\ (length (Signals.signal_history
                (Signals._record_signal enhanced_adapter buy_signal 0))
      <= 1000)%nat.
Proof.
  assert (H : (length (Signals.signal_history enhanced_adapter) <= 1000)%nat)
    by (simpl; lia).
  split; [exact H|].
  apply (record_signal_bounds_history enhanced_adapter buy_signal 0 H).
Defined.

Lemma first_entry_blocked_witness :
  (Signals.is_enhanced enhanced_adapter = true
   /\ Signals.st_positions flat_state = []
   /\ Signals._validate_signal buy_signal = true
   /\ (0 < Signals.price buy_signal)%Q)
  /\ snd (Signals.on_signal_event enhanced_adapter
            (Scenario.fixed_broker 100 20 1000000) (Some flat_state)
            buy_signal 0) = [].
Proof.
  split; [repeat split|].
  apply (enhanced_first_entry_is_blocked enhanced_adapter
           (Scenario.fixed_broker 100 20 1000000) flat_state buy_signal 0);
    reflexivity.
Defined.

Lemma failed_initialize_witness :
  (size (Lifecycle.strategies bool one_running)
   < Lifecycle.max_concurrent_strategies bool one_running)%nat
  /\ exists inst,
      Lifecycle.strategies bool
        (fst (Lifecycle.add_strategy bool one_running "gap" "deadbeef"
                (Py.Ret true)
                (Some (true, Py.Raise (Py.RuntimeError "initialize")))))
      !! "gap_deadbeef" = Some inst
      /\ StrategyManager.status bool inst = StrategyManager.ERROR
      /\ StrategyManager.error_count bool inst = 1.
Proof.
  assert (H : (size (Lifecycle.strategies bool one_running)
               < Lifecycle.max_concurrent_strategies bool one_running)%nat)
    by (vm_compute; lia).
  split; [exact H|].
  apply (failed_initialize_keeps_entry unit bool one_running "gap" "deadbeef"
           true true (Py.RuntimeError "initialize") H).
Defined.

Lemma pause_witness :
  Lifecycle.strategies bool one_running !! "ema_0a1b2c3d"
  = Some (StrategyManager.new_instance bool "ema_0a1b2c3d" "ema" false)
  /\ StrategyManager.delivered unit bool
       (Lifecycle.strategies bool
          (Lifecycle.pause_strategy bool one_running "ema_0a1b2c3d"))
       (tt, None) "ema_0a1b2c3d" = false.
Proof.
  assert (H : Lifecycle.strategies bool one_running !! "ema_0a1b2c3d"
              = Some (StrategyManager.new_instance bool "ema_0a1b2c3d" "ema" false))
    by (vm_compute; reflexivity).
  split; [exact H|].
  apply (pause_stops_delivery unit bool Scenario.handler one_running
           "ema_0a1b2c3d" _ (tt, None) H).
Defined.


End FurtherInstances.
